(** * Gesture-driven formation engine of the christmas-tree scene

    A shallow embedding of the gesture controller, the application state,
    the tree layout helper, the per-frame animators and the login handler,
    followed by the properties proved about them.

    Numbers.  In the gesture controller and the application state a
    JavaScript [number] is a binary64 floating-point number ([float]): the
    arithmetic there is [+], [-], [*], [/], [Math.max], [Math.abs] and
    comparisons, all of which the model computes as the program does.  In
    the layout helper and the animators a [number] is a real ([R]): they
    use [Math.sin], [Math.cos], [Math.PI], [Math.pow] and Euclidean
    distances, and their properties are those of exact arithmetic;
    rounding is not modelled there.  The position blend itself needs none
    of these functions, so it is also given as the program computes it, on
    binary64 numbers (module [Scene64]); where the two differ, in that a
    blend stalls a rounding error short of its target or lands a unit in
    the last place past it, the statements say which arithmetic they are
    about.

    Exceptions.  [Login.handler] takes [readSession] as a call that
    returned; [Session.handlerOutcome] is the handler with a [readSession]
    that can throw. *)

From Stdlib Require Import Floats ZArith.
From Stdlib Require Import String List Bool Lia.
From Stdlib Require Import Reals Lra.
Import ListNotations.

#[local] Set Warnings "-inexact-float".

(** ** Shared vocabulary *)

(** The scene mode: the union type ["CHAOS" | "FORMED"]. *)
Inductive SceneMode : Type :=
| CHAOS
| FORMED.

Definition SceneMode_eqb (a b : SceneMode) : bool :=
  match a, b with
  | CHAOS, CHAOS | FORMED, FORMED => true
  | _, _ => false
  end.

(** The three callbacks [GestureController] receives as props; a call is
    recorded with its argument. *)
Inductive Callback : Type :=
| onGesture (mode : SceneMode)
| onMove (speed : float)
| onStatus (text : string).

(** ** Operations on numbers *)

Module JS.

Open Scope float_scope.

(** [a > b]. *)
Definition gt (a b : float) : bool := b <? a.

(** [Math.max(a, b)]: NaN when either is NaN, and [+0] above [-0]. *)
Definition Math_max (a b : float) : float :=
  if is_nan a || is_nan b then nan
  else if a <? b then b
  else if b <? a then a
  else if get_sign a then b else a.

(** [Math.abs]. *)
Definition Math_abs (a : float) : float := abs a.

(** [Object.is] on numbers, the comparison of effect dependencies: NaN is
    itself, and [+0] is not [-0]. *)
Definition Object_is (a b : float) : bool :=
  if is_nan a then is_nan b
  else if is_zero a && is_zero b then Bool.eqb (get_sign a) (get_sign b)
  else a =? b.

End JS.

(** ** GestureController: the recognition loop *)

Module Gesture.

Open Scope float_scope.

(** One classification of the recognizer: [{ categoryName, score }]. *)
Record Category : Type := mkCategory {
  categoryName : string;
  score : float
}.

(** One hand landmark; only [x] is read by the controller. *)
Record NormalizedLandmark : Type := mkLandmark {
  x : float;
  y : float;
  z : float
}.

(** What [recognizeForVideo] returns: per detected hand, a list of
    classifications and a list of landmarks. *)
Record GestureRecognizerResult : Type := mkResult {
  gestures : list (list Category);
  landmarks : list (list NormalizedLandmark)
}.

(** The two variables [lastX] and [lastTimestamp] the effect closes over,
    both [number | null]. *)
Record Tracking : Type := mkTracking {
  lastX : option float;
  lastTimestamp : option float
}.

Definition initialTracking : Tracking :=
  {| lastX := None; lastTimestamp := None |}.

(** One pass of the loop body either finishes with new tracking variables
    or stops at a [TypeError] (reading [.categoryName] or [.x] of
    [undefined]); the callbacks made before either are kept in order. *)
Inductive Outcome : Type :=
| Done (calls : list Callback) (tracking : Tracking)
| TypeError (calls : list Callback).

Definition calls_of (o : Outcome) : list Callback :=
  match o with
  | Done cs _ => cs
  | TypeError cs => cs
  end.

(** [name === "Closed_Fist" && score > 0.4] and
    [name === "Open_Palm" && score > 0.4]. *)
Definition isClosedFist (name : string) (score : float) : bool :=
  String.eqb name "Closed_Fist" && JS.gt score 0.4.

Definition isOpenPalm (name : string) (score : float) : bool :=
  String.eqb name "Open_Palm" && JS.gt score 0.4.

(** The calls made when [score > 0.4]. *)
Definition commandCalls (debugMode : bool) (name : string) (isClosedFist : bool)
  : list Callback :=
  (if String.eqb name "Open_Palm" then [onGesture CHAOS] else [])
  ++ (if isClosedFist then [onGesture FORMED] else [])
  ++ (if debugMode then [onStatus ("DETECTED: " ++ name)] else []).

(** [(-deltaX / deltaT) * 280]. *)
Definition rawVelocity (currentX prevX now prevTimestamp : float) : float :=
  let deltaX := currentX - prevX in
  let deltaT := JS.Math_max (now - prevTimestamp) 1 in
  (- deltaX / deltaT) * 280.

(** The value passed to [onMove] when rotation can be controlled:
    [Math.abs(velocity) > 0.0002 ? velocity : 0]. *)
Definition rotationVelocity (currentX prevX now prevTimestamp : float) : float :=
  let velocity := rawVelocity currentX prevX now prevTimestamp in
  if JS.gt (JS.Math_abs velocity) 0.0002 then velocity else 0.

(** [predictWebcam], from the test [results.gestures.length > 0] on: the
    part that interprets one recognizer result.  [now] is the value of
    [performance.now()] read in the landmark branch. *)
Definition predictWebcam (debugMode : bool) (st : Tracking)
  (results : GestureRecognizerResult) (now : float) : Outcome :=
  match gestures results with
  | [] =>
      Done ([onMove 0]
            ++ (if debugMode then [onStatus "AI READY: NO HAND"] else []))
           {| lastX := None; lastTimestamp := None |}
  | [] :: _ => TypeError []
  | (c :: _) :: _ =>
      let name := categoryName c in
      let score := score c in
      let cmds :=
        if JS.gt score 0.4
        then commandCalls debugMode name (isClosedFist name score)
        else [] in
      match landmarks results with
      | [] => Done cmds st
      | [] :: _ => TypeError cmds
      | (p :: _) :: _ =>
          let currentX := x p in
          let prevX := lastX st in
          let prevTimestamp := lastTimestamp st in
          let move :=
            match isClosedFist name score || isOpenPalm name score,
                  prevX, prevTimestamp with
            | true, Some px, Some pt =>
                onMove (rotationVelocity currentX px now pt)
            | _, _, _ => onMove 0
            end in
          Done (cmds ++ [move])
               {| lastX := Some currentX; lastTimestamp := Some now |}
      end
  end.

(** The mode commands and the rotation velocities among a list of calls. *)
Fixpoint modeCommands (cs : list Callback) : list SceneMode :=
  match cs with
  | [] => []
  | onGesture m :: r => m :: modeCommands r
  | _ :: r => modeCommands r
  end.

Fixpoint velocities (cs : list Callback) : list float :=
  match cs with
  | [] => []
  | onMove v :: r => v :: velocities r
  | _ :: r => velocities r
  end.

(** The mode commands a first classification stands for: [CHAOS] for an
    open palm, [FORMED] for a closed fist, each scored above 0.4. *)
Definition commandsFor (c : Category) : list SceneMode :=
  if JS.gt (score c) 0.4 then
    if String.eqb (categoryName c) "Open_Palm" then [CHAOS]
    else if String.eqb (categoryName c) "Closed_Fist" then [FORMED]
    else []
  else [].

(** A first classification qualifies for rotation control when it is a
    closed fist or an open palm scored above the threshold:
    [isClosedFist || isOpenPalm]. *)
Definition qualifies (c : Category) : bool :=
  isClosedFist (categoryName c) (score c) || isOpenPalm (categoryName c) (score c).

End Gesture.

(** ** GrandTreeApp: scene mode and rotation speed *)

Module App.

Open Scope float_scope.

(** [const baseSpin = sceneState === "CHAOS" ? 0.03 : 0.01]. *)
Definition baseSpin (sceneState : SceneMode) : float :=
  match sceneState with
  | CHAOS => 0.03
  | FORMED => 0.01
  end.

(** The two [useState] cells [sceneState] and [rotationSpeed]. *)
Record State : Type := mkState {
  sceneState : SceneMode;
  rotationSpeed : float
}.

(** [useState("CHAOS")] and [useState(baseSpin)]. *)
Definition initial : State :=
  {| sceneState := CHAOS; rotationSpeed := baseSpin CHAOS |}.

Definition setSceneState (m : SceneMode) (s : State) : State :=
  {| sceneState := m; rotationSpeed := rotationSpeed s |}.

Definition setRotationSpeed (v : float) (s : State) : State :=
  {| sceneState := sceneState s; rotationSpeed := v |}.

(** [handleMove], with the [baseSpin] its [useCallback] closure captured
    at the last render. *)
Definition handleMove (capturedBaseSpin : float) (speed : float) (s : State)
  : State :=
  setRotationSpeed (capturedBaseSpin + speed) s.

(** The effect [useEffect(() => setRotationSpeed(baseSpin), [baseSpin])]:
    after a commit it runs when [baseSpin] differs from the previous
    render's. *)
Definition spinEffect (previousBaseSpin : float) (s : State) : State :=
  let b := baseSpin (sceneState s) in
  if JS.Object_is previousBaseSpin b then s else setRotationSpeed b s.

(** One callback, run with the closures of the last render. *)
Definition runCall (capturedBaseSpin : float) (s : State) (c : Callback) : State :=
  match c with
  | onGesture m => setSceneState m s
  | onMove v => handleMove capturedBaseSpin v s
  | onStatus _ => s
  end.

(** The callbacks of one recognition pass are batched into one render;
    the effect runs after the commit. *)
Definition runCalls (s : State) (cs : list Callback) : State :=
  let b := baseSpin (sceneState s) in
  spinEffect b (fold_left (runCall b) cs s).

(** [s => s === "CHAOS" ? "FORMED" : "CHAOS"]. *)
Definition flipMode (m : SceneMode) : SceneMode :=
  match m with CHAOS => FORMED | FORMED => CHAOS end.

(** The toggle button: [setSceneState(s => s === "CHAOS" ? "FORMED" : "CHAOS")],
    followed by the effect. *)
Definition toggle (s : State) : State :=
  let b := baseSpin (sceneState s) in
  spinEffect b (setSceneState (flipMode (sceneState s)) s).

(** What can happen to the application state from outside. *)
Inductive Event : Type :=
| Recognized (cs : list Callback)
| ToggleClicked.

Definition step (s : State) (e : Event) : State :=
  match e with
  | Recognized cs => runCalls s cs
  | ToggleClicked => toggle s
  end.

Definition run (es : list Event) (s : State) : State := fold_left step es s.

(** The history the rotation speed is compared with: the scene mode, and
    the gesture velocity in force, which is what the program retains of
    the velocities passed to [onMove]: the last one passed by a pass that
    left the mode as it was, since the mode last changed, and 0 when there
    is none.  It is not the most recent velocity: the velocity of a pass
    that changes the mode is overwritten by the effect, and [velocityInForce]
    gives 0 for such a pass. *)
Fixpoint lastMode (cs : list Callback) (current : SceneMode) : SceneMode :=
  match cs with
  | [] => current
  | onGesture m :: r => lastMode r m
  | _ :: r => lastMode r current
  end.




End App.

(** ** The scene: vectors, tree layout, object pools and frame callbacks *)

Module Scene.

Open Scope R_scope.

(** [a < b] and [a > b] on numbers. *)
Definition Rltb (a b : R) : bool := if Rlt_dec a b then true else false.
Definition Rgtb (a b : R) : bool := Rltb b a.

(** [Math.floor] of a non-negative number, as an array index. *)
Definition floorIndex (a : R) : nat := Z.to_nat (Int_part a).

(** [Math.pow] on a non-negative base and a positive exponent. *)
Definition Math_pow (base exponent : R) : R :=
  if Rlt_dec 0 base then Rpower base exponent else 0.

(** [THREE.Vector3], with the two methods the animators call and the
    Euclidean [distanceTo] the properties are stated with. *)
Module Vector3.

Record t : Type := mk {
  x : R;
  y : R;
  z : R
}.

Definition clone (v : t) : t := mk (x v) (y v) (z v).

(** [this.x += (v.x - this.x) * alpha], and so for [y] and [z]. *)
Definition lerp (self v : t) (alpha : R) : t :=
  mk (x self + (x v - x self) * alpha)
     (y self + (y v - y self) * alpha)
     (z self + (z v - z self) * alpha).

Definition distanceToSquared (self v : t) : R :=
  let dx := x self - x v in
  let dy := y self - y v in
  let dz := z self - z v in
  dx * dx + dy * dy + dz * dz.

Definition distanceTo (self v : t) : R := sqrt (distanceToSquared self v).

End Vector3.

(** [THREE.Euler], the rotation of a scene object. *)
Module Euler.

Record t : Type := mk {
  x : R;
  y : R;
  z : R
}.

End Euler.

(** [CONFIG.tree], [CONFIG.counts] and the colour tables. *)
Module CONFIG.

Definition tree_height : R := 32.
Definition tree_radius : R := 14.

Definition counts_ornaments : nat := 240.
Definition counts_elements : nat := 240.
Definition counts_lights : nat := 420.

Definition TOTAL_NUMBERED_PHOTOS : nat := 31.

Definition colors_red : string := "#D32F2F".
Definition colors_white : string := "#FFFFFF".
Definition colors_lights : list string :=
  ["#FF0000"; "#00FF00"; "#0000FF"; "#FFFF00"]%string.
Definition colors_borders : list string :=
  ["#FFFAF0"; "#F0E68C"; "#E6E6FA"; "#FFB6C1"; "#98FB98"; "#87CEFA";
   "#FFDAB9"]%string.
Definition colors_giftColors : list string :=
  ["#D32F2F"; "#FFD700"; "#1976D2"; "#2E7D32"]%string.

End CONFIG.

(** *** Random draws

    [Math.random()] is an oracle: the [k]-th call of a computation returns
    [rnd k].  A computation threads the number of calls made so far. *)

Definition Rand (A : Type) : Type := (nat -> R) -> nat -> A * nat.

Definition ret {A : Type} (a : A) : Rand A := fun _ k => (a, k).

Definition bind {A B : Type} (m : Rand A) (f : A -> Rand B) : Rand B :=
  fun rnd k => let (a, k') := m rnd k in f a rnd k'.

Definition Math_random : Rand R := fun rnd k => (rnd k, S k).

Definition runRand {A : Type} (m : Rand A) (rnd : nat -> R) : A := fst (m rnd 0%nat).

Notation "x <- m ;; f" := (bind m (fun x => f))
  (at level 61, m at next level, right associativity).

(** [Math.random()] returns a number in [[0, 1)]. *)
Definition unitDraws (rnd : nat -> R) : Prop := forall k, 0 <= rnd k < 1.

(** *** Helper: tree shape *)

(** The local radius of the cone at a normalized height:
    [rBase * (1 - normalizedY)]. *)
Definition localRadius (normalizedY : R) : R :=
  CONFIG.tree_radius * (1 - normalizedY).

(** The normalized height of a point of the tree: [(y + h / 2) / h]. *)
Definition normalizedHeightOf (y : R) : R :=
  (y + CONFIG.tree_height / 2) / CONFIG.tree_height.

(** [getTreePosition], the formed position of a foliage particle. *)
Definition getTreePosition : Rand Vector3.t :=
  let h := CONFIG.tree_height in
  u <- Math_random ;;
  let y := u * h - h / 2 in
  let normalizedY := normalizedHeightOf y in
  let currentRadius := localRadius normalizedY in
  v <- Math_random ;;
  let theta := v * PI * 2 in
  w <- Math_random ;;
  let r := w * currentRadius in
  ret (Vector3.mk (r * cos theta) y (r * sin theta)).

(** The distance of a point from the axis of the tree. *)
Definition axisDistance (p : Vector3.t) : R :=
  sqrt (Vector3.x p * Vector3.x p + Vector3.z p * Vector3.z p).

(** *** Scene objects *)

(** [THREE.MeshStandardMaterial]: the one property the animators write. *)
Record Material : Type := mkMaterial {
  emissiveIntensity : R
}.

(** A child of a pool's group: a [THREE.Group] or a [THREE.Mesh]. *)
Record Object3D : Type := mkObject3D {
  position : Vector3.t;
  rotation : Euler.t;
  material : option Material
}.

(** *** Photo ornaments *)

Record PhotoData : Type := mkPhotoData {
  photo_chaosPos : Vector3.t;
  photo_targetPos : Vector3.t;
  photo_scale : R;
  photo_weight : R;
  photo_textureIndex : nat;
  photo_borderColor : string;
  photo_currentPos : Vector3.t;
  photo_chaosRotation : Euler.t;
  photo_rotationSpeed : Vector3.t;
  photo_wobbleOffset : R;
  photo_wobbleSpeed : R
}.

(** One entry of [PhotoOrnaments]' [data], for index [i]. *)
Definition makePhoto (i : nat) : Rand PhotoData :=
  c1 <- Math_random ;; c2 <- Math_random ;; c3 <- Math_random ;;
  let chaosPos :=
    Vector3.mk ((c1 - 0.5) * 70) ((c2 - 0.5) * 70) ((c3 - 0.5) * 70) in
  let h := CONFIG.tree_height in
  u <- Math_random ;;
  let y := u * h - h / 2 in
  let rBase := CONFIG.tree_radius in
  let currentRadius := rBase * (1 - (y + h / 2) / h) + 0.5 in
  v <- Math_random ;;
  let theta := v * PI * 2 in
  let targetPos :=
    Vector3.mk (currentRadius * cos theta) y (currentRadius * sin theta) in
  b <- Math_random ;;
  let isBig := Rltb b 0.2 in
  baseScale <- (if isBig then ret 2.2
                else (s <- Math_random ;; ret (0.8 + s * 0.6))) ;;
  w <- Math_random ;;
  let weight := 0.8 + w * 1.2 in
  k <- Math_random ;;
  let borderColor :=
    nth (floorIndex (k * INR (length CONFIG.colors_borders)))
        CONFIG.colors_borders EmptyString in
  s1 <- Math_random ;; s2 <- Math_random ;; s3 <- Math_random ;;
  let rotationSpeed :=
    Vector3.mk ((s1 - 0.5) * 1.0) ((s2 - 0.5) * 1.0) ((s3 - 0.5) * 1.0) in
  e1 <- Math_random ;; e2 <- Math_random ;; e3 <- Math_random ;;
  let chaosRotation := Euler.mk (e1 * PI) (e2 * PI) (e3 * PI) in
  o <- Math_random ;;
  p <- Math_random ;;
  ret {| photo_chaosPos := chaosPos;
         photo_targetPos := targetPos;
         photo_scale := baseScale;
         photo_weight := weight;
         photo_textureIndex := Nat.modulo i CONFIG.TOTAL_NUMBERED_PHOTOS;
         photo_borderColor := borderColor;
         photo_currentPos := Vector3.clone chaosPos;
         photo_chaosRotation := chaosRotation;
         photo_rotationSpeed := rotationSpeed;
         photo_wobbleOffset := o * 10;
         photo_wobbleSpeed := 0.5 + p * 0.5 |}.

(** *** Christmas elements *)

Record ElementData : Type := mkElementData {
  element_type : nat;
  element_chaosPos : Vector3.t;
  element_targetPos : Vector3.t;
  element_color : string;
  element_scale : R;
  element_currentPos : Vector3.t;
  element_chaosRotation : Euler.t;
  element_rotationSpeed : Vector3.t
}.

(** One entry of [ChristmasElements]' [data]. *)
Definition makeElement (i : nat) : Rand ElementData :=
  c1 <- Math_random ;; c2 <- Math_random ;; c3 <- Math_random ;;
  let chaosPos :=
    Vector3.mk ((c1 - 0.5) * 60) ((c2 - 0.5) * 60) ((c3 - 0.5) * 60) in
  let h := CONFIG.tree_height in
  u <- Math_random ;;
  let y := u * h - h / 2 in
  let rBase := CONFIG.tree_radius in
  let currentRadius := rBase * (1 - (y + h / 2) / h) * 0.95 in
  v <- Math_random ;;
  let theta := v * PI * 2 in
  let targetPos :=
    Vector3.mk (currentRadius * cos theta) y (currentRadius * sin theta) in
  t <- Math_random ;;
  let type := floorIndex (t * 3) in
  color <- (if Nat.eqb type 2
            then (k <- Math_random ;;
                  ret (if Rgtb k 0.5 then CONFIG.colors_red
                       else CONFIG.colors_white))
            else (k <- Math_random ;;
                  ret (nth (floorIndex (k * INR (length CONFIG.colors_giftColors)))
                           CONFIG.colors_giftColors EmptyString))) ;;
  s <- Math_random ;;
  let scale :=
    if Nat.eqb type 0 then 0.8 + s * 0.6
    else if Nat.eqb type 1 then 0.9 + s * 0.6
    else 0.9 + s * 0.4 in
  s1 <- Math_random ;; s2 <- Math_random ;; s3 <- Math_random ;;
  let rotationSpeed :=
    Vector3.mk ((s1 - 0.5) * 2.0) ((s2 - 0.5) * 2.0) ((s3 - 0.5) * 2.0) in
  e1 <- Math_random ;; e2 <- Math_random ;; e3 <- Math_random ;;
  ret {| element_type := type;
         element_chaosPos := chaosPos;
         element_targetPos := targetPos;
         element_color := color;
         element_scale := scale;
         element_currentPos := Vector3.clone chaosPos;
         element_chaosRotation := Euler.mk (e1 * PI) (e2 * PI) (e3 * PI);
         element_rotationSpeed := rotationSpeed |}.

(** *** Fairy lights *)

Record LightData : Type := mkLightData {
  light_chaosPos : Vector3.t;
  light_targetPos : Vector3.t;
  light_color : string;
  light_speed : R;
  light_currentPos : Vector3.t;
  light_timeOffset : R;
  light_normalizedHeight : R
}.

(** One entry of [FairyLights]' [data]. *)
Definition makeLight (i : nat) : Rand LightData :=
  let h := CONFIG.tree_height in
  t <- Math_random ;;
  let y := Math_pow t 1.8 * h - h / 2 in
  c1 <- Math_random ;; c2 <- Math_random ;; c3 <- Math_random ;;
  let chaosPos :=
    Vector3.mk ((c1 - 0.5) * 60) (y + (c2 - 0.5) * 5) ((c3 - 0.5) * 60) in
  let rBase := CONFIG.tree_radius in
  let normalizedHeight := (y + h / 2) / h in
  let currentRadius := rBase * (1 - normalizedHeight) + 0.3 in
  v <- Math_random ;;
  let theta := v * PI * 2 in
  let targetPos :=
    Vector3.mk (currentRadius * cos theta) y (currentRadius * sin theta) in
  k <- Math_random ;;
  let color :=
    nth (floorIndex (k * INR (length CONFIG.colors_lights)))
        CONFIG.colors_lights EmptyString in
  s <- Math_random ;;
  let speed := 2 + s * 3 in
  o <- Math_random ;;
  ret {| light_chaosPos := chaosPos;
         light_targetPos := targetPos;
         light_color := color;
         light_speed := speed;
         light_currentPos := Vector3.clone chaosPos;
         light_timeOffset := o * 100;
         light_normalizedHeight := normalizedHeight |}.

(** [new Array(count).fill(0).map((_, i) => make(i))], from index [i] on. *)
Fixpoint makeData {A : Type} (make : nat -> Rand A) (count i : nat)
  : Rand (list A) :=
  match count with
  | O => ret []
  | S n =>
      a <- make i ;;
      rest <- makeData make n (S i) ;;
      ret (a :: rest)
  end.

(** *** Frame callbacks

    A pool pairs each entry of a component's [data] with the child of the
    group rendered for it ([data.map] renders child [i] for [data[i]], and
    the frame callback visits child [i] with [data[i]]).  Scale, colour and
    geometry of the children are not modelled. *)

Definition setPosition (o : Object3D) (p : Vector3.t) : Object3D :=
  {| position := Vector3.clone p; rotation := rotation o; material := material o |}.

Definition setRotation (o : Object3D) (r : Euler.t) : Object3D :=
  {| position := position o; rotation := r; material := material o |}.

(** [rotation.x += delta * speed.x], and so for [y] and [z]. *)
Definition tumble (o : Object3D) (delta : R) (speed : Vector3.t) : Object3D :=
  setRotation o
    (Euler.mk (Euler.x (rotation o) + delta * Vector3.x speed)
              (Euler.y (rotation o) + delta * Vector3.y speed)
              (Euler.z (rotation o) + delta * Vector3.z speed)).

(** The assignment to [material.emissiveIntensity], guarded by
    [if (mesh.material)]. *)
Definition setEmissiveIntensity (o : Object3D) (v : R) : Object3D :=
  match material o with
  | Some _ =>
      {| position := position o; rotation := rotation o;
         material := Some {| emissiveIntensity := v |} |}
  | None => o
  end.

Definition photo_setCurrentPos (d : PhotoData) (p : Vector3.t) : PhotoData :=
  {| photo_chaosPos := photo_chaosPos d;
     photo_targetPos := photo_targetPos d;
     photo_scale := photo_scale d;
     photo_weight := photo_weight d;
     photo_textureIndex := photo_textureIndex d;
     photo_borderColor := photo_borderColor d;
     photo_currentPos := p;
     photo_chaosRotation := photo_chaosRotation d;
     photo_rotationSpeed := photo_rotationSpeed d;
     photo_wobbleOffset := photo_wobbleOffset d;
     photo_wobbleSpeed := photo_wobbleSpeed d |}.

Definition element_setCurrentPos (d : ElementData) (p : Vector3.t) : ElementData :=
  {| element_type := element_type d;
     element_chaosPos := element_chaosPos d;
     element_targetPos := element_targetPos d;
     element_color := element_color d;
     element_scale := element_scale d;
     element_currentPos := p;
     element_chaosRotation := element_chaosRotation d;
     element_rotationSpeed := element_rotationSpeed d |}.

Definition light_setCurrentPos (d : LightData) (p : Vector3.t) : LightData :=
  {| light_chaosPos := light_chaosPos d;
     light_targetPos := light_targetPos d;
     light_color := light_color d;
     light_speed := light_speed d;
     light_currentPos := p;
     light_timeOffset := light_timeOffset d;
     light_normalizedHeight := light_normalizedHeight d |}.

(** The blend rate each class multiplies [delta] with. *)
Definition photoRate (isFormed : bool) (d : PhotoData) : R :=
  if isFormed then 0.8 * photo_weight d else 0.5.
Definition elementRate : R := 1.5.
Definition lightRate : R := 2.0.

Definition isFormedOf (state : SceneMode) : bool := SceneMode_eqb state FORMED.

(** [const target = isFormed ? objData.targetPos : objData.chaosPos]. *)
Definition photoTarget (state : SceneMode) (d : PhotoData) : Vector3.t :=
  if isFormedOf state then photo_targetPos d else photo_chaosPos d.
Definition elementTarget (state : SceneMode) (d : ElementData) : Vector3.t :=
  if isFormedOf state then element_targetPos d else element_chaosPos d.
Definition lightTarget (state : SceneMode) (d : LightData) : Vector3.t :=
  if isFormedOf state then light_targetPos d else light_chaosPos d.

(** The distance of an object from the target of a mode. *)
Definition photoDistance (state : SceneMode) (d : PhotoData) : R :=
  Vector3.distanceTo (photo_currentPos d) (photoTarget state d).
Definition elementDistance (state : SceneMode) (d : ElementData) : R :=
  Vector3.distanceTo (element_currentPos d) (elementTarget state d).
Definition lightDistance (state : SceneMode) (d : LightData) : R :=
  Vector3.distanceTo (light_currentPos d) (lightTarget state d).

Definition heightBoost (normalizedHeight : R) : R :=
  0.55 + (1 - normalizedHeight) * 0.9.

Section FrameCallbacks.

(** [Object3D.lookAt] of three.js: the rotation an object at its position
    takes to face a point.  Its value is not needed here. *)
Variable lookAt : Object3D -> Vector3.t -> Euler.t.

(** The body of [forEach] in [PhotoOrnaments]' frame callback. *)
Definition photoStep (state : SceneMode) (time delta : R)
  (e : PhotoData * Object3D) : PhotoData * Object3D :=
  let (objData, group) := e in
  let isFormed := isFormedOf state in
  let target :=
    if isFormed then photo_targetPos objData else photo_chaosPos objData in
  let currentPos :=
    Vector3.lerp (photo_currentPos objData) target
                 (delta * (if isFormed then 0.8 * photo_weight objData else 0.5)) in
  let objData' := photo_setCurrentPos objData currentPos in
  let group1 := setPosition group currentPos in
  if isFormed then
    let targetLookPos :=
      Vector3.mk (Vector3.x (position group1) * 2)
                 (Vector3.y (position group1) + 0.5)
                 (Vector3.z (position group1) * 2) in
    let facing := lookAt group1 targetLookPos in
    let wobbleX :=
      sin (time * photo_wobbleSpeed objData + photo_wobbleOffset objData) * 0.05 in
    let wobbleZ :=
      cos (time * photo_wobbleSpeed objData * 0.8 + photo_wobbleOffset objData)
      * 0.05 in
    (objData',
     setRotation group1
       (Euler.mk (Euler.x facing + wobbleX) (Euler.y facing)
                 (Euler.z facing + wobbleZ)))
  else
    (objData', tumble group1 delta (photo_rotationSpeed objData)).

(** The body of [forEach] in [ChristmasElements]' frame callback. *)
Definition elementStep (state : SceneMode) (delta : R)
  (e : ElementData * Object3D) : ElementData * Object3D :=
  let (objData, mesh) := e in
  let isFormed := isFormedOf state in
  let target :=
    if isFormed then element_targetPos objData else element_chaosPos objData in
  let currentPos := Vector3.lerp (element_currentPos objData) target (delta * 1.5) in
  (element_setCurrentPos objData currentPos,
   tumble (setPosition mesh currentPos) delta (element_rotationSpeed objData)).

(** The emissive intensity [FairyLights] assigns to a light. *)
Definition lightIntensity (state : SceneMode) (time : R) (objData : LightData) : R :=
  let intensity :=
    (sin (time * light_speed objData + light_timeOffset objData) + 1) / 2 in
  let heightBoost := 0.55 + (1 - light_normalizedHeight objData) * 0.9 in
  if isFormedOf state then (3 + intensity * 4) * heightBoost else 0.

(** The body of [forEach] in [FairyLights]' frame callback. *)
Definition lightStep (state : SceneMode) (time delta : R)
  (e : LightData * Object3D) : LightData * Object3D :=
  let (objData, mesh) := e in
  let isFormed := isFormedOf state in
  let target :=
    if isFormed then light_targetPos objData else light_chaosPos objData in
  let currentPos := Vector3.lerp (light_currentPos objData) target (delta * 2.0) in
  (light_setCurrentPos objData currentPos,
   setEmissiveIntensity (setPosition mesh currentPos)
                        (lightIntensity state time objData)).

(** A mounted component: whether [groupRef.current] is set, and its pool. *)
Record Pool (D : Type) : Type := mkPool {
  groupRef : bool;
  entries : list (D * Object3D)
}.

Arguments groupRef {D} _.
Arguments entries {D} _.

(** A frame callback: [if (!groupRef.current) return;] and then the
    [forEach] over the children. *)
Definition useFrame {D : Type} (body : D * Object3D -> D * Object3D)
  (p : Pool D) : Pool D :=
  if groupRef p then {| groupRef := true; entries := map body (entries p) |}
  else p.

(** The scene below [Experience]: the [state] prop and the three pools. *)
Record World : Type := mkWorld {
  state : SceneMode;
  photos : Pool PhotoData;
  elements : Pool ElementData;
  lights : Pool LightData
}.

(** One display frame at clock time [time], [delta] after the last. *)
Definition frame (time delta : R) (w : World) : World :=
  {| state := state w;
     photos := useFrame (photoStep (state w) time delta) (photos w);
     elements := useFrame (elementStep (state w) delta) (elements w);
     lights := useFrame (lightStep (state w) time delta) (lights w) |}.

(** The [rotation] prop of a photo group,
    [state === "CHAOS" ? obj.chaosRotation : [0, 0, 0]], written to the
    group when a render changes it. *)
Definition photoRotationProp (state : SceneMode) (d : PhotoData) : Euler.t :=
  match state with
  | CHAOS => photo_chaosRotation d
  | FORMED => Euler.mk 0 0 0
  end.

Definition applyPhotoProps (state : SceneMode) (e : PhotoData * Object3D)
  : PhotoData * Object3D :=
  (fst e, setRotation (snd e) (photoRotationProp state (fst e))).

(** A mode command reaching the scene: a command equal to the current mode
    changes no prop; another one re-renders with the new [state]. *)
Definition setSceneState (m : SceneMode) (w : World) : World :=
  if SceneMode_eqb m (state w) then w
  else {| state := m;
          photos := {| groupRef := groupRef (photos w);
                       entries := map (applyPhotoProps m) (entries (photos w)) |};
          elements := elements w;
          lights := lights w |}.

Inductive Event : Type :=
| Frame (time delta : R)
| ModeCommand (m : SceneMode).

Definition step (w : World) (e : Event) : World :=
  match e with
  | Frame time delta => frame time delta w
  | ModeCommand m => setSceneState m w
  end.

Definition run (es : list Event) (w : World) : World := fold_left step es w.

(** The first render and mount, in mode [CHAOS]. *)
Definition mountPhoto (d : PhotoData) : PhotoData * Object3D :=
  (d, {| position := Vector3.mk 0 0 0;
         rotation := photoRotationProp CHAOS d;
         material := None |}).

Definition mountElement (d : ElementData) : ElementData * Object3D :=
  (d, {| position := Vector3.mk 0 0 0;
         rotation := element_chaosRotation d;
         material := None |}).

Definition mountLight (d : LightData) : LightData * Object3D :=
  (d, {| position := Vector3.mk 0 0 0;
         rotation := Euler.mk 0 0 0;
         material := Some {| emissiveIntensity := 0 |} |}).

(** The three pools are built in this order from the draws of
    [Math.random]. *)
Definition makeWorld : Rand World :=
  ps <- makeData makePhoto CONFIG.counts_ornaments 0 ;;
  es <- makeData makeElement CONFIG.counts_elements 0 ;;
  ls <- makeData makeLight CONFIG.counts_lights 0 ;;
  ret {| state := CHAOS;
         photos := {| groupRef := true; entries := map mountPhoto ps |};
         elements := {| groupRef := true; entries := map mountElement es |};
         lights := {| groupRef := true; entries := map mountLight ls |} |}.

(** The scatter and form targets of every object, pool by pool. *)
Definition targets (w : World) : list (Vector3.t * Vector3.t) :=
  map (fun e => (photo_chaosPos (fst e), photo_targetPos (fst e)))
      (entries (photos w))
  ++ map (fun e => (element_chaosPos (fst e), element_targetPos (fst e)))
         (entries (elements w))
  ++ map (fun e => (light_chaosPos (fst e), light_targetPos (fst e)))
         (entries (lights w)).

(** The sizes of the three pools. *)
Definition poolSizes (w : World) : nat * nat * nat :=
  (length (entries (photos w)), length (entries (elements w)),
   length (entries (lights w))).


(** Sample objects.  An element as [makeElement] builds it at mid-height
    (height draw 0.5, angle draw 0), at rest at its scatter position.  A
    light as [makeLight] builds it at mid-height (scatter draws 0.5, angle
    draw 0), still at its scatter position, 7.3 units from its formed
    position.  A light's mesh. *)
Definition restingElement : ElementData :=
  {| element_type := 0;
     element_chaosPos := Vector3.mk 3 4 5;
     element_targetPos := Vector3.mk 6.65 0 0;
     element_color := CONFIG.colors_red;
     element_scale := 1;
     element_currentPos := Vector3.clone (Vector3.mk 3 4 5);
     element_chaosRotation := Euler.mk 0 0 0;
     element_rotationSpeed := Vector3.mk 0 0 0 |}.

Definition originLight : LightData :=
  {| light_chaosPos := Vector3.mk 0 0 0;
     light_targetPos := Vector3.mk 7.3 0 0;
     light_color := "#FF0000";
     light_speed := 2;
     light_currentPos := Vector3.clone (Vector3.mk 0 0 0);
     light_timeOffset := 0;
     light_normalizedHeight := 1 / 2 |}.

Definition litMesh : Object3D :=
  {| position := Vector3.mk 0 0 0;
     rotation := Euler.mk 0 0 0;
     material := Some {| emissiveIntensity := 0 |} |}.

End FrameCallbacks.

Arguments groupRef {D} _.
Arguments entries {D} _.

End Scene.

(** ** The login endpoint *)

Module Login.

Open Scope string_scope.

(** The values a request body can hold. *)
#[local] Set Warnings "-register-all".
Inductive JsValue : Type :=
| JUndefined
| JNull
| JBool (b : bool)
| JNumber (n : float)
| JString (s : string)
| JArray (items : list JsValue)
| JObject (fields : list (string * JsValue)).

(** JavaScript truthiness, as [!v] and [v || w] read it. *)
Definition truthy (v : JsValue) : bool :=
  match v with
  | JUndefined | JNull => false
  | JBool b => b
  | JNumber n => negb (is_zero n || is_nan n)
  | JString s => negb (String.eqb s "")
  | JArray _ | JObject _ => true
  end.

Fixpoint lookup (k : string) (fields : list (string * JsValue)) : JsValue :=
  match fields with
  | [] => JUndefined
  | (k', v) :: rest => if String.eqb k k' then v else lookup k rest
  end.

(** Reading the property [k] of a value that is neither [null] nor
    [undefined]; only an object has the properties read here. *)
Definition getProp (v : JsValue) (k : string) : JsValue :=
  match v with
  | JObject fields => lookup k fields
  | _ => JUndefined
  end.

(** [username !== ALLOWED_USERNAME]. *)
Definition ALLOWED_USERNAME : string := "Guandacol".

Definition isAllowed (username : JsValue) : bool :=
  match username with
  | JString s => String.eqb s ALLOWED_USERNAME
  | _ => false
  end.

Record Request : Type := mkRequest {
  method : string;
  cookie : option string;
  body : JsValue;      (* [req.body], [JUndefined] when absent *)
  data : string        (* the chunks of the request stream, concatenated *)
}.

Record Response : Type := mkResponse {
  status : nat;
  json : JsValue;
  headers : list (string * string)
}.

(** What the handler leaves behind: the response, and the user names it
    queried the [users] table for, in order. *)
Record Result : Type := mkResult {
  response : Response;
  queries : list string
}.

(** The collaborators of the handler.  A [None] is a thrown exception or a
    rejected promise, except for [readSession], which is called outside
    [try]: there [None] is the value [null] of a call that returned, and a
    call that throws is not in this record (see [Session.handlerOutcome]). *)
Record Env : Type := mkEnv {
  JSON_parse : string -> option JsValue;
  readSession : Request -> option string;
  selectPasswordHash : string -> option (list (option string));
  bcrypt_compare : JsValue -> string -> option bool;
  sign : string -> string
}.

Definition SESSION_COOKIE : string := "tree_session".

(** [60 * 60 * 24 * 7], printed. *)
Definition SESSION_MAX_AGE_SECONDS : string := "604800".

Definition errorJson (message : string) : JsValue :=
  JObject [("error", JString message)].

Definition authenticatedJson (username : string) : JsValue :=
  JObject [("authenticated", JBool true); ("username", JString username)].

Definition setSessionCookie (env : Env) (username : string)
  : list (string * string) :=
  let value := username ++ "." ++ sign env username in
  [("Set-Cookie",
    SESSION_COOKIE ++ "=" ++ value ++ "; Path=/; HttpOnly; SameSite=Lax; Max-Age="
    ++ SESSION_MAX_AGE_SECONDS ++ "; Secure")].

(** [readBody]: the parsed [req.body] when truthy, else the stream, parsed
    unless empty. *)
Definition readBody (env : Env) (req : Request) : option JsValue :=
  if truthy (body req) then Some (body req)
  else if String.eqb (data req) "" then Some (JObject [])
  else JSON_parse env (data req).

Definition reply (code : nat) (payload : JsValue) : Result :=
  {| response := {| status := code; json := payload; headers := [] |};
     queries := [] |}.

(** The part of [handler] inside [try], for a body that was read. *)
Definition login (env : Env) (b : JsValue) : Result :=
  let b' := if truthy b then b else JObject [] in
  let username := getProp b' "username" in
  let password := getProp b' "password" in
  if negb (truthy username) || negb (truthy password) then
    reply 400 (errorJson "username and password are required")
  else if negb (isAllowed username) then
    reply 401 (errorJson "Invalid credentials")
  else
    (* here [username] is the string [ALLOWED_USERNAME] *)
    let asked := [ALLOWED_USERNAME] in
    match selectPasswordHash env ALLOWED_USERNAME with
    | None =>
        {| response := {| status := 500; json := errorJson "Unexpected error";
                          headers := [] |};
           queries := asked |}
    | Some [] =>
        {| response := {| status := 401; json := errorJson "Invalid credentials";
                          headers := [] |};
           queries := asked |}
    | Some (storedPassword :: _) =>
        let valid :=
          match storedPassword with
          | Some hash =>
              if Nat.ltb 0 (String.length hash)
              then bcrypt_compare env password hash
              else Some false
          | None => Some false
          end in
        match valid with
        | None =>
            {| response := {| status := 500; json := errorJson "Unexpected error";
                              headers := [] |};
               queries := asked |}
        | Some false =>
            {| response := {| status := 401; json := errorJson "Invalid credentials";
                              headers := [] |};
               queries := asked |}
        | Some true =>
            {| response := {| status := 200;
                              json := authenticatedJson ALLOWED_USERNAME;
                              headers := setSessionCookie env ALLOWED_USERNAME |};
               queries := asked |}
        end
    end.

(** [handler]. *)
Definition handler (env : Env) (req : Request) : Result :=
  if String.eqb (method req) "GET" then
    match readSession env req with
    | None => reply 401 (JObject [("authenticated", JBool false)])
    | Some username => reply 200 (authenticatedJson username)
    end
  else if negb (String.eqb (method req) "POST") then
    {| response := {| status := 405; json := errorJson "Method Not Allowed";
                      headers := [("Allow", "GET, POST")] |};
       queries := [] |}
  else
    match readBody env req with
    | None => reply 500 (errorJson "Unexpected error")
    | Some b => login env b
    end.

(** A sample environment whose collaborators all fail, and a sample
    request by another user. *)
Definition failingEnv : Env :=
  {| JSON_parse := fun _ => None;
     readSession := fun _ => None;
     selectPasswordHash := fun _ => None;
     bcrypt_compare := fun _ _ => None;
     sign := fun s => s |}.

Definition strangerRequest : Request :=
  {| method := "POST";
     cookie := None;
     body := JObject [("username", JString "alice"); ("password", JString "secret")];
     data := "" |}.

End Login.

From Stdlib Require Import Ascii.

#[local] Set Warnings "-abstract-large-number".

(** ** The recognition loop over a session *)

Module GestureLoop.

Import Gesture.
Open Scope float_scope.

(** The passes of [predictWebcam] over the recognizer results of a
    session, each with the time read for it.  A pass that ends normally
    schedules the next one with [requestAnimationFrame]; a pass that stops
    at a [TypeError] does not reach that call, and the loop ends with no
    tracking variables left to read. *)
Fixpoint runFrames (debugMode : bool) (st : Tracking)
  (frames : list (GestureRecognizerResult * float))
  : list Callback * option Tracking :=
  match frames with
  | [] => ([], Some st)
  | (results, now) :: rest =>
      match predictWebcam debugMode st results now with
      | Done cs st' =>
          let (cs', final) := runFrames debugMode st' rest in
          (cs ++ cs', final)
      | TypeError cs => (cs, None)
      end
  end.

(** What the recognizer promises: every detected hand comes with at least
    one classification and at least one landmark. *)
Definition handsComplete (results : GestureRecognizerResult) : Prop :=
  Forall (fun g => g <> []) (gestures results) /\
  Forall (fun l => l <> []) (landmarks results).

(** The two tracking variables are null together or set together. *)
Definition paired (st : Tracking) : Prop :=
  lastX st = None <-> lastTimestamp st = None.

(** A velocity fit to be passed to [onMove]: a number, and either 0 or of
    magnitude above 0.0002. *)
Definition goodVelocity (v : float) : Prop :=
  is_nan v = false /\ (v = 0 \/ JS.gt (JS.Math_abs v) 0.0002 = true).

(** A session with a hand in view at 0 ms and 16 ms and none at 32 ms. *)
Definition sampleSession : list (GestureRecognizerResult * float) :=
  [(mkResult [[mkCategory "Open_Palm" 0.9]] [[mkLandmark 0.5 0.5 0]], 0);
   (mkResult [[mkCategory "Open_Palm" 0.9]] [[mkLandmark 0.25 0.5 0]], 16);
   (mkResult [] [], 32)].

End GestureLoop.

(** ** The session cookie *)

Module Session.

Import Login.
Open Scope string_scope.

(** A string is a sequence of code units below 256, as the header strings
    of a request are. *)

(** [s.split(sep)] for a separator of one character: never empty. *)
Fixpoint split (sep : ascii) (s : string) : list string :=
  match s with
  | EmptyString => [EmptyString]
  | String c rest =>
      if Ascii.eqb c sep then EmptyString :: split sep rest
      else match split sep rest with
           | head :: tail => String c head :: tail
           | [] => [String c EmptyString]
           end
  end.

(** [parts.join(sep)]. *)
Definition join (sep : string) (parts : list string) : string :=
  String.concat sep parts.

(** White space as [trim] sees it, among the code units below 256: tab,
    line feed, vertical tab, form feed, carriage return, space and
    no-break space. *)
Definition isWhiteSpace (c : ascii) : bool :=
  let n := nat_of_ascii c in
  ((9 <=? n) && (n <=? 13) || (n =? 32) || (n =? 160))%nat.

Fixpoint trimStart (s : string) : string :=
  match s with
  | EmptyString => EmptyString
  | String c rest => if isWhiteSpace c then trimStart rest else s
  end.

Fixpoint trimEnd (s : string) : string :=
  match s with
  | EmptyString => EmptyString
  | String c rest =>
      match trimEnd rest with
      | EmptyString => if isWhiteSpace c then EmptyString else String c EmptyString
      | kept => String c kept
      end
  end.

Definition trim (s : string) : string := trimEnd (trimStart s).

(** The length of [Buffer.from(s)]: a code unit from 128 on takes two
    bytes in UTF-8. *)
Fixpoint byteLength (s : string) : nat :=
  match s with
  | EmptyString => 0
  | String c rest =>
      (if (nat_of_ascii c <? 128)%nat then 1 else 2) + byteLength rest
  end.

(** The two functions [readSession] calls that are not of this file:
    the HMAC behind [sign], and [decodeURIComponent], which throws a
    [URIError] ([None]) on a malformed escape. *)
Record Crypto : Type := mkCrypto {
  sign : string -> string;
  decodeURIComponent : string -> option string
}.

(** What a call of [readSession] comes to. *)
Inductive Read : Type :=
| Found (username : string)
| Absent
| Raised.

(** The body of the [map] over the entries of the cookie header. *)
Definition parseEntry (k : Crypto) (entry : string) : option (string * string) :=
  match split "=" (trim entry) with
  | key :: val =>
      match decodeURIComponent k key, decodeURIComponent k (join "=" val) with
      | Some key', Some val' => Some (key', val')
      | _, _ => None
      end
  | [] => None
  end.

(** The [map] itself: the first entry that throws ends it. *)
Fixpoint parseEntries (k : Crypto) (entries : list string)
  : option (list (string * string)) :=
  match entries with
  | [] => Some []
  | e :: rest =>
      match parseEntry k e with
      | None => None
      | Some kv =>
          match parseEntries k rest with
          | None => None
          | Some kvs => Some (kv :: kvs)
          end
      end
  end.

(** [Object.fromEntries(entries)[key]]: the last entry of a key wins. *)
Fixpoint property (key : string) (entries : list (string * string))
  : option string :=
  match entries with
  | [] => None
  | (k', v) :: rest =>
      match property key rest with
      | Some later => Some later
      | None => if String.eqb k' key then Some v else None
      end
  end.

(** [crypto.timingSafeEqual(Buffer.from(a), Buffer.from(b))]: a
    [RangeError] ([None]) when the byte lengths differ. *)
Definition timingSafeEqual (a b : string) : option bool :=
  if (byteLength a =? byteLength b)%nat then Some (String.eqb a b) else None.

(** [readSession], on the value of [req.headers.cookie]. *)
Definition readSession (k : Crypto) (cookieHeader : option string) : Read :=
  match cookieHeader with
  | None => Absent
  | Some EmptyString => Absent
  | Some header =>
      match parseEntries k (split ";" header) with
      | None => Raised
      | Some cookies =>
          match property SESSION_COOKIE cookies with
          | None => Absent
          | Some EmptyString => Absent
          | Some raw =>
              match split "." raw with
              | username :: providedSig :: _ =>
                  if String.eqb username "" || String.eqb providedSig ""
                  then Absent
                  else
                    let expectedSig := sign k username in
                    if negb (String.length providedSig =? String.length expectedSig)%nat
                    then Absent
                    else match timingSafeEqual providedSig expectedSig with
                         | None => Raised
                         | Some true => Found username
                         | Some false => Absent
                         end
              | _ => Absent
              end
          end
      end
  end.

(** The value [setSessionCookie] gives the cookie, and the pair a browser
    sends back for it: the part of the [Set-Cookie] header before its
    first [;]. *)
Definition sessionValue (k : Crypto) (username : string) : string :=
  username ++ "." ++ sign k username.

Definition cookiePair (setCookie : string) : string :=
  match split ";" setCookie with
  | first :: _ => first
  | [] => EmptyString
  end.

(** The header a browser sends back for the cookie of [username]. *)
Definition headerFor (k : Crypto) (username : string) : string :=
  SESSION_COOKIE ++ "=" ++ sessionValue k username.

(** An environment of the handler reads sessions and signs as [k] does. *)
Definition agrees (k : Crypto) (env : Env) : Prop :=
  (forall name, Login.sign env name = sign k name) /\
  (forall req username,
      readSession k (cookie req) = Found username ->
      Login.readSession env req = Some username).

(** The environment of the handler whose [sign] and [readSession] are
    the ones above, for the requests whose session can be read without an
    exception. *)
Definition envOf (k : Crypto) (env : Env) : Env :=
  {| JSON_parse := JSON_parse env;
     Login.readSession :=
       fun req => match readSession k (cookie req) with
                  | Found username => Some username
                  | _ => None
                  end;
     selectPasswordHash := selectPasswordHash env;
     bcrypt_compare := bcrypt_compare env;
     Login.sign := sign k |}.

(** A character does not occur in a string. *)
Fixpoint free (c : ascii) (s : string) : bool :=
  match s with
  | EmptyString => true
  | String c' rest => negb (Ascii.eqb c' c) && free c rest
  end.

(** What [digest("hex")] returns: lower-case hexadecimal digits, at least
    one. *)
Definition isHexDigit (c : ascii) : bool :=
  let n := nat_of_ascii c in
  ((48 <=? n) && (n <=? 57) || (97 <=? n) && (n <=? 102))%nat.

Fixpoint allHex (s : string) : bool :=
  match s with
  | EmptyString => true
  | String c rest => isHexDigit c && allHex rest
  end.

Definition hexDigest (s : string) : bool :=
  negb (String.eqb s "") && allHex s.

(** A sample signing function, writing 16 hexadecimal digits whatever the
    name, and the identity as decoder. *)
Definition sampleCrypto : Crypto :=
  {| sign := fun _ => "00112233aabbccdd";
     decodeURIComponent := fun s => Some s |}.

(** An environment whose table holds one hash, which the password
    "secret" matches, and the owner's login request. *)
Definition workingEnv : Env :=
  envOf sampleCrypto
    {| JSON_parse := fun _ => None;
       Login.readSession := fun _ => None;
       selectPasswordHash := fun _ => Some [Some "$2a$10$hash"];
       bcrypt_compare :=
         fun password _ =>
           Some (match password with
                 | JString p => String.eqb p "secret"
                 | _ => false
                 end);
       Login.sign := fun s => s |}.

Definition ownerRequest : Request :=
  {| method := "POST";
     cookie := None;
     body := JObject [("username", JString "Guandacol");
                      ("password", JString "secret")];
     data := "" |}.

(** What a call of the handler comes to: an answer, or an exception that
    leaves the handler, its promise rejected and nothing written to the
    response. *)
Inductive Outcome : Type :=
| Replied (r : Result)
| Threw.

(** [handler] with the [readSession] above.  The GET branch is outside
    [try]: when [readSession] raises, so does the handler.  Every other
    method goes the way of [Login.handler], which does not read the
    session. *)
Definition handlerOutcome (k : Crypto) (env : Env) (req : Request) : Outcome :=
  if String.eqb (method req) "GET" then
    match readSession k (cookie req) with
    | Found username => Replied (reply 200 (authenticatedJson username))
    | Absent => Replied (reply 401 (JObject [("authenticated", JBool false)]))
    | Raised => Threw
    end
  else Replied (handler (envOf k env) req).

(** A cookie whose signature has the sixteen code units of the expected
    one and seventeen bytes: its last character is U+00E9. *)
Definition longSignatureCookie : string :=
  "tree_session=Guandacol.00112233aabbccd" ++ String (ascii_of_nat 233) "".

End Session.

(** ** The page: authentication and background music *)

Module Client.

Import Login.
Open Scope string_scope.

Inductive AuthState : Type := checking | authed | unauthenticated.

Inductive AudioStatus : Type := idle | playing | paused | error.

(** What [fetch("/api/login", ...)] gives the page: a response with its
    status and what [res.json()] resolves to ([None] when it rejects), or a
    rejection. *)
Inductive Fetched : Type :=
| Answered (status : nat) (parsed : option JsValue)
| Rejected.

(** [res.ok]: the status is in the range 200-299. *)
Definition ok (status : nat) : bool :=
  Nat.leb 200 status && Nat.leb status 299.

(** The [useState] cells [authState], [authError] ([JNull] for [null]) and
    [submitting]. *)
Record Auth : Type := mkAuth {
  authState : AuthState;
  authError : JsValue;
  submitting : bool
}.

Definition initialAuth : Auth :=
  {| authState := checking; authError := JNull; submitting := false |}.

Definition setAuthState (v : AuthState) (a : Auth) : Auth :=
  {| authState := v; authError := authError a; submitting := submitting a |}.

(** [checkAuth], run once when the page mounts, on the answer of its
    [fetch]. *)
Definition checkAuth (f : Fetched) (a : Auth) : Auth :=
  match f with
  | Answered status parsed =>
      if negb (ok status) then setAuthState unauthenticated a
      else match parsed with
           | Some _ => setAuthState authed a
           | None => setAuthState unauthenticated a
           end
  | Rejected => setAuthState unauthenticated a
  end.

(** [handleLogin], on the answer of its [fetch]: [setSubmitting(true)] and
    [setAuthError(null)] first, [setSubmitting(false)] in [finally]. *)
Definition handleLogin (f : Fetched) (a : Auth) : Auth :=
  match f with
  | Answered status parsed =>
      if negb (ok status) then
        let payload := match parsed with Some v => v | None => JObject [] end in
        let message := getProp payload "error" in
        {| authState := unauthenticated;
           authError := if truthy message then message
                        else JString "Invalid credentials";
           submitting := false |}
      else
        match parsed with
        | Some _ =>
            {| authState := authed; authError := JNull; submitting := false |}
        | None =>
            {| authState := unauthenticated;
               authError := JString "Network error. Please try again.";
               submitting := false |}
        end
  | Rejected =>
      {| authState := unauthenticated;
         authError := JString "Network error. Please try again.";
         submitting := false |}
  end.

(** The page talking to the handler of [api/login.ts]: the request
    [handleLogin] sends, with its JSON body parsed into [req.body]; the
    request [checkAuth] sends; and the answer as [fetch] hands it over, the
    JSON body read back as it was written. *)
Definition loginRequest (cookie : option string) (username password : string)
  : Request :=
  {| method := "POST";
     cookie := cookie;
     body := JObject [("username", JString username);
                      ("password", JString password)];
     data := "" |}.

Definition checkRequest (cookie : option string) : Request :=
  {| method := "GET"; cookie := cookie; body := JUndefined; data := "" |}.

Definition served (r : Result) : Fetched :=
  Answered (status (response r)) (Some (json (response r))).

(** The audio element and the cell [audioStatus]. *)
Record HTMLAudioElement : Type := mkAudio {
  src : string;
  loop : bool;
  volume : float
}.

Definition AUDIO_VOLUME : float := 0.7%float.

Record AudioState : Type := mkAudioState {
  audioStatus : AudioStatus;
  audioRef : option HTMLAudioElement
}.

Definition initialAudio : AudioState :=
  {| audioStatus := idle; audioRef := None |}.

(** [new Audio("/background.mp3")] with [loop] and [volume] set. *)
Definition backgroundAudio : HTMLAudioElement :=
  {| src := "/background.mp3"; loop := true; volume := AUDIO_VOLUME |}.

(** [ensureAudio(options)]; [played] tells whether [play()] resolved. *)
Definition ensureAudio (silentAttempt played : bool) (s : AudioState)
  : AudioState :=
  let audio := match audioRef s with
               | Some a => a
               | None => backgroundAudio
               end in
  {| audioStatus := if played then playing
                    else if silentAttempt then audioStatus s else error;
     audioRef := Some audio |}.

(** [toggleAudio]. *)
Definition toggleAudio (played : bool) (s : AudioState) : AudioState :=
  match audioStatus s with
  | playing => {| audioStatus := paused; audioRef := audioRef s |}
  | _ => ensureAudio false played s
  end.

(** What can reach the music: a click on the button, which is rendered only
    once authenticated; the autoplay effect; the first pointer or key
    event.  The two last act only while authenticated and idle. *)
Inductive AudioEvent : Type :=
| ToggleAudioClicked (played : bool)
| Autoplay (played : bool)
| FirstGesture (played : bool).

Definition isAuthed (a : AuthState) : bool :=
  match a with authed => true | _ => false end.

Definition isIdle (s : AudioStatus) : bool :=
  match s with idle => true | _ => false end.

Definition audioStep (s : AudioState) (e : AuthState * AudioEvent) : AudioState :=
  match snd e with
  | ToggleAudioClicked played =>
      if isAuthed (fst e) then toggleAudio played s else s
  | Autoplay played =>
      if isAuthed (fst e) && isIdle (audioStatus s)
      then ensureAudio true played s else s
  | FirstGesture played =>
      if isAuthed (fst e) && isIdle (audioStatus s)
      then ensureAudio false played s else s
  end.

Definition audioRun (es : list (AuthState * AudioEvent)) (s : AudioState)
  : AudioState :=
  fold_left audioStep es s.

(** Whether [play()] resolved in the event. *)
Definition playedIn (e : AuthState * AudioEvent) : bool :=
  match snd e with
  | ToggleAudioClicked played | Autoplay played | FirstGesture played => played
  end.

End Client.

(** ** The position blend on binary64 numbers *)

Module Scene64.

Open Scope float_scope.

(** [THREE.Vector3] with the components the program stores, and [lerp] and
    [distanceTo] as it computes them. *)
Module Vector3.

Record t : Type := mk {
  x : float;
  y : float;
  z : float
}.

(** [this.x += (v.x - this.x) * alpha], and so for [y] and [z]. *)
Definition lerp (self v : t) (alpha : float) : t :=
  mk (x self + (x v - x self) * alpha)
     (y self + (y v - y self) * alpha)
     (z self + (z v - z self) * alpha).

Definition distanceToSquared (self v : t) : float :=
  let dx := x self - x v in
  let dy := y self - y v in
  let dz := z self - z v in
  dx * dx + dy * dy + dz * dz.

(** [Math.sqrt(this.distanceToSquared(v))]. *)
Definition distanceTo (self v : t) : float :=
  PrimFloat.sqrt (distanceToSquared self v).

End Vector3.

(** The blends of the frame callbacks:
    [objData.currentPos.lerp(target, delta * 1.5)] of an element and
    [objData.currentPos.lerp(target, delta * 2.0)] of a light. *)
Definition elementBlend (delta : float) (target currentPos : Vector3.t)
  : Vector3.t :=
  Vector3.lerp currentPos target (delta * 1.5).

Definition lightBlend (delta : float) (target currentPos : Vector3.t)
  : Vector3.t :=
  Vector3.lerp currentPos target (delta * 2.0).

(** [n] frames of a blend. *)
Fixpoint frames (blend : Vector3.t -> Vector3.t) (n : nat) (p : Vector3.t)
  : Vector3.t :=
  match n with
  | O => p
  | S m => frames blend m (blend p)
  end.

(** A frame length of a sixtieth of a second. *)
Definition sixtieth : float := 1 / 60.

(** Sample positions: the formed position of an element at mid-height and
    angle 0 and a scatter position on its level; the formed position of a
    light at mid-height and angle 0, the origin, and a scatter position on
    its level. *)
Definition elementTarget : Vector3.t := Vector3.mk 6.65 0 0.
Definition elementStart : Vector3.t := Vector3.mk 3 0 0.
Definition lightTarget : Vector3.t := Vector3.mk 7.3 0 0.
Definition lightOrigin : Vector3.t := Vector3.mk 0 0 0.
Definition lightStart : Vector3.t := Vector3.mk (-12.7) 0 0.

(** Where the sample element is after 2000 frames at 60 frames per second
    towards its formed position, and the sample light after 1000. *)
Definition stalledElement : Vector3.t :=
  frames (elementBlend sixtieth elementTarget) 2000 elementStart.

Definition stalledLight : Vector3.t :=
  frames (lightBlend sixtieth lightTarget) 1000 lightOrigin.

End Scene64.

(** ** Further parts of the scene *)

Module SceneMore.

Import Scene.
Open Scope R_scope.

(** The frames a light lives through in one mode, each with the clock time
    and the time since the frame before. *)
Definition lightAfter (state : SceneMode) (frames : list (R * R))
  (e : LightData * Object3D) : LightData * Object3D :=
  fold_left (fun e f => lightStep state (fst f) (snd f) e) frames e.

(** The product of the factors [|1 - delta * 2|] of the frames. *)
Fixpoint lightDecay (frames : list (R * R)) : R :=
  match frames with
  | [] => 1
  | f :: rest => Rabs (1 - snd f * 2) * lightDecay rest
  end.

(** [MathUtils.lerp] and [MathUtils.damp] of three.js:
    [(1 - t) * x + t * y] and [lerp(x, y, 1 - Math.exp(-lambda * dt))]. *)
Definition MathUtils_lerp (x y t : R) : R := (1 - t) * x + t * y.

Definition MathUtils_damp (x y lambda dt : R) : R :=
  MathUtils_lerp x y (1 - exp (- lambda * dt)).

(** The two uniforms [Foliage]'s frame callback writes. *)
Record FoliageMaterial : Type := mkFoliageMaterial {
  uTime : R;
  uProgress : R
}.

(** [shaderMaterial({ uTime: 0, ..., uProgress: 0 })]. *)
Definition newFoliageMaterial : FoliageMaterial :=
  {| uTime := 0; uProgress := 0 |}.

(** [Foliage]'s frame callback, on [materialRef.current] ([None] while the
    material is not mounted). *)
Definition foliageFrame (state : SceneMode) (elapsedTime delta : R)
  (materialRef : option FoliageMaterial) : option FoliageMaterial :=
  match materialRef with
  | Some m =>
      let targetProgress := if isFormedOf state then 1 else 0 in
      Some {| uTime := elapsedTime;
              uProgress := MathUtils_damp (uProgress m) targetProgress 1.5 delta |}
  | None => None
  end.

(** The group of [TopStar]: the scale and the rotation about the vertical
    axis that its frame callback writes. *)
Record StarGroup : Type := mkStarGroup {
  star_scale : Vector3.t;
  star_rotation_y : R
}.

(** A new [THREE.Group]: scale 1, no rotation. *)
Definition newStarGroup : StarGroup :=
  {| star_scale := Vector3.mk 1 1 1; star_rotation_y := 0 |}.

(** [TopStar]'s frame callback, on [groupRef.current]. *)
Definition starFrame (state : SceneMode) (delta : R) (groupRef : option StarGroup)
  : option StarGroup :=
  match groupRef with
  | Some g =>
      let targetScale := if isFormedOf state then 1 else 0 in
      Some {| star_scale :=
                Vector3.lerp (star_scale g)
                             (Vector3.mk targetScale targetScale targetScale)
                             (delta * 3);
              star_rotation_y := star_rotation_y g + delta * 0.5 |}
  | None => None
  end.

(** The three components of a vector are one number in [[0, 1]]. *)
Definition uniformUnit (v : Vector3.t) : Prop :=
  Vector3.x v = Vector3.y v /\ Vector3.y v = Vector3.z v /\ 0 <= Vector3.x v <= 1.

(** The frames a material or the star lives through: each with the [state]
    prop of its render, the clock time and the time since the frame
    before. *)
Definition foliageRun (frames : list (SceneMode * R * R))
  (materialRef : option FoliageMaterial) : option FoliageMaterial :=
  fold_left (fun m f => foliageFrame (fst (fst f)) (snd (fst f)) (snd f) m)
            frames materialRef.

Definition starRun (frames : list (SceneMode * R * R))
  (groupRef : option StarGroup) : option StarGroup :=
  fold_left (fun g f => starFrame (fst (fst f)) (snd f) g) frames groupRef.

(** The time the frames of a history take together. *)
Definition elapsed (frames : list (SceneMode * R * R)) : R :=
  fold_right (fun f acc => snd f + acc) 0 frames.

(** The fields of a data entry other than [currentPos]. *)
Definition photoConstants (d : PhotoData) :=
  (photo_chaosPos d, photo_targetPos d, photo_scale d, photo_weight d,
   photo_textureIndex d, photo_borderColor d, photo_chaosRotation d,
   photo_rotationSpeed d, photo_wobbleOffset d, photo_wobbleSpeed d).

Definition elementConstants (d : ElementData) :=
  (element_type d, element_chaosPos d, element_targetPos d, element_color d,
   element_scale d, element_chaosRotation d, element_rotationSpeed d).

Definition lightConstants (d : LightData) :=
  (light_chaosPos d, light_targetPos d, light_color d, light_speed d,
   light_timeOffset d, light_normalizedHeight d).

(** Of every entry of the three pools, in order, the fields other than
    [currentPos]. *)
Definition constants (w : World) :=
  (map (fun e => photoConstants (fst e)) (entries (photos w)),
   map (fun e => elementConstants (fst e)) (entries (elements w)),
   map (fun e => lightConstants (fst e)) (entries (lights w))).

(** Whether each rendered object has a material, pool by pool. *)
Definition hasMaterial (o : Object3D) : bool :=
  match material o with Some _ => true | None => false end.

Definition materials (w : World) :=
  (map (fun e => hasMaterial (snd e)) (entries (photos w)),
   map (fun e => hasMaterial (snd e)) (entries (elements w)),
   map (fun e => hasMaterial (snd e)) (entries (lights w))).

(** The three buffers of [Foliage]: [positions], [targetPositions] and
    [randoms]. *)
Record FoliageData : Type := mkFoliageData {
  positions : list R;
  targetPositions : list R;
  randoms : list R
}.

Definition counts_foliage : nat := 12000.

(** The loop that fills the buffers, from particle [i] on.  [spherePoints]
    is the buffer [random.inSphere] returned; [fround] is the rounding of a
    store into a [Float32Array]. *)
Fixpoint fillFoliage (fround : R -> R) (spherePoints : nat -> R)
  (count i : nat) : Rand FoliageData :=
  match count with
  | O => ret {| positions := []; targetPositions := []; randoms := [] |}
  | S n =>
      t <- getTreePosition ;;
      r <- Math_random ;;
      rest <- fillFoliage fround spherePoints n (S i) ;;
      ret {| positions :=
               spherePoints (i * 3)%nat :: spherePoints (i * 3 + 1)%nat
               :: spherePoints (i * 3 + 2)%nat :: positions rest;
             targetPositions :=
               fround (Vector3.x t) :: fround (Vector3.y t)
               :: fround (Vector3.z t) :: targetPositions rest;
             randoms := fround r :: randoms rest |}
  end.

(** The tree below [Experience]: the foliage with its buffers and its
    material, the three pools with the [state] prop, and the star. *)
Record Tree : Type := mkTree {
  foliage : FoliageData;
  foliageMaterial : option FoliageMaterial;
  pools : World;
  star : option StarGroup
}.

(** One display frame of the whole tree: the frame callbacks of
    [Foliage], of the three pools and of [TopStar], each with the [state]
    prop of the last render. *)
Definition treeFrame (lookAt : Object3D -> Vector3.t -> Euler.t)
  (time delta : R) (t : Tree) : Tree :=
  {| foliage := foliage t;
     foliageMaterial :=
       foliageFrame (state (pools t)) time delta (foliageMaterial t);
     pools := frame lookAt time delta (pools t);
     star := starFrame (state (pools t)) delta (star t) |}.

Definition treeStep (lookAt : Object3D -> Vector3.t -> Euler.t)
  (t : Tree) (e : Event) : Tree :=
  match e with
  | Frame time delta => treeFrame lookAt time delta t
  | ModeCommand m =>
      {| foliage := foliage t;
         foliageMaterial := foliageMaterial t;
         pools := setSceneState m (pools t);
         star := star t |}
  end.

Definition treeRun (lookAt : Object3D -> Vector3.t -> Euler.t)
  (es : list Event) (t : Tree) : Tree :=
  fold_left (treeStep lookAt) es t.

(** The first render and mount: the buffers of the foliage are filled
    first, then the three pools are built. *)
Definition makeTree (fround : R -> R) (spherePoints : nat -> R) : Rand Tree :=
  f <- fillFoliage fround spherePoints counts_foliage 0 ;;
  w <- makeWorld ;;
  ret {| foliage := f;
         foliageMaterial := Some newFoliageMaterial;
         pools := w;
         star := Some newStarGroup |}.

(** A property of every entry of the three pools. *)
Definition everyEntry (Pp : PhotoData * Object3D -> Prop)
  (Pe : ElementData * Object3D -> Prop) (Pl : LightData * Object3D -> Prop)
  (w : World) : Prop :=
  Forall Pp (entries (photos w)) /\
  Forall Pe (entries (elements w)) /\
  Forall Pl (entries (lights w)).

(** The three groups are mounted. *)
Definition mounted (w : World) : Prop :=
  groupRef (photos w) = true /\ groupRef (elements w) = true /\
  groupRef (lights w) = true.


Definition between (a b p : Vector3.t) : Prop :=
  exists s : R, 0 <= s <= 1 /\ p = Vector3.lerp a b s.

(** Every frame of a history is at most half a second long, and none runs
    backwards. *)
Definition shortFrame (e : Event) : Prop :=
  match e with
  | Frame _ delta => 0 <= delta <= 1 / 2
  | ModeCommand _ => True
  end.

(** A small mounted world: no photo, one element, one light. *)
Definition sampleWorld : World :=
  {| state := CHAOS;
     photos := {| groupRef := true; entries := [] |};
     elements := {| groupRef := true; entries := [mountElement restingElement] |};
     lights := {| groupRef := true; entries := [(originLight, litMesh)] |} |}.

(** Draws that are all one half. *)
Definition halves : nat -> R := fun _ => 1 / 2.

End SceneMore.


(** * Properties *)

(** ** Numbers *)

Section NumberFacts.

Open Scope float_scope.

(** Comparing the other way round gives the opposite answer. *)
Lemma SFcompare_antisym (a b : spec_float) :
  SFcompare b a = option_map CompOpp (SFcompare a b).
Proof.
  destruct a as [sa | sa | | sa ma ea], b as [sb | sb | | sb mb eb]; cbn;
    try reflexivity;
    try (destruct sa; reflexivity); try (destruct sb; reflexivity);
    try (destruct sa, sb; reflexivity).
  change (Pos.compare_cont Eq mb ma) with (Pos.compare mb ma).
  change (Pos.compare_cont Eq ma mb) with (Pos.compare ma mb).
  destruct sa, sb; cbn; try reflexivity;
    rewrite (Z.compare_antisym ea eb); destruct (ea ?= eb)%Z; cbn; try reflexivity;
    rewrite (Pos.compare_antisym ma mb);
    destruct (ma ?= mb)%positive; reflexivity.
Qed.

(** [a <= b] excludes [a > b]. *)
Lemma leb_not_gt (a b : float) : (a <=? b) = true -> JS.gt a b = false.
Proof.
  unfold JS.gt. rewrite FloatAxioms.leb_spec, FloatAxioms.ltb_spec.
  unfold SFleb, SFltb.
  rewrite (SFcompare_antisym (Prim2SF a) (Prim2SF b)).
  destruct (SFcompare (Prim2SF a) (Prim2SF b)) as [[| |] |]; cbn; congruence.
Qed.

(** Two numbers that [===] tells apart are different. *)
Lemma eqb_false_neq (a b : float) : (a =? b) = false -> (a =? a) = true -> a <> b.
Proof. intros H Hn E. subst b. congruence. Qed.

Example Math_max_examples :
  JS.Math_max 16 1 = 16 /\ JS.Math_max 0 1 = 1 /\ JS.Math_max (-5) 1 = 1 /\
  JS.Math_max nan 1 = nan /\ JS.Math_max (-0) 0 = 0.
Proof. repeat split; reflexivity. Qed.

End NumberFacts.

(** ** Gesture controller *)

Section GestureFacts.

Import Gesture.
Open Scope float_scope.

Lemma modeCommands_app (xs ys : list Callback) :
  modeCommands (xs ++ ys) = modeCommands xs ++ modeCommands ys.
Proof.
  induction xs as [| [m | v | t] xs IH]; simpl; congruence.
Qed.

Lemma velocities_app (xs ys : list Callback) :
  velocities (xs ++ ys) = velocities xs ++ velocities ys.
Proof.
  induction xs as [| [m | v | t] xs IH]; simpl; congruence.
Qed.

Lemma commandCalls_modes (debugMode : bool) (c : Category) :
  modeCommands
    (if JS.gt (score c) 0.4
     then commandCalls debugMode (categoryName c)
            (isClosedFist (categoryName c) (score c))
     else [])
  = commandsFor c.
Proof.
  unfold commandsFor, commandCalls, isClosedFist.
  destruct (JS.gt (score c) 0.4); [| reflexivity].
  rewrite andb_true_r.
  destruct (String.eqb_spec (categoryName c) "Open_Palm") as [E | E].
  - rewrite E. simpl. destruct debugMode; reflexivity.
  - destruct (String.eqb (categoryName c) "Closed_Fist");
      destruct debugMode; reflexivity.
Qed.

Lemma commandCalls_velocities (debugMode : bool) (name : string) (b : bool) :
  velocities (commandCalls debugMode name b) = [].
Proof.
  unfold commandCalls.
  destruct (String.eqb name "Open_Palm"), b, debugMode; reflexivity.
Qed.

Lemma predictWebcam_modes debugMode st c cs gs lms now :
  modeCommands
    (calls_of (predictWebcam debugMode st (mkResult ((c :: cs) :: gs) lms) now))
  = commandsFor c.
Proof.
  unfold predictWebcam. cbn [gestures landmarks].
  destruct lms as [| [| p ps] lms]; cbn [calls_of].
  - apply commandCalls_modes.
  - apply commandCalls_modes.
  - rewrite modeCommands_app, commandCalls_modes.
    match goal with
    | |- _ ++ modeCommands [?m] = _ =>
        assert (Hm : modeCommands [m] = []) by
          (destruct (_ || _), (lastX st), (lastTimestamp st); reflexivity);
        rewrite Hm
    end.
    apply app_nil_r.
Qed.

(** A closed fist scored 0.9 on the first frame a hand appears: command
    FORMED and velocity 0, and the landmark is remembered. *)
Example closed_fist_first_frame :
  predictWebcam false initialTracking
    (mkResult [[mkCategory "Closed_Fist" 0.9]] [[mkLandmark 0.3 0.5 0]]) 5
  = Done [onGesture FORMED; onMove 0] (mkTracking (Some 0.3) (Some 5)).
Proof. reflexivity. Qed.

(** The threshold is exclusive: 0.4 gives no command, 0.41 gives one. *)
Example open_palm_at_threshold :
  modeCommands
    (calls_of (predictWebcam false initialTracking
                 (mkResult [[mkCategory "Open_Palm" 0.4]] [[mkLandmark 0.3 0.5 0]]) 5))
  = [] /\
  modeCommands
    (calls_of (predictWebcam false initialTracking
                 (mkResult [[mkCategory "Open_Palm" 0.41]] [[mkLandmark 0.3 0.5 0]]) 5))
  = [CHAOS].
Proof. split; reflexivity. Qed.

(** In debug mode the status line follows the command. *)
Example debug_status_calls :
  predictWebcam true initialTracking
    (mkResult [[mkCategory "Open_Palm" 0.9]] [[mkLandmark 0.3 0.5 0]]) 5
  = Done [onGesture CHAOS; onStatus "DETECTED: Open_Palm"; onMove 0]
         (mkTracking (Some 0.3) (Some 5)) /\
  predictWebcam true (mkTracking (Some 0.3) (Some 5)) (mkResult [] []) 21
  = Done [onMove 0; onStatus "AI READY: NO HAND"] initialTracking.
Proof. split; reflexivity. Qed.

(** A movement inside the dead zone is suppressed; a larger one is not. *)
Example dead_zone_suppresses :
  rotationVelocity 0.500001 0.5 16 0 = 0 /\
  rotationVelocity 0.75 0.5 16 0 = -4.375.
Proof. split; reflexivity. Qed.

(** Duplicate timestamps: the time difference is floored to 1 ms. *)
Example duplicate_timestamp :
  rotationVelocity 0.25 0.5 100 100 = 70.
Proof. reflexivity. Qed.

End GestureFacts.

Section GestureClaims.

Import Gesture.
Open Scope float_scope.

Lemma commandsFor_chaos (c : Category) :
  commandsFor c = [CHAOS] <->
  categoryName c = "Open_Palm"%string /\ JS.gt (score c) 0.4 = true.
Proof.
  unfold commandsFor.
  destruct (JS.gt (score c) 0.4) eqn:Es.
  - destruct (String.eqb_spec (categoryName c) "Open_Palm") as [E | E].
    + tauto.
    + destruct (String.eqb (categoryName c) "Closed_Fist");
        split; intro H; try discriminate H; tauto.
  - split; [intro H; discriminate H |].
    intros [_ H]. discriminate H.
Qed.

Lemma commandsFor_formed (c : Category) :
  commandsFor c = [FORMED] <->
  categoryName c = "Closed_Fist"%string /\ JS.gt (score c) 0.4 = true.
Proof.
  unfold commandsFor.
  destruct (JS.gt (score c) 0.4) eqn:Es.
  - destruct (String.eqb_spec (categoryName c) "Open_Palm") as [E | E].
    + rewrite E. split; intro H; [discriminate H |].
      destruct H as [H _]. discriminate H.
    + destruct (String.eqb_spec (categoryName c) "Closed_Fist") as [F | F].
      * tauto.
      * split; intro H; [discriminate H | tauto].
  - split; [intro H; discriminate H |].
    intros [_ H]. discriminate H.
Qed.

Lemma commandsFor_none (c : Category) :
  commandsFor c = [] <->
  (JS.gt (score c) 0.4 = false \/
   (categoryName c <> "Open_Palm"%string /\ categoryName c <> "Closed_Fist"%string)).
Proof.
  unfold commandsFor.
  destruct (JS.gt (score c) 0.4) eqn:Es.
  - destruct (String.eqb_spec (categoryName c) "Open_Palm") as [E | E].
    + split; intro H; [discriminate H |].
      destruct H as [H | [H _]]; [discriminate H | contradiction].
    + destruct (String.eqb_spec (categoryName c) "Closed_Fist") as [F | F].
      * split; intro H; [discriminate H |].
        destruct H as [H | [_ H]]; [discriminate H | contradiction].
      * tauto.
  - tauto.
Qed.

(** Calls without a mode command leave the scene mode as it was. *)
Lemma runCalls_no_command (s : App.State) (cs : list Callback) :
  modeCommands cs = [] -> App.sceneState (App.runCalls s cs) = App.sceneState s.
Proof.
  intro H. unfold App.runCalls.
  assert (F : forall b cs s, modeCommands cs = [] ->
            App.sceneState (fold_left (App.runCall b) cs s) = App.sceneState s).
  { clear. intros b cs. induction cs as [| [m | v | t] cs IH]; intros s H; simpl in *.
    - reflexivity.
    - discriminate H.
    - rewrite IH by assumption. reflexivity.
    - apply IH. assumption. }
  unfold App.spinEffect.
  destruct (JS.Object_is _ _); cbn [App.setRotationSpeed App.sceneState];
    apply F; assumption.
Qed.

(** C3.  The first classification of a frame yields a mode command exactly
    when its score is strictly above 0.4 ([score > 0.4]) and its label is
    the open palm (command [CHAOS]) or the closed fist (command [FORMED]);
    a score of at most 0.4, and so one of exactly 0.4, yields none; a frame
    without classification yields none; and a pass without mode command
    leaves the scene mode as it was. *)
Theorem mode_command_threshold :
  forall (debugMode : bool) (st : Tracking) (now : float),
    (forall c cs gs lms,
        let cmds :=
          modeCommands
            (calls_of (predictWebcam debugMode st
                         (mkResult ((c :: cs) :: gs) lms) now)) in
        (cmds = [CHAOS] <->
         categoryName c = "Open_Palm"%string /\ JS.gt (score c) 0.4 = true) /\
        (cmds = [FORMED] <->
         categoryName c = "Closed_Fist"%string /\ JS.gt (score c) 0.4 = true) /\
        (cmds = [] <->
         (JS.gt (score c) 0.4 = false \/
          (categoryName c <> "Open_Palm"%string /\
           categoryName c <> "Closed_Fist"%string))) /\
        ((score c <=? 0.4) = true -> cmds = []) /\
        (score c = 0.4 -> cmds = [])) /\
    (forall lms,
        modeCommands
          (calls_of (predictWebcam debugMode st (mkResult [] lms) now)) = []) /\
    (forall (s : App.State) (r : GestureRecognizerResult),
        modeCommands (calls_of (predictWebcam debugMode st r now)) = [] ->
        App.sceneState (App.runCalls s (calls_of (predictWebcam debugMode st r now)))
        = App.sceneState s).
Proof.
  intros debugMode st now. split; [| split].
  - intros c cs gs lms cmds. subst cmds. rewrite predictWebcam_modes.
    split; [apply commandsFor_chaos |].
    split; [apply commandsFor_formed |].
    split; [apply commandsFor_none |].
    split; intro H; apply commandsFor_none; left.
    + apply leb_not_gt. exact H.
    + rewrite H. reflexivity.
  - intro lms. unfold predictWebcam. cbn. destruct debugMode; reflexivity.
  - intros s r H. apply runCalls_no_command. exact H.
Qed.

End GestureClaims.

Section RotationVelocityClaims.

Import Gesture.
Open Scope float_scope.

(** The calls that precede [onMove] carry no velocity. *)
Lemma command_prefix_velocities (debugMode : bool) (c : Category) :
  velocities
    (if JS.gt (score c) 0.4
     then commandCalls debugMode (categoryName c)
            (isClosedFist (categoryName c) (score c))
     else [])
  = [].
Proof.
  destruct (JS.gt (score c) 0.4); [apply commandCalls_velocities | reflexivity].
Qed.

(** A frame with a hand: what is emitted and what is remembered. *)
Lemma predictWebcam_hand debugMode st c cs gs p ps lms now :
  exists calls,
    predictWebcam debugMode st (mkResult ((c :: cs) :: gs) ((p :: ps) :: lms)) now
    = Done calls (mkTracking (Some (x p)) (Some now)) /\
    velocities calls =
      [match qualifies c, lastX st, lastTimestamp st with
       | true, Some px, Some pt => rotationVelocity (x p) px now pt
       | _, _, _ => 0
       end].
Proof.
  unfold predictWebcam. cbn [gestures landmarks].
  eexists. split; [reflexivity |].
  rewrite velocities_app, command_prefix_velocities. unfold qualifies.
  destruct (_ || _), (lastX st), (lastTimestamp st); reflexivity.
Qed.

(** With [x] going from 0.50 to 0.40 in 16 ms the velocity is two units in
    the last place below 1.75. *)
Lemma rotationVelocity_example (t0 t1 : float) :
  t1 - t0 = 16 -> rotationVelocity 0.40 0.50 t1 t0 = 1.7499999999999996.
Proof.
  intro H. unfold rotationVelocity, rawVelocity. rewrite H. reflexivity.
Qed.

(** C2, as stated, fails in its example: for two open-palm frames at
    1000 ms and 1016 ms with [x = 0.50] and then [x = 0.40], the velocity
    passed to [onMove] is 1.7499999999999996, which [===] tells apart from
    1.75: in binary64, [0.40 - 0.50] is [-0.09999999999999998]. *)
Lemma rotation_velocity_counterexample :
  predictWebcam false initialTracking
    (mkResult [[mkCategory "Open_Palm" 0.9]] [[mkLandmark 0.50 0.5 0]]) 1000
  = Done [onGesture CHAOS; onMove 0] (mkTracking (Some 0.50) (Some 1000)) /\
  predictWebcam false (mkTracking (Some 0.50) (Some 1000))
    (mkResult [[mkCategory "Open_Palm" 0.9]] [[mkLandmark 0.40 0.5 0]]) 1016
  = Done [onGesture CHAOS; onMove 1.7499999999999996]
         (mkTracking (Some 0.40) (Some 1016)) /\
  (1.7499999999999996 =? 1.75) = false /\
  1.7499999999999996 <> 1.75.
Proof.
  split; [reflexivity |]. split; [reflexivity |]. split; [reflexivity |].
  apply eqb_false_neq; reflexivity.
Qed.

(** C2, amended.  With an open palm or a closed fist scored above 0.4, a
    landmark in the frame and a remembered position and timestamp, the
    velocity passed to [onMove] is [-(currentX - lastX) / max(now -
    lastTimestamp, 1) * 280], replaced by 0 when its magnitude is at most
    0.0002 (or is not above it); the frame's position and time are
    remembered.  Two open-palm frames 16 ms apart with [x] going from 0.50
    to 0.40 give the command CHAOS twice and the velocity
    1.7499999999999996, which is within 1e-15 of 1.75 and is not 1.75. *)
Theorem rotation_velocity_formula :
  forall (debugMode : bool) (c : Category) (cs : list Category)
         (gs : list (list Category)) (p : NormalizedLandmark)
         (ps : list NormalizedLandmark) (lms : list (list NormalizedLandmark))
         (prevX prevTimestamp now : float),
    qualifies c = true ->
    let velocity :=
      (- (x p - prevX) / JS.Math_max (now - prevTimestamp) 1) * 280 in
    (exists calls emitted,
        predictWebcam debugMode (mkTracking (Some prevX) (Some prevTimestamp))
                      (mkResult ((c :: cs) :: gs) ((p :: ps) :: lms)) now
        = Done calls (mkTracking (Some (x p)) (Some now)) /\
        velocities calls = [emitted] /\
        (JS.gt (JS.Math_abs velocity) 0.0002 = true -> emitted = velocity) /\
        ((JS.Math_abs velocity <=? 0.0002) = true -> emitted = 0) /\
        (JS.gt (JS.Math_abs velocity) 0.0002 = false -> emitted = 0)) /\
    (forall t0 t1 : float,
        t1 - t0 = 16 ->
        let palm := mkCategory "Open_Palm" 0.9 in
        exists calls1 calls2,
          predictWebcam debugMode initialTracking
                        (mkResult [[palm]] [[mkLandmark 0.50 0.5 0]]) t0
          = Done calls1 (mkTracking (Some 0.50) (Some t0)) /\
          predictWebcam debugMode (mkTracking (Some 0.50) (Some t0))
                        (mkResult [[palm]] [[mkLandmark 0.40 0.5 0]]) t1
          = Done calls2 (mkTracking (Some 0.40) (Some t1)) /\
          modeCommands calls1 = [CHAOS] /\
          modeCommands calls2 = [CHAOS] /\
          velocities calls2 = [1.7499999999999996] /\
          (JS.Math_abs (1.7499999999999996 - 1.75) <? 1e-15) = true /\
          1.7499999999999996 <> 1.75).
Proof.
  intros debugMode c cs gs p ps lms prevX prevTimestamp now Hq velocity.
  split.
  - destruct (predictWebcam_hand debugMode
                (mkTracking (Some prevX) (Some prevTimestamp))
                c cs gs p ps lms now) as [calls [Hrun Hvel]].
    rewrite Hq in Hvel. cbn [lastX lastTimestamp] in Hvel.
    exists calls, (rotationVelocity (x p) prevX now prevTimestamp).
    split; [exact Hrun |]. split; [exact Hvel |].
    unfold rotationVelocity, rawVelocity. fold velocity. cbv zeta.
    split; [| split]; intro H.
    + rewrite H. reflexivity.
    + rewrite (leb_not_gt _ _ H). reflexivity.
    + rewrite H. reflexivity.
  - intros t0 t1 Ht palm.
    destruct (predictWebcam_hand debugMode initialTracking palm [] []
                (mkLandmark 0.50 0.5 0) [] [] t0) as [calls1 [Hrun1 _]].
    destruct (predictWebcam_hand debugMode (mkTracking (Some 0.50) (Some t0))
                palm [] [] (mkLandmark 0.40 0.5 0) [] [] t1)
      as [calls2 [Hrun2 Hvel2]].
    exists calls1, calls2.
    split; [exact Hrun1 |]. split; [exact Hrun2 |].
    split.
    { pose proof (f_equal calls_of Hrun1) as H. cbn [calls_of] in H.
      rewrite <- H, predictWebcam_modes. reflexivity. }
    split.
    { pose proof (f_equal calls_of Hrun2) as H. cbn [calls_of] in H.
      rewrite <- H, predictWebcam_modes. reflexivity. }
    split.
    { rewrite Hvel2. cbn [qualifies lastX lastTimestamp x].
      change (qualifies palm) with true. cbv iota.
      rewrite (rotationVelocity_example t0 t1 Ht). reflexivity. }
    split; [reflexivity | apply eqb_false_neq; reflexivity].
Qed.

Lemma rotation_velocity_formula_witness :
  Gesture.qualifies (mkCategory "Closed_Fist" 0.9) = true /\
  exists calls emitted,
    predictWebcam false (mkTracking (Some 0.25) (Some 100))
                  (mkResult [[mkCategory "Closed_Fist" 0.9]]
                            [[mkLandmark 0.75 0.5 0]]) 108
    = Done calls (mkTracking (Some 0.75) (Some 108)) /\
    velocities calls = [emitted] /\
    (JS.gt (JS.Math_abs ((- (0.75 - 0.25) / JS.Math_max (108 - 100) 1) * 280))
           0.0002 = true ->
     emitted = (- (0.75 - 0.25) / JS.Math_max (108 - 100) 1) * 280) /\
    ((JS.Math_abs ((- (0.75 - 0.25) / JS.Math_max (108 - 100) 1) * 280)
      <=? 0.0002) = true ->
     emitted = 0) /\
    (JS.gt (JS.Math_abs ((- (0.75 - 0.25) / JS.Math_max (108 - 100) 1) * 280))
           0.0002 = false ->
     emitted = 0).
Proof.
  split; [reflexivity |].
  exact (proj1 (rotation_velocity_formula false (mkCategory "Closed_Fist" 0.9) []
                  [] (mkLandmark 0.75 0.5 0) [] [] 0.25 100 108 eq_refl)).
Defined.

End RotationVelocityClaims.

Section UntrackedFrameClaims.

Import Gesture.
Open Scope float_scope.

(** C1, as stated, fails twice.  A frame whose first classification does
    not qualify ("Thumb_Up") but which carries a landmark emits velocity 0
    and remembers the landmark and the time instead of resetting them, and
    the next frame, an open palm, emits a nonzero velocity.  A frame with a
    qualifying classification and no landmark set emits no velocity at all
    and keeps the remembered position and time. *)
Lemma untracked_frame_counterexample :
  qualifies (mkCategory "Thumb_Up" 0.9) = false /\
  predictWebcam false (mkTracking (Some 0.5) (Some 0))
                (mkResult [[mkCategory "Thumb_Up" 0.9]] [[mkLandmark 0.75 0.5 0]]) 16
  = Done [onMove 0] (mkTracking (Some 0.75) (Some 16)) /\
  mkTracking (Some 0.75) (Some 16) <> initialTracking /\
  predictWebcam false (mkTracking (Some 0.75) (Some 16))
                (mkResult [[mkCategory "Open_Palm" 0.9]] [[mkLandmark 0.5 0.5 0]]) 32
  = Done [onGesture CHAOS; onMove 4.375] (mkTracking (Some 0.5) (Some 32)) /\
  predictWebcam false (mkTracking (Some 0.5) (Some 0))
                (mkResult [[mkCategory "Open_Palm" 0.9]] []) 16
  = Done [onGesture CHAOS] (mkTracking (Some 0.5) (Some 0)).
Proof.
  split; [reflexivity |].
  split; [reflexivity |].
  split; [discriminate |].
  split; reflexivity.
Qed.

(** C1, amended.  A frame without any classification emits velocity 0 and
    resets both tracking variables to null, and whatever hand the next
    frame shows, that frame emits velocity 0.  A frame with a landmark
    whose first classification does not qualify emits velocity 0 and
    remembers the landmark's [x] and the time.  A frame with a
    classification and no landmark set emits no velocity and leaves the
    tracking variables as they were. *)
Theorem untracked_frame_behaviour :
  forall (debugMode : bool) (st : Tracking) (now : float),
    (forall lms,
        exists calls,
          predictWebcam debugMode st (mkResult [] lms) now
          = Done calls initialTracking /\
          velocities calls = [0] /\
          forall c cs gs p ps lms' now',
          exists calls',
            predictWebcam debugMode initialTracking
                          (mkResult ((c :: cs) :: gs) ((p :: ps) :: lms')) now'
            = Done calls' (mkTracking (Some (x p)) (Some now')) /\
            velocities calls' = [0]) /\
    (forall c cs gs p ps lms,
        qualifies c = false ->
        exists calls,
          predictWebcam debugMode st
                        (mkResult ((c :: cs) :: gs) ((p :: ps) :: lms)) now
          = Done calls (mkTracking (Some (x p)) (Some now)) /\
          velocities calls = [0]) /\
    (forall c cs gs,
        exists calls,
          predictWebcam debugMode st (mkResult ((c :: cs) :: gs) []) now
          = Done calls st /\
          velocities calls = []).
Proof.
  intros debugMode st now. split; [| split].
  - intro lms. eexists. split; [reflexivity |]. split.
    + destruct debugMode; reflexivity.
    + intros c cs gs p ps lms' now'.
      destruct (predictWebcam_hand debugMode initialTracking c cs gs p ps lms' now')
        as [calls' [Hrun Hvel]].
      exists calls'. split; [exact Hrun |].
      rewrite Hvel. cbn [initialTracking lastX lastTimestamp].
      destruct (qualifies c); reflexivity.
  - intros c cs gs p ps lms Hq.
    destruct (predictWebcam_hand debugMode st c cs gs p ps lms now)
      as [calls [Hrun Hvel]].
    exists calls. split; [exact Hrun |].
    rewrite Hvel, Hq. reflexivity.
  - intros c cs gs. eexists. split; [reflexivity |].
    apply command_prefix_velocities.
Qed.

End UntrackedFrameClaims.

(** ** Application state *)

Section RotationSpeedClaims.

Import App.
Open Scope float_scope.


Lemma SceneMode_eqb_eq (a b : SceneMode) : SceneMode_eqb a b = true <-> a = b.
Proof. destruct a, b; simpl; split; congruence. Qed.








(** A session: an open palm moving the camera, a closed fist forming the
    tree, then a resting hand. *)
Example gesture_session :
  let s1 := step initial (Recognized [onGesture CHAOS; onMove 1.75]) in
  let s2 := step s1 (Recognized [onGesture FORMED; onMove 0.5]) in
  let s3 := step s2 (Recognized [onGesture FORMED; onMove 0.25]) in
  let s4 := step s3 (Recognized [onMove 0]) in
  (sceneState s1 = CHAOS /\ rotationSpeed s1 = 1.78) /\
  (sceneState s2 = FORMED /\ rotationSpeed s2 = 0.01) /\
  (sceneState s3 = FORMED /\ rotationSpeed s3 = 0.26) /\
  (sceneState s4 = FORMED /\ rotationSpeed s4 = 0.01).
Proof. repeat split; reflexivity. Qed.

End RotationSpeedClaims.

(** ** Tree layout *)

Section LayoutClaims.

Import Scene.
Open Scope R_scope.

Lemma getTreePosition_run (rnd : nat -> R) :
  runRand getTreePosition rnd
  = let y := rnd 0%nat * CONFIG.tree_height - CONFIG.tree_height / 2 in
    let r := rnd 2%nat * localRadius (normalizedHeightOf y) in
    let theta := rnd 1%nat * PI * 2 in
    Vector3.mk (r * cos theta) y (r * sin theta).
Proof. reflexivity. Qed.

Lemma normalizedHeightOf_draw (u : R) :
  normalizedHeightOf (u * CONFIG.tree_height - CONFIG.tree_height / 2) = u.
Proof.
  unfold normalizedHeightOf, CONFIG.tree_height. field.
Qed.

Lemma axisDistance_polar (r theta y : R) :
  0 <= r -> axisDistance (Vector3.mk (r * cos theta) y (r * sin theta)) = r.
Proof.
  intro Hr. unfold axisDistance. cbn [Vector3.x Vector3.z].
  replace (r * cos theta * (r * cos theta) + r * sin theta * (r * sin theta))
    with (Rsqr r * (Rsqr (sin theta) + Rsqr (cos theta)))
    by (unfold Rsqr; ring).
  rewrite sin2_cos2, Rmult_1_r. apply sqrt_Rsqr. exact Hr.
Qed.

(** C6.  The local radius at normalized height [t] is [R * (1 - t)] with
    [R = 14]; it does not increase with [t] and is 0 at [t = 1].  A foliage
    position drawn by [getTreePosition] has the normalized height of its
    first draw, in [[0, 1)], and lies at a distance from the axis between 0
    and the local radius at its height. *)
Theorem formed_radius_taper :
  (forall t : R, localRadius t = 14 * (1 - t)) /\
  (forall t1 t2 : R, t1 <= t2 -> localRadius t2 <= localRadius t1) /\
  localRadius 1 = 0 /\
  (forall rnd : nat -> R,
      unitDraws rnd ->
      let p := runRand getTreePosition rnd in
      let t := normalizedHeightOf (Vector3.y p) in
      t = rnd 0%nat /\ 0 <= t < 1 /\
      axisDistance p = rnd 2%nat * localRadius t /\
      0 <= axisDistance p <= localRadius t).
Proof.
  split; [intro t; reflexivity |].
  split; [intros t1 t2 H; unfold localRadius, CONFIG.tree_radius; lra |].
  split; [unfold localRadius; ring |].
  intros rnd Hrnd p t.
  assert (Ht : t = rnd 0%nat).
  { subst t p. rewrite getTreePosition_run. cbn [Vector3.y].
    apply normalizedHeightOf_draw. }
  pose proof (Hrnd 0%nat) as H0. pose proof (Hrnd 2%nat) as H2.
  assert (Hloc : 0 <= localRadius t).
  { rewrite Ht. unfold localRadius, CONFIG.tree_radius. lra. }
  assert (Hd : axisDistance p = rnd 2%nat * localRadius t).
  { subst t p. rewrite getTreePosition_run. cbv zeta. cbn [Vector3.y].
    apply axisDistance_polar.
    rewrite normalizedHeightOf_draw.
    apply Rmult_le_pos; [lra | unfold localRadius, CONFIG.tree_radius; lra]. }
  split; [exact Ht |]. split; [rewrite Ht; exact H0 |].
  split; [exact Hd |]. rewrite Hd. split.
  - apply Rmult_le_pos; lra.
  - rewrite <- (Rmult_1_l (localRadius t)) at 2.
    apply Rmult_le_compat_r; lra.
Qed.

Lemma formed_radius_taper_witness :
  let rnd := fun _ : nat => 1 / 2 in
  unitDraws rnd /\
  normalizedHeightOf (Vector3.y (runRand getTreePosition rnd)) = 1 / 2.
Proof.
  intro rnd.
  assert (H : unitDraws rnd) by (intro k; unfold rnd; lra).
  split; [exact H |].
  exact (proj1 (proj2 (proj2 (proj2 formed_radius_taper)) rnd H)).
Defined.

End LayoutClaims.

(** ** Position blend *)

Section BlendFacts.

Import Scene.
Open Scope R_scope.

Lemma distanceToSquared_nonneg (p q : Vector3.t) : 0 <= Vector3.distanceToSquared p q.
Proof.
  unfold Vector3.distanceToSquared. cbv zeta.
  pose proof (Rle_0_sqr (Vector3.x p - Vector3.x q)) as Hx.
  pose proof (Rle_0_sqr (Vector3.y p - Vector3.y q)) as Hy.
  pose proof (Rle_0_sqr (Vector3.z p - Vector3.z q)) as Hz.
  unfold Rsqr in *. lra.
Qed.

Lemma distanceTo_nonneg (p q : Vector3.t) : 0 <= Vector3.distanceTo p q.
Proof. apply sqrt_pos. Qed.

Lemma distanceTo_self (p : Vector3.t) : Vector3.distanceTo p p = 0.
Proof.
  unfold Vector3.distanceTo, Vector3.distanceToSquared. cbv zeta.
  replace ((Vector3.x p - Vector3.x p) * (Vector3.x p - Vector3.x p)
           + (Vector3.y p - Vector3.y p) * (Vector3.y p - Vector3.y p)
           + (Vector3.z p - Vector3.z p) * (Vector3.z p - Vector3.z p))
    with 0 by ring.
  apply sqrt_0.
Qed.

(** A blend with factor [alpha] scales the distance to the target by
    [|1 - alpha|]. *)
Lemma lerp_distance (p target : Vector3.t) (alpha : R) :
  Vector3.distanceTo (Vector3.lerp p target alpha) target
  = Rabs (1 - alpha) * Vector3.distanceTo p target.
Proof.
  unfold Vector3.distanceTo.
  replace (Vector3.distanceToSquared (Vector3.lerp p target alpha) target)
    with (Rsqr (1 - alpha) * Vector3.distanceToSquared p target).
  - rewrite sqrt_mult_alt by apply Rle_0_sqr.
    rewrite sqrt_Rsqr_abs. reflexivity.
  - unfold Vector3.distanceToSquared, Vector3.lerp, Rsqr.
    cbn [Vector3.x Vector3.y Vector3.z]. ring.
Qed.

Lemma lerp_zero (p target : Vector3.t) : Vector3.lerp p target 0 = p.
Proof.
  destruct p as [a b c]. unfold Vector3.lerp. cbn [Vector3.x Vector3.y Vector3.z].
  f_equal; ring.
Qed.

Lemma lerp_converges (p target : Vector3.t) (alpha : R) :
  0 < alpha < 2 ->
  0 < Vector3.distanceTo p target ->
  Vector3.distanceTo (Vector3.lerp p target alpha) target
  < Vector3.distanceTo p target.
Proof.
  intros Ha Hd. rewrite lerp_distance.
  assert (Hk : Rabs (1 - alpha) < 1) by (apply Rabs_def1; lra).
  pose proof (Rabs_pos (1 - alpha)). nra.
Qed.

Lemma lerp_diverges (p target : Vector3.t) (alpha : R) :
  alpha < 0 ->
  Vector3.distanceTo (Vector3.lerp p target alpha) target
  = (1 - alpha) * Vector3.distanceTo p target /\
  Vector3.distanceTo p target
  <= Vector3.distanceTo (Vector3.lerp p target alpha) target.
Proof.
  intro Ha. rewrite lerp_distance, Rabs_pos_eq by lra.
  split; [reflexivity |].
  pose proof (distanceTo_nonneg p target). nra.
Qed.

(** Halfway between two points, and one frame of a light at 60 frames a
    second in mode FORMED. *)
Example lerp_halfway :
  Vector3.lerp (Vector3.mk 0 0 0) (Vector3.mk 2 4 6) 0.5 = Vector3.mk 1 2 3.
Proof. unfold Vector3.lerp. cbn [Vector3.x Vector3.y Vector3.z]. f_equal; lra. Qed.

Example light_first_frame :
  light_currentPos (fst (lightStep FORMED 0 (1 / 60) (originLight, litMesh)))
  = Vector3.mk (7.3 / 30) 0 0.
Proof.
  unfold lightStep, originLight, Vector3.lerp, Vector3.clone.
  cbn [fst light_setCurrentPos light_currentPos light_targetPos isFormedOf
       SceneMode_eqb Vector3.x Vector3.y Vector3.z].
  f_equal; lra.
Qed.

(** What a step does to the record of an object. *)
Lemma photoStep_data lookAt state time delta d o :
  fst (photoStep lookAt state time delta (d, o))
  = photo_setCurrentPos d
      (Vector3.lerp (photo_currentPos d) (photoTarget state d)
                    (delta * photoRate (isFormedOf state) d)).
Proof.
  unfold photoStep, photoTarget, photoRate.
  destruct (isFormedOf state); reflexivity.
Qed.

Lemma elementStep_data state delta d o :
  fst (elementStep state delta (d, o))
  = element_setCurrentPos d
      (Vector3.lerp (element_currentPos d) (elementTarget state d)
                    (delta * elementRate)).
Proof. reflexivity. Qed.

Lemma lightStep_data state time delta d o :
  fst (lightStep state time delta (d, o))
  = light_setCurrentPos d
      (Vector3.lerp (light_currentPos d) (lightTarget state d)
                    (delta * lightRate)).
Proof. reflexivity. Qed.

End BlendFacts.

Section BlendClaims.

Import Scene.
Open Scope R_scope.

Lemma originLight_distance : lightDistance FORMED originLight = 7.3.
Proof.
  unfold lightDistance, lightTarget, originLight, Vector3.distanceTo,
    Vector3.distanceToSquared, Vector3.clone.
  cbn [isFormedOf SceneMode_eqb light_currentPos light_targetPos
       Vector3.x Vector3.y Vector3.z].
  replace ((0 - 7.3) * (0 - 7.3) + (0 - 0) * (0 - 0) + (0 - 0) * (0 - 0))
    with (7.3 * 7.3) by ring.
  apply sqrt_square. lra.
Qed.

Lemma originLight_after (time delta : R) :
  lightDistance FORMED (fst (lightStep FORMED time delta (originLight, litMesh)))
  = Rabs (1 - delta * lightRate) * 7.3.
Proof.
  rewrite lightStep_data. unfold lightDistance at 1.
  cbn [light_setCurrentPos light_currentPos lightTarget isFormedOf SceneMode_eqb
       light_targetPos light_chaosPos].
  rewrite lerp_distance.
  change (Vector3.distanceTo (light_currentPos originLight)
            (light_targetPos originLight))
    with (lightDistance FORMED originLight).
  rewrite originLight_distance. reflexivity.
Qed.

(** C4, as stated, fails twice.  An element at rest at its scatter
    position in mode CHAOS, as every object is until the first mode
    change, stays at distance 0 after a frame of 1/60 s: no strict
    decrease.  A light 7.3 units from its formed position is 21.9 units
    from it after a frame of 2 s in mode FORMED. *)
Lemma blend_strict_decrease_counterexample :
  (0 < 1 / 60 /\
   ~ elementDistance CHAOS
       (fst (elementStep CHAOS (1 / 60) (restingElement, litMesh)))
     < elementDistance CHAOS restingElement) /\
  (0 < 2 /\
   lightDistance FORMED originLight = 7.3 /\
   lightDistance FORMED (fst (lightStep FORMED 0 2 (originLight, litMesh))) = 21.9 /\
   ~ lightDistance FORMED (fst (lightStep FORMED 0 2 (originLight, litMesh)))
     < lightDistance FORMED originLight).
Proof.
  assert (A : elementDistance CHAOS restingElement = 0 /\
              elementDistance CHAOS
                (fst (elementStep CHAOS (1 / 60) (restingElement, litMesh))) = 0).
  2: assert (B : lightDistance FORMED originLight = 7.3 /\
                 lightDistance FORMED
                   (fst (lightStep FORMED 0 2 (originLight, litMesh))) = 21.9).
  3: { destruct A as [A1 A2], B as [B1 B2]. rewrite A1, A2, B1, B2.
       split; [split | split; [| split; [| split]]]; lra. }
  - assert (H0 : elementDistance CHAOS restingElement = 0)
      by apply distanceTo_self.
    split; [exact H0 |].
    rewrite elementStep_data. unfold elementDistance at 1.
    cbn [element_setCurrentPos element_currentPos elementTarget isFormedOf
         SceneMode_eqb element_targetPos element_chaosPos].
    rewrite lerp_distance.
    change (Vector3.distanceTo (element_currentPos restingElement)
              (element_chaosPos restingElement))
      with (elementDistance CHAOS restingElement).
    rewrite H0. ring.
  - split; [apply originLight_distance |].
    rewrite originLight_after. unfold lightRate.
    replace (1 - 2 * 2.0) with (- (3)) by lra.
    rewrite Rabs_Ropp, Rabs_pos_eq by lra. lra.
Qed.

Lemma frames64_fixed (blend : Scene64.Vector3.t -> Scene64.Vector3.t)
  (p : Scene64.Vector3.t) :
  blend p = p -> forall n : nat, Scene64.frames blend n p = p.
Proof.
  intros H n. induction n as [| n IH]; cbn [Scene64.frames].
  - reflexivity.
  - rewrite H. exact IH.
Qed.

(** C4, amended.  With the scene mode fixed, a frame keeps the target of
    every object, and the distance to the target is never negative.  In
    exact arithmetic the frame multiplies that distance by
    [|1 - rate * dt|], where the rate is [0.8 * weight] (mode FORMED) or
    0.5 (mode CHAOS) for a photo, 1.5 for an element and 2 for a light, so
    the distance strictly decreases when [0 < rate * dt < 2] and the object
    is not at its target.  On the binary64 numbers of the program the
    decrease is not strict: an element blending from [x = 3] towards its
    formed position at [x = 6.65] at 60 frames a second is, after 2000
    frames, at a distance of 1.7763568394002505e-14 from it, and every
    further frame leaves it where it is. *)
Theorem blend_scales_distance :
  (forall (lookAt : Object3D -> Vector3.t -> Euler.t) (state : SceneMode)
          (time delta : R) (o : Object3D),
    (forall d : PhotoData,
        let d' := fst (photoStep lookAt state time delta (d, o)) in
        let alpha := delta * photoRate (isFormedOf state) d in
        photoTarget state d' = photoTarget state d /\
        photoDistance state d' = Rabs (1 - alpha) * photoDistance state d /\
        0 <= photoDistance state d' /\
        (0 < alpha < 2 -> 0 < photoDistance state d ->
         photoDistance state d' < photoDistance state d)) /\
    (forall d : ElementData,
        let d' := fst (elementStep state delta (d, o)) in
        let alpha := delta * 1.5 in
        elementTarget state d' = elementTarget state d /\
        elementDistance state d' = Rabs (1 - alpha) * elementDistance state d /\
        0 <= elementDistance state d' /\
        (0 < alpha < 2 -> 0 < elementDistance state d ->
         elementDistance state d' < elementDistance state d)) /\
    (forall d : LightData,
        let d' := fst (lightStep state time delta (d, o)) in
        let alpha := delta * 2 in
        lightTarget state d' = lightTarget state d /\
        lightDistance state d' = Rabs (1 - alpha) * lightDistance state d /\
        0 <= lightDistance state d' /\
        (0 < alpha < 2 -> 0 < lightDistance state d ->
         lightDistance state d' < lightDistance state d))) /\
  ((0 <? Scene64.sixtieth * 1.5)%float = true /\
   (Scene64.sixtieth * 1.5 <? 2)%float = true /\
   Scene64.Vector3.distanceTo Scene64.stalledElement Scene64.elementTarget
   = 1.7763568394002505e-14%float /\
   forall n : nat,
     Scene64.frames (Scene64.elementBlend Scene64.sixtieth Scene64.elementTarget)
                    n Scene64.stalledElement
     = Scene64.stalledElement).
Proof.
  split.
  2: { split; [vm_compute; reflexivity |]. split; [vm_compute; reflexivity |].
       split; [vm_compute; reflexivity |].
       apply frames64_fixed. vm_compute. reflexivity. }
  intros lookAt state time delta o. split; [| split].
  - intros d d' alpha. subst d'. rewrite photoStep_data. fold alpha.
    split; [reflexivity |].
    unfold photoDistance.
    change (photoTarget state (photo_setCurrentPos d _)) with (photoTarget state d).
    cbn [photo_setCurrentPos photo_currentPos].
    split; [apply lerp_distance |].
    split; [apply distanceTo_nonneg | apply lerp_converges].
  - intros d d' alpha. subst d'. rewrite elementStep_data.
    change (delta * elementRate) with alpha.
    split; [reflexivity |].
    unfold elementDistance.
    change (elementTarget state (element_setCurrentPos d _))
      with (elementTarget state d).
    cbn [element_setCurrentPos element_currentPos].
    split; [apply lerp_distance |].
    split; [apply distanceTo_nonneg | apply lerp_converges].
  - intros d d' alpha. subst d'. rewrite lightStep_data.
    replace (delta * lightRate) with alpha by (unfold alpha, lightRate; lra).
    split; [reflexivity |].
    unfold lightDistance.
    change (lightTarget state (light_setCurrentPos d _)) with (lightTarget state d).
    cbn [light_setCurrentPos light_currentPos].
    split; [apply lerp_distance |].
    split; [apply distanceTo_nonneg | apply lerp_converges].
Qed.

Lemma blend_scales_distance_witness :
  0 < 1 / 60 * 2 < 2 /\
  0 < lightDistance FORMED originLight /\
  lightDistance FORMED (fst (lightStep FORMED 0 (1 / 60) (originLight, litMesh)))
  < lightDistance FORMED originLight.
Proof.
  assert (Ha : 0 < 1 / 60 * 2 < 2) by lra.
  assert (Hd : 0 < lightDistance FORMED originLight)
    by (rewrite originLight_distance; lra).
  split; [exact Ha |]. split; [exact Hd |].
  exact (proj2 (proj2 (proj2
           (proj2 (proj2 (proj1 blend_scales_distance (fun _ _ => Euler.mk 0 0 0)
                            FORMED 0 (1 / 60) litMesh))
              originLight))) Ha Hd).
Defined.

End BlendClaims.

Section FrameDeltaClaims.

Import Scene.
Open Scope R_scope.

(** C5, as stated, fails: [delta] reaches the blend as it is.  With
    [delta = -1] a light 7.3 units from its formed position ends 21.9 units
    from it, where a [delta] clamped to 0 would have left it in place. *)
Lemma negative_delta_counterexample :
  -1 < 0 /\
  lightDistance FORMED originLight = 7.3 /\
  lightDistance FORMED (fst (lightStep FORMED 0 (-1) (originLight, litMesh))) = 21.9 /\
  fst (lightStep FORMED 0 (-1) (originLight, litMesh))
  <> fst (lightStep FORMED 0 0 (originLight, litMesh)).
Proof.
  assert (H3 : lightDistance FORMED
                 (fst (lightStep FORMED 0 (-1) (originLight, litMesh))) = 21.9).
  { rewrite originLight_after. unfold lightRate.
    replace (1 - -1 * 2.0) with 3 by lra. rewrite Rabs_pos_eq by lra. lra. }
  split; [lra |]. split; [apply originLight_distance |]. split; [exact H3 |].
  intro H. rewrite H in H3. rewrite originLight_after in H3.
  replace (1 - 0 * lightRate) with 1 in H3 by ring.
  rewrite Rabs_R1 in H3. lra.
Qed.

(** C5, amended.  A frame with [delta = 0] leaves the current position of
    every object where it was, and the blend divides by nothing.  [delta]
    is not clamped: with [delta < 0] the distance of an element or a light
    from its target is multiplied by [1 - rate * delta], which is above 1,
    and so is that of a photo of positive weight. *)
Theorem frame_delta_unclamped :
  forall (lookAt : Object3D -> Vector3.t -> Euler.t) (state : SceneMode)
         (time : R) (o : Object3D),
    ((forall d : PhotoData,
         photo_currentPos (fst (photoStep lookAt state time 0 (d, o)))
         = photo_currentPos d) /\
     (forall d : ElementData,
         element_currentPos (fst (elementStep state 0 (d, o)))
         = element_currentPos d) /\
     (forall d : LightData,
         light_currentPos (fst (lightStep state time 0 (d, o)))
         = light_currentPos d)) /\
    (forall delta : R,
        delta < 0 ->
        (forall d : PhotoData,
            0 < photo_weight d ->
            let d' := fst (photoStep lookAt state time delta (d, o)) in
            photoDistance state d'
            = (1 - delta * photoRate (isFormedOf state) d) * photoDistance state d /\
            photoDistance state d <= photoDistance state d') /\
        (forall d : ElementData,
            let d' := fst (elementStep state delta (d, o)) in
            elementDistance state d' = (1 - delta * 1.5) * elementDistance state d /\
            elementDistance state d <= elementDistance state d') /\
        (forall d : LightData,
            let d' := fst (lightStep state time delta (d, o)) in
            lightDistance state d' = (1 - delta * 2) * lightDistance state d /\
            lightDistance state d <= lightDistance state d')).
Proof.
  intros lookAt state time o. split.
  - split; [| split]; intro d.
    + rewrite photoStep_data. cbn [photo_setCurrentPos photo_currentPos].
      rewrite Rmult_0_l. apply lerp_zero.
    + rewrite elementStep_data. cbn [element_setCurrentPos element_currentPos].
      rewrite Rmult_0_l. apply lerp_zero.
    + rewrite lightStep_data. cbn [light_setCurrentPos light_currentPos].
      rewrite Rmult_0_l. apply lerp_zero.
  - intros delta Hneg. split; [| split].
    + intros d Hw d'. subst d'. rewrite photoStep_data.
      unfold photoDistance.
      change (photoTarget state (photo_setCurrentPos d _)) with (photoTarget state d).
      cbn [photo_setCurrentPos photo_currentPos].
      apply lerp_diverges.
      unfold photoRate. destruct (isFormedOf state); nra.
    + intros d d'. subst d'. rewrite elementStep_data.
      unfold elementDistance.
      change (elementTarget state (element_setCurrentPos d _))
        with (elementTarget state d).
      cbn [element_setCurrentPos element_currentPos].
      change (delta * 1.5) with (delta * elementRate).
      apply lerp_diverges. unfold elementRate. lra.
    + intros d d'. subst d'. rewrite lightStep_data.
      unfold lightDistance.
      change (lightTarget state (light_setCurrentPos d _)) with (lightTarget state d).
      cbn [light_setCurrentPos light_currentPos].
      replace (delta * 2) with (delta * lightRate) by (unfold lightRate; lra).
      apply lerp_diverges. unfold lightRate. lra.
Qed.

Lemma frame_delta_unclamped_witness :
  -1 < 0 /\
  lightDistance FORMED (fst (lightStep FORMED 0 (-1) (originLight, litMesh)))
  = (1 - -1 * 2) * lightDistance FORMED originLight.
Proof.
  assert (Hneg : -1 < 0) by lra.
  split; [exact Hneg |].
  exact (proj1 (proj2 (proj2 (proj2 (frame_delta_unclamped
                                        (fun _ _ => Euler.mk 0 0 0) FORMED 0 litMesh)
                                     (-1) Hneg))
                  originLight)).
Defined.

End FrameDeltaClaims.

(** ** Fairy lights *)

Section LightClaims.

Import Scene.
Open Scope R_scope.











End LightClaims.

(** ** Scatter and form targets *)

Section TargetClaims.

Import Scene.
Open Scope R_scope.

Variable lookAt : Object3D -> Vector3.t -> Euler.t.

Lemma photoStep_targets state time delta (e : PhotoData * Object3D) :
  photo_chaosPos (fst (photoStep lookAt state time delta e)) = photo_chaosPos (fst e) /\
  photo_targetPos (fst (photoStep lookAt state time delta e)) = photo_targetPos (fst e).
Proof. destruct e as [d o]. rewrite photoStep_data. split; reflexivity. Qed.

Lemma elementStep_targets state delta (e : ElementData * Object3D) :
  element_chaosPos (fst (elementStep state delta e)) = element_chaosPos (fst e) /\
  element_targetPos (fst (elementStep state delta e)) = element_targetPos (fst e).
Proof. destruct e as [d o]. split; reflexivity. Qed.

Lemma lightStep_targets state time delta (e : LightData * Object3D) :
  light_chaosPos (fst (lightStep state time delta e)) = light_chaosPos (fst e) /\
  light_targetPos (fst (lightStep state time delta e)) = light_targetPos (fst e).
Proof. destruct e as [d o]. split; reflexivity. Qed.

(** A frame callback that keeps a projection of every entry keeps the
    projections of the pool, and the size of the pool. *)
Lemma useFrame_keeps {D A : Type} (f : D * Object3D -> A)
  (body : D * Object3D -> D * Object3D) (p : Pool D) :
  (forall e, f (body e) = f e) ->
  map f (entries (useFrame body p)) = map f (entries p).
Proof.
  intro H. unfold useFrame. destruct (groupRef p); [| reflexivity].
  cbn [entries]. rewrite map_map. apply map_ext. exact H.
Qed.

Lemma useFrame_length {D : Type} (body : D * Object3D -> D * Object3D) (p : Pool D) :
  length (entries (useFrame body p)) = length (entries p).
Proof.
  unfold useFrame. destruct (groupRef p); [| reflexivity].
  cbn [entries]. apply length_map.
Qed.

Lemma step_targets (w : World) (e : Event) :
  targets (step lookAt w e) = targets w /\
  poolSizes (step lookAt w e) = poolSizes w.
Proof.
  destruct e as [time delta | m]; cbn [step].
  - unfold targets, poolSizes, frame. cbn [photos elements lights].
    rewrite !useFrame_length. split; [| reflexivity].
    f_equal; [| f_equal]; apply useFrame_keeps; intro e.
    + destruct (photoStep_targets (state w) time delta e) as [H1 H2].
      rewrite H1, H2. reflexivity.
    + destruct (elementStep_targets (state w) delta e) as [H1 H2].
      rewrite H1, H2. reflexivity.
    + destruct (lightStep_targets (state w) time delta e) as [H1 H2].
      rewrite H1, H2. reflexivity.
  - unfold setSceneState. destruct (SceneMode_eqb m (state w)).
    + split; reflexivity.
    + unfold targets, poolSizes. cbn [photos elements lights entries].
      rewrite map_map, length_map. split; reflexivity.
Qed.

Lemma run_targets (es : list Event) :
  forall w : World,
    targets (run lookAt es w) = targets w /\
    poolSizes (run lookAt es w) = poolSizes w.
Proof.
  induction es as [| e es IH]; intro w; cbn [run fold_left].
  - split; reflexivity.
  - destruct (IH (step lookAt w e)) as [H1 H2].
    destruct (step_targets w e) as [H3 H4].
    unfold run in *. rewrite H1, H2. split; assumption.
Qed.

Lemma setSceneState_state (m : SceneMode) (w : World) :
  state (setSceneState m w) = m.
Proof.
  unfold setSceneState. destruct (SceneMode_eqb m (state w)) eqn:E.
  - apply SceneMode_eqb_eq in E. symmetry. exact E.
  - reflexivity.
Qed.

Lemma SceneMode_eqb_refl (m : SceneMode) : SceneMode_eqb m m = true.
Proof. destruct m; reflexivity. Qed.

Lemma setSceneState_same (m : SceneMode) (w : World) :
  setSceneState m (setSceneState m w) = setSceneState m w.
Proof.
  unfold setSceneState at 1. rewrite setSceneState_state, SceneMode_eqb_refl.
  reflexivity.
Qed.

(** Every entry a constructor makes satisfies what each call establishes. *)
Lemma makeData_Forall {A : Type} (P : A -> Prop) (make : nat -> Rand A) :
  (forall i rnd k, P (fst (make i rnd k))) ->
  forall count i rnd k, Forall P (fst (makeData make count i rnd k)).
Proof.
  intros H count. induction count as [| n IH]; intros i rnd k; cbn [makeData].
  - constructor.
  - unfold bind, ret.
    specialize (H i rnd k). destruct (make i rnd k) as [a k1].
    specialize (IH (S i) rnd k1). destruct (makeData make n (S i) rnd k1) as [rest k2].
    cbn [fst] in *. constructor; assumption.
Qed.

Lemma makePhoto_at_rest (i : nat) (rnd : nat -> R) (k : nat) :
  photo_currentPos (fst (makePhoto i rnd k)) = photo_chaosPos (fst (makePhoto i rnd k)).
Proof.
  unfold makePhoto, bind, Math_random, ret.
  destruct (Rltb _ 0.2); reflexivity.
Qed.

Lemma makeElement_at_rest (i : nat) (rnd : nat -> R) (k : nat) :
  element_currentPos (fst (makeElement i rnd k))
  = element_chaosPos (fst (makeElement i rnd k)).
Proof.
  unfold makeElement, bind, Math_random, ret.
  destruct (Nat.eqb _ 2); reflexivity.
Qed.

Lemma makeLight_at_rest (i : nat) (rnd : nat -> R) (k : nat) :
  light_currentPos (fst (makeLight i rnd k)) = light_chaosPos (fst (makeLight i rnd k)).
Proof. reflexivity. Qed.

Lemma photoStep_constants state time delta (e : PhotoData * Object3D) :
  SceneMore.photoConstants (fst (photoStep lookAt state time delta e))
  = SceneMore.photoConstants (fst e) /\
  SceneMore.hasMaterial (snd (photoStep lookAt state time delta e))
  = SceneMore.hasMaterial (snd e).
Proof.
  destruct e as [d o]. split; [rewrite photoStep_data; reflexivity |].
  unfold photoStep. destruct (isFormedOf state); reflexivity.
Qed.

Lemma elementStep_constants state delta (e : ElementData * Object3D) :
  SceneMore.elementConstants (fst (elementStep state delta e))
  = SceneMore.elementConstants (fst e) /\
  SceneMore.hasMaterial (snd (elementStep state delta e))
  = SceneMore.hasMaterial (snd e).
Proof. destruct e as [d o]. split; reflexivity. Qed.

Lemma lightStep_constants state time delta (e : LightData * Object3D) :
  SceneMore.lightConstants (fst (lightStep state time delta e))
  = SceneMore.lightConstants (fst e) /\
  SceneMore.hasMaterial (snd (lightStep state time delta e))
  = SceneMore.hasMaterial (snd e).
Proof.
  destruct e as [d o]. split; [reflexivity |].
  unfold lightStep, setEmissiveIntensity, setPosition, SceneMore.hasMaterial.
  cbn [snd material]. destruct (material o); reflexivity.
Qed.

Lemma step_constants (w : World) (e : Event) :
  SceneMore.constants (step lookAt w e) = SceneMore.constants w /\
  SceneMore.materials (step lookAt w e) = SceneMore.materials w.
Proof.
  destruct e as [time delta | m]; cbn [step].
  - unfold SceneMore.constants, SceneMore.materials, frame.
    cbn [photos elements lights].
    split; (f_equal; [f_equal |]); apply useFrame_keeps; intro e;
      first [apply photoStep_constants | apply elementStep_constants
            | apply lightStep_constants].
  - unfold setSceneState. destruct (SceneMode_eqb m (state w)).
    + split; reflexivity.
    + unfold SceneMore.constants, SceneMore.materials.
      cbn [photos elements lights entries].
      rewrite !map_map. split; reflexivity.
Qed.

Lemma run_constants (es : list Event) :
  forall w : World,
    SceneMore.constants (run lookAt es w) = SceneMore.constants w /\
    SceneMore.materials (run lookAt es w) = SceneMore.materials w.
Proof.
  induction es as [| e es IH]; intro w; cbn [run fold_left].
  - split; reflexivity.
  - destruct (IH (step lookAt w e)) as [H1 H2].
    destruct (step_constants w e) as [H3 H4].
    unfold run in *. rewrite H1, H2. split; assumption.
Qed.

(** The frames and mode commands of the whole tree leave the buffers of
    the foliage as they are, and act on the pools as they do alone. *)
Lemma treeRun_foliage (es : list Event) :
  forall t : SceneMore.Tree,
    SceneMore.foliage (SceneMore.treeRun lookAt es t) = SceneMore.foliage t /\
    SceneMore.pools (SceneMore.treeRun lookAt es t)
    = run lookAt es (SceneMore.pools t).
Proof.
  induction es as [| e es IH]; intro t.
  - split; reflexivity.
  - unfold SceneMore.treeRun, run in *. cbn [fold_left].
    destruct (IH (SceneMore.treeStep lookAt t e)) as [H1 H2].
    rewrite H1, H2. destruct e as [time delta | m]; split; reflexivity.
Qed.

Lemma fillFoliage_length (fround : R -> R) (spherePoints : nat -> R) :
  forall (count i : nat) (rnd : nat -> R) (k : nat),
    let f := fst (SceneMore.fillFoliage fround spherePoints count i rnd k) in
    length (SceneMore.positions f) = (3 * count)%nat /\
    length (SceneMore.targetPositions f) = (3 * count)%nat /\
    length (SceneMore.randoms f) = count.
Proof.
  intro count. induction count as [| n IH]; intros i rnd k;
    cbn [SceneMore.fillFoliage].
  - repeat split; reflexivity.
  - unfold bind, ret, Math_random.
    destruct (getTreePosition rnd k) as [t k1].
    specialize (IH (S i) rnd (S k1)). cbv zeta in IH.
    destruct (SceneMore.fillFoliage fround spherePoints n (S i) rnd (S k1))
      as [rest k2].
    cbn [fst SceneMore.positions SceneMore.targetPositions SceneMore.randoms
         length] in *.
    destruct IH as [H1 [H2 H3]]. rewrite H1, H2, H3.
    repeat split; lia.
Qed.

End TargetClaims.

Section PoolClaims.

Import Scene.
Open Scope R_scope.

Lemma makeData_length {A : Type} (make : nat -> Rand A) :
  forall count i rnd k, length (fst (makeData make count i rnd k)) = count.
Proof.
  intro count. induction count as [| n IH]; intros i rnd k; cbn [makeData].
  - reflexivity.
  - unfold bind, ret. destruct (make i rnd k) as [a k1].
    specialize (IH (S i) rnd k1). destruct (makeData make n (S i) rnd k1) as [rest k2].
    cbn [fst length] in *. congruence.
Qed.

Lemma Forall_mount {D : Type} (P : D -> Prop) (mount : D -> D * Object3D)
  (l : list D) :
  (forall d, fst (mount d) = d) ->
  Forall P l -> Forall (fun e => P (fst e)) (map mount l).
Proof.
  intros Hm H. induction H as [| d l Hd Hl IH]; cbn [map]; constructor.
  - rewrite Hm. exact Hd.
  - exact IH.
Qed.

(** C8.  The world is built once, in mode CHAOS, with 240 photos, 240
    elements and 420 lights, each at its scatter position.  Whatever
    frames and mode commands follow, the scatter and form targets of every
    object and the sizes of the pools stay what they were.  A mode command
    equal to the current mode changes nothing, so issuing a command a
    second time has no effect beyond the first.  Of a data entry only
    [currentPos] ever changes: every other field of every photo, element
    and light stays what it was, and no rendered object gains or loses a
    material (what a frame writes there is the position, the rotation and,
    for a light, the emissive intensity of the material it has).  The
    12000 particles of the foliage have their scatter and tree positions
    and their random numbers in three buffers filled at construction, and
    no frame or mode command changes a buffer. *)
Theorem targets_set_once :
  forall lookAt : Object3D -> Vector3.t -> Euler.t,
    (forall rnd : nat -> R,
        let w := runRand makeWorld rnd in
        state w = CHAOS /\
        poolSizes w = (240, 240, 420)%nat /\
        Forall (fun e => photo_currentPos (fst e) = photo_chaosPos (fst e))
               (entries (photos w)) /\
        Forall (fun e => element_currentPos (fst e) = element_chaosPos (fst e))
               (entries (elements w)) /\
        Forall (fun e => light_currentPos (fst e) = light_chaosPos (fst e))
               (entries (lights w))) /\
    (forall (es : list Event) (w : World),
        targets (run lookAt es w) = targets w /\
        poolSizes (run lookAt es w) = poolSizes w) /\
    (forall w : World, setSceneState (state w) w = w) /\
    (forall (m : SceneMode) (w : World),
        setSceneState m (setSceneState m w) = setSceneState m w) /\
    (forall (m : SceneMode) (es : list Event) (w : World),
        run lookAt (ModeCommand m :: ModeCommand m :: es) w
        = run lookAt (ModeCommand m :: es) w) /\
    (forall (es : list Event) (w : World),
        SceneMore.constants (run lookAt es w) = SceneMore.constants w /\
        SceneMore.materials (run lookAt es w) = SceneMore.materials w) /\
    (forall (fround : R -> R) (spherePoints : nat -> R) (rnd : nat -> R),
        let t := runRand (SceneMore.makeTree fround spherePoints) rnd in
        length (SceneMore.positions (SceneMore.foliage t))
        = (3 * SceneMore.counts_foliage)%nat /\
        length (SceneMore.targetPositions (SceneMore.foliage t))
        = (3 * SceneMore.counts_foliage)%nat /\
        length (SceneMore.randoms (SceneMore.foliage t))
        = SceneMore.counts_foliage /\
        SceneMore.counts_foliage = 12000%nat /\
        exists k : nat, SceneMore.pools t = fst (makeWorld rnd k)) /\
    (forall (es : list Event) (t : SceneMore.Tree),
        SceneMore.foliage (SceneMore.treeRun lookAt es t) = SceneMore.foliage t /\
        SceneMore.pools (SceneMore.treeRun lookAt es t)
        = run lookAt es (SceneMore.pools t)).
Proof.
  intro lookAt. split; [| split; [| split; [| split; [| split; [| split; [| split]]]]]].
  6: { intros es w. apply run_constants. }
  6: { intros fround spherePoints rnd t. subst t.
       unfold runRand, SceneMore.makeTree, bind, ret.
       pose proof (fillFoliage_length fround spherePoints
                     SceneMore.counts_foliage 0%nat rnd 0%nat) as L.
       cbv zeta in L.
       destruct (SceneMore.fillFoliage fround spherePoints
                   SceneMore.counts_foliage 0 rnd 0%nat) as [f k1].
       destruct (makeWorld rnd k1) as [w k2] eqn:E.
       cbn [fst SceneMore.foliage SceneMore.pools] in *.
       destruct L as [L1 [L2 L3]].
       split; [exact L1 |]. split; [exact L2 |]. split; [exact L3 |].
       split; [reflexivity |].
       exists k1. rewrite E. reflexivity. }
  6: { intros es t. apply treeRun_foliage. }
  - intros rnd w. subst w. unfold runRand, makeWorld, bind, ret.
    pose proof (makeData_length makePhoto CONFIG.counts_ornaments 0 rnd 0%nat) as Lp.
    pose proof (makeData_Forall (fun d => photo_currentPos d = photo_chaosPos d)
                  makePhoto makePhoto_at_rest
                  CONFIG.counts_ornaments 0%nat rnd 0%nat) as Fp.
    destruct (makeData makePhoto CONFIG.counts_ornaments 0 rnd 0%nat) as [ps k1].
    pose proof (makeData_length makeElement CONFIG.counts_elements 0 rnd k1) as Le.
    pose proof (makeData_Forall (fun d => element_currentPos d = element_chaosPos d)
                  makeElement makeElement_at_rest
                  CONFIG.counts_elements 0%nat rnd k1) as Fe.
    destruct (makeData makeElement CONFIG.counts_elements 0 rnd k1) as [es k2].
    pose proof (makeData_length makeLight CONFIG.counts_lights 0 rnd k2) as Ll.
    pose proof (makeData_Forall (fun d => light_currentPos d = light_chaosPos d)
                  makeLight makeLight_at_rest
                  CONFIG.counts_lights 0%nat rnd k2) as Fl.
    destruct (makeData makeLight CONFIG.counts_lights 0 rnd k2) as [ls k3].
    cbn [fst state photos elements lights entries] in *.
    split; [reflexivity |]. split.
    + unfold poolSizes. cbn [photos elements lights entries].
      rewrite !length_map, Lp, Le, Ll. reflexivity.
    + split; [| split].
      * apply (Forall_mount (fun d => photo_currentPos d = photo_chaosPos d));
          [reflexivity | exact Fp].
      * apply (Forall_mount (fun d => element_currentPos d = element_chaosPos d));
          [reflexivity | exact Fe].
      * apply (Forall_mount (fun d => light_currentPos d = light_chaosPos d));
          [reflexivity | exact Fl].
  - intros es w. apply run_targets.
  - intro w. unfold setSceneState. rewrite SceneMode_eqb_refl. reflexivity.
  - intros m w. apply setSceneState_same.
  - intros m es w. unfold run. cbn [fold_left step].
    rewrite setSceneState_same. reflexivity.
Qed.

End PoolClaims.

(** ** Login endpoint *)

Section LoginClaims.

Import Login.
Open Scope string_scope.

Lemma isAllowed_false (username : JsValue) :
  username <> JString ALLOWED_USERNAME -> isAllowed username = false.
Proof.
  intro H. destruct username as [| | b | n | s | items | fields]; try reflexivity.
  cbn [isAllowed]. destruct (String.eqb_spec s ALLOWED_USERNAME) as [E | E].
  - subst s. contradiction.
  - reflexivity.
Qed.

Lemma handler_post (env : Env) (req : Request) (b : JsValue) :
  method req = "POST" -> readBody env req = Some b -> handler env req = login env b.
Proof.
  intros Hm Hb. unfold handler. rewrite Hm, Hb. reflexivity.
Qed.

(** C10.  For a POST whose body could be read: when the user name and the
    password are both present and the user name is not "Guandacol", the
    answer is status 401 with error "Invalid credentials", whatever the
    password, and the users table is not queried; when the user name or the
    password is missing (or otherwise falsy) the answer is status 400. *)
Theorem login_rejects_other_users :
  forall (env : Env) (req : Request) (b : JsValue),
    method req = "POST" ->
    readBody env req = Some b ->
    let fields := if truthy b then b else JObject [] in
    let username := getProp fields "username" in
    let password := getProp fields "password" in
    ALLOWED_USERNAME = "Guandacol" /\
    (truthy username = true ->
     truthy password = true ->
     username <> JString ALLOWED_USERNAME ->
     response (handler env req)
     = {| status := 401; json := errorJson "Invalid credentials"; headers := [] |} /\
     queries (handler env req) = []) /\
    (truthy username = false \/ truthy password = false ->
     status (response (handler env req)) = 400%nat /\
     queries (handler env req) = []) /\
    (username = JUndefined \/ password = JUndefined ->
     status (response (handler env req)) = 400%nat).
Proof.
  intros env req b Hm Hb fields username password.
  rewrite (handler_post env req b Hm Hb).
  assert (H400 : truthy username = false \/ truthy password = false ->
                 login env b
                 = reply 400 (errorJson "username and password are required")).
  { intro H. unfold login. fold fields. fold username. fold password.
    destruct H as [H | H]; rewrite H; cbn [negb orb].
    - reflexivity.
    - rewrite orb_true_r. reflexivity. }
  split; [reflexivity |]. split; [| split].
  - intros Hu Hp Hne. unfold login. fold fields. fold username. fold password.
    rewrite Hu, Hp, (isAllowed_false username Hne). split; reflexivity.
  - intro H. rewrite (H400 H). split; reflexivity.
  - intro H. rewrite H400; [reflexivity |].
    destruct H as [H | H]; rewrite H; [left | right]; reflexivity.
Qed.

Lemma login_rejects_other_users_witness :
  method strangerRequest = "POST" /\
  readBody failingEnv strangerRequest = Some (body strangerRequest) /\
  response (handler failingEnv strangerRequest)
  = {| status := 401; json := errorJson "Invalid credentials"; headers := [] |} /\
  queries (handler failingEnv strangerRequest) = [].
Proof.
  split; [reflexivity |]. split; [reflexivity |].
  apply (proj1 (proj2 (login_rejects_other_users failingEnv strangerRequest
                         (body strangerRequest) eq_refl eq_refl))).
  - reflexivity.
  - reflexivity.
  - cbn. discriminate.
Defined.

(** An environment whose table holds one hash that the password "secret"
    matches. *)
Example successful_login :
  let env := {| JSON_parse := fun _ => None;
                readSession := fun _ => None;
                selectPasswordHash := fun _ => Some [Some "$2a$10$hash"];
                bcrypt_compare :=
                  fun password _ =>
                    Some (match password with
                          | JString p => String.eqb p "secret"
                          | _ => false
                          end);
                sign := fun _ => "signature" |} in
  let req := {| method := "POST"; cookie := None;
                body := JObject [("username", JString "Guandacol");
                                 ("password", JString "secret")];
                data := "" |} in
  status (response (handler env req)) = 200%nat /\
  queries (handler env req) = ["Guandacol"] /\
  headers (response (handler env req))
  = [("Set-Cookie",
      "tree_session=Guandacol.signature; Path=/; HttpOnly; SameSite=Lax; Max-Age=604800; Secure")].
Proof. repeat split; reflexivity. Qed.

(** Other requests: a missing password, an empty body, a body that does
    not parse, a GET without session and another method. *)
Example other_requests :
  status (response (handler failingEnv
            {| method := "POST"; cookie := None;
               body := JObject [("username", JString "Guandacol")]; data := "" |}))
  = 400%nat /\
  status (response (handler failingEnv
            {| method := "POST"; cookie := None; body := JUndefined; data := "" |}))
  = 400%nat /\
  status (response (handler failingEnv
            {| method := "POST"; cookie := None; body := JUndefined; data := "{" |}))
  = 500%nat /\
  status (response (handler failingEnv
            {| method := "GET"; cookie := None; body := JUndefined; data := "" |}))
  = 401%nat /\
  status (response (handler failingEnv
            {| method := "PUT"; cookie := None; body := JUndefined; data := "" |}))
  = 405%nat.
Proof. repeat split; reflexivity. Qed.

End LoginClaims.

(** * Further properties *)

(** ** Numbers *)

Section MoreNumberFacts.

Open Scope float_scope.

Lemma SFcompare_refl (a : spec_float) :
  a <> S754_nan -> SFcompare a a = Some Eq.
Proof.
  destruct a as [s | s | | s m e]; intro H; cbn.
  - reflexivity.
  - destruct s; reflexivity.
  - contradiction.
  - change (Pos.compare_cont Eq m m) with (Pos.compare m m).
    destruct s; rewrite Z.compare_refl, Pos.compare_refl; reflexivity.
Qed.

(** A number is NaN exactly when its specification is. *)
Lemma is_nan_Prim2SF (a : float) : is_nan a = true <-> Prim2SF a = S754_nan.
Proof.
  unfold is_nan. rewrite FloatAxioms.eqb_spec. unfold SFeqb. split; intro H.
  - destruct (Prim2SF a) as [s | s | | s m e] eqn:E; try reflexivity;
      rewrite SFcompare_refl in H by discriminate; discriminate.
  - rewrite H. reflexivity.
Qed.

Lemma is_nan_false_Prim2SF (a : float) : is_nan a = false <-> Prim2SF a <> S754_nan.
Proof.
  split; intro H.
  - intro E. apply is_nan_Prim2SF in E. congruence.
  - destruct (is_nan a) eqn:N; [| reflexivity].
    apply is_nan_Prim2SF in N. contradiction.
Qed.

(** A number above another is not NaN, and neither is the one it is the
    magnitude of. *)
Lemma gt_not_nan (a b : float) : JS.gt a b = true -> is_nan a = false.
Proof.
  unfold JS.gt. rewrite FloatAxioms.ltb_spec. unfold SFltb. intro H.
  apply is_nan_false_Prim2SF. intro E. rewrite E in H.
  destruct (Prim2SF b); discriminate.
Qed.

Lemma abs_not_nan (a : float) : is_nan (JS.Math_abs a) = false -> is_nan a = false.
Proof.
  unfold JS.Math_abs. rewrite !is_nan_false_Prim2SF, FloatAxioms.abs_spec.
  intros H E. apply H. rewrite E. reflexivity.
Qed.

Lemma Prim2SF_one : Prim2SF 1 = S754_finite false 4503599627370496 (-52).
Proof. reflexivity. Qed.

End MoreNumberFacts.

(** ** Recognition loop *)

Section LoopProperties.

Import Gesture GestureLoop.
Open Scope float_scope.

(** The time difference a velocity is divided by is floored at 1 ms:
    [Math.max(d, 1)] is NaN exactly when [d] is, and is otherwise at least
    1, so the division never divides by zero or by a negative number. *)
Lemma time_difference_floor :
  forall d : float,
    is_nan (JS.Math_max d 1) = is_nan d /\
    (is_nan d = false -> (1 <=? JS.Math_max d 1) = true).
Proof.
  intro d. unfold JS.Math_max.
  destruct (is_nan d) eqn:N; cbn [orb].
  - split; [reflexivity | discriminate].
  - change (is_nan 1) with false. cbn [orb].
    pose proof (proj1 (is_nan_false_Prim2SF d) N) as Hd.
    assert (Hone : forall x, (1 <=? x) = match SFcompare (Prim2SF x) (Prim2SF 1) with
                                         | Some (Gt | Eq) => true
                                         | _ => false
                                         end).
    { intro x. rewrite FloatAxioms.leb_spec. unfold SFleb.
      rewrite (SFcompare_antisym (Prim2SF x) (Prim2SF 1)).
      destruct (SFcompare (Prim2SF x) (Prim2SF 1)) as [[| |] |]; reflexivity. }
    rewrite (FloatAxioms.ltb_spec d 1), (FloatAxioms.ltb_spec 1 d). unfold SFltb.
    rewrite (SFcompare_antisym (Prim2SF d) (Prim2SF 1)).
    destruct (SFcompare (Prim2SF d) (Prim2SF 1)) as [[| |] |] eqn:C;
      cbn [option_map CompOpp].
    + destruct (get_sign d).
      * split; [reflexivity | intros _; reflexivity].
      * split; [exact N | intros _; rewrite Hone, C; reflexivity].
    + split; reflexivity.
    + split; [exact N | intros _; rewrite Hone, C; reflexivity].
    + exfalso. rewrite Prim2SF_one in C.
      destruct (Prim2SF d) as [s | s | | s m e];
        try discriminate C; try (destruct s; discriminate C); contradiction.
Qed.

(** A velocity that passes the dead zone is a number. *)
Lemma rotationVelocity_shape (currentX prevX now prevTimestamp : float) :
  let v := rotationVelocity currentX prevX now prevTimestamp in
  is_nan v = false /\ (v = 0 \/ JS.gt (JS.Math_abs v) 0.0002 = true).
Proof.
  cbv zeta. unfold rotationVelocity.
  destruct (JS.gt (JS.Math_abs (rawVelocity currentX prevX now prevTimestamp)) 0.0002)
    eqn:G.
  - split; [| right; exact G].
    apply abs_not_nan. apply (gt_not_nan _ _ G).
  - split; [reflexivity | left; reflexivity].
Qed.

Lemma prefix_no_velocity (debugMode : bool) (c : Category) :
  velocities
    (if JS.gt (score c) 0.4
     then commandCalls debugMode (categoryName c)
            (isClosedFist (categoryName c) (score c))
     else [])
  = [].
Proof.
  destruct (JS.gt (score c) 0.4); [| reflexivity].
  unfold commandCalls.
  destruct (String.eqb (categoryName c) "Open_Palm"),
           (isClosedFist (categoryName c) (score c)), debugMode; reflexivity.
Qed.

Lemma pass_velocities debugMode st results now :
  Forall goodVelocity (velocities (calls_of (predictWebcam debugMode st results now))) /\
  (length (velocities (calls_of (predictWebcam debugMode st results now))) <= 1)%nat.
Proof.
  assert (Z0 : goodVelocity 0) by (split; [reflexivity | left; reflexivity]).
  unfold predictWebcam.
  destruct (gestures results) as [| [| c cs] gs].
  - cbn [calls_of]. destruct debugMode; cbn; split; auto.
  - cbn. split; auto.
  - destruct (landmarks results) as [| [| p ps] lms]; cbn [calls_of].
    + rewrite prefix_no_velocity. cbn. split; auto.
    + rewrite prefix_no_velocity. cbn. split; auto.
    + rewrite velocities_app, prefix_no_velocity. cbn [app].
      destruct (_ || _), (lastX st), (lastTimestamp st); cbn; split; auto.
      constructor; [| constructor]. apply rotationVelocity_shape.
Qed.

Lemma pass_commands debugMode st results now :
  (length (modeCommands (calls_of (predictWebcam debugMode st results now))) <= 1)%nat.
Proof.
  destruct results as [[| [| c cs] gs] lms].
  - unfold predictWebcam. cbn. destruct debugMode; cbn; lia.
  - cbn. lia.
  - rewrite predictWebcam_modes. unfold commandsFor.
    destruct (JS.gt (score c) 0.4); [| cbn; lia].
    destruct (String.eqb (categoryName c) "Open_Palm"); [cbn; lia |].
    destruct (String.eqb (categoryName c) "Closed_Fist"); cbn; lia.
Qed.

(** X1.  Whatever the recognizer returns and whatever was remembered, a
    pass issues at most one mode command and at most one velocity, and the
    velocity is a number (never NaN) that is 0 or of magnitude above
    0.0002. *)
Theorem pass_output_shape :
  forall (debugMode : bool) (st : Tracking) (results : GestureRecognizerResult)
         (now : float),
    let calls := calls_of (predictWebcam debugMode st results now) in
    (length (modeCommands calls) <= 1)%nat /\
    (length (velocities calls) <= 1)%nat /\
    Forall goodVelocity (velocities calls).
Proof.
  intros debugMode st results now calls. subst calls.
  destruct (pass_velocities debugMode st results now) as [Hv Hl].
  split; [apply pass_commands |]. split; assumption.
Qed.

Lemma handsComplete_Done debugMode st results now :
  handsComplete results ->
  exists cs st', predictWebcam debugMode st results now = Done cs st'.
Proof.
  intros [Hg Hl]. unfold predictWebcam.
  destruct (gestures results) as [| [| c cs] gs].
  - eexists. eexists. reflexivity.
  - inversion Hg as [| g gs' Hne _]. contradiction.
  - destruct (landmarks results) as [| [| p ps] lms].
    + eexists. eexists. reflexivity.
    + inversion Hl as [| l ls' Hne _]. contradiction.
    + eexists. eexists. reflexivity.
Qed.

(** X2.  When every result of a session gives each detected hand at least
    one classification and one landmark, no pass stops at an error: the
    loop runs through the whole session and ends with tracking variables.
    A result whose first hand has no classification stops the loop at that
    pass: the frames after it are not looked at. *)
Theorem loop_runs_through :
  forall (debugMode : bool) (frames : list (GestureRecognizerResult * float))
         (st : Tracking),
    Forall (fun f => handsComplete (fst f)) frames ->
    (exists st', snd (runFrames debugMode st frames) = Some st') /\
    (forall gs lms now rest,
        runFrames debugMode st ((mkResult ([] :: gs) lms, now) :: rest)
        = ([], None)).
Proof.
  intros debugMode frames. induction frames as [| [results now] rest IH];
    intros st H.
  - split; [exists st; reflexivity | reflexivity].
  - split; [| reflexivity].
    inversion H as [| f fs Hf Hrest]; subst.
    destruct (handsComplete_Done debugMode st results now Hf) as [cs [st' E]].
    cbn [runFrames]. rewrite E.
    destruct (IH st' Hrest) as [[st2 E2] _].
    destruct (runFrames debugMode st' rest) as [cs' final]. exact (ex_intro _ st2 E2).
Qed.

Lemma loop_runs_through_witness :
  Forall (fun f => handsComplete (fst f)) sampleSession /\
  exists st', snd (runFrames false initialTracking sampleSession) = Some st'.
Proof.
  assert (H : Forall (fun f => handsComplete (fst f)) sampleSession).
  { repeat constructor; discriminate. }
  split; [exact H |].
  exact (proj1 (loop_runs_through false sampleSession initialTracking H)).
Defined.

Lemma pass_paired debugMode st results now cs st' :
  paired st -> predictWebcam debugMode st results now = Done cs st' -> paired st'.
Proof.
  intros Hp. unfold predictWebcam.
  destruct (gestures results) as [| [| c cs0] gs].
  - intro E. inversion E. split; reflexivity.
  - discriminate.
  - destruct (landmarks results) as [| [| p ps] lms]; intro E;
      try discriminate E; inversion E; subst.
    + exact Hp.
    + split; discriminate.
Qed.

(** X3.  From the start of the effect on, the two tracking variables are
    null together or set together: whenever the loop has run through a
    session, [lastX] is null exactly when [lastTimestamp] is. *)
Theorem tracking_variables_paired :
  forall (debugMode : bool) (frames : list (GestureRecognizerResult * float)),
    match snd (runFrames debugMode initialTracking frames) with
    | Some st => lastX st = None <-> lastTimestamp st = None
    | None => True
    end.
Proof.
  intros debugMode frames.
  assert (G : forall st, paired st ->
              match snd (runFrames debugMode st frames) with
              | Some st' => paired st'
              | None => True
              end).
  { induction frames as [| [results now] rest IH]; intros st Hp.
    - exact Hp.
    - cbn [runFrames].
      destruct (predictWebcam debugMode st results now) as [cs st' | cs] eqn:E.
      + specialize (IH st' (pass_paired _ _ _ _ _ _ Hp E)).
        destruct (runFrames debugMode st' rest) as [cs' final]. exact IH.
      + exact I. }
  apply (G initialTracking). split; reflexivity.
Qed.

Example sampleSession_run :
  runFrames false initialTracking sampleSession
  = ([onGesture CHAOS; onMove 0; onGesture CHAOS; onMove 4.375; onMove 0],
     Some initialTracking).
Proof. reflexivity. Qed.

End LoopProperties.

(** ** From a recognition pass to the application state *)

Section PassToApp.

Import Gesture App.
Open Scope float_scope.

Lemma lastMode_app (xs ys : list Callback) (m : SceneMode) :
  lastMode (xs ++ ys) m = lastMode ys (lastMode xs m).
Proof.
  revert m. induction xs as [| [m' | v | t] xs IH]; intro m; cbn; auto.
Qed.

Lemma lastMode_commandCalls debugMode name b m :
  lastMode (commandCalls debugMode name b) m
  = if b then FORMED else if String.eqb name "Open_Palm" then CHAOS else m.
Proof.
  unfold commandCalls.
  destruct (String.eqb name "Open_Palm"), b, debugMode; reflexivity.
Qed.

Lemma runCalls_mode (s : State) (cs : list Callback) :
  sceneState (runCalls s cs) = lastMode cs (sceneState s).
Proof.
  unfold runCalls.
  assert (F : forall b cs s,
            sceneState (fold_left (runCall b) cs s) = lastMode cs (sceneState s)).
  { clear. intros b cs. induction cs as [| [m | v | t] cs IH]; intro s; cbn.
    - reflexivity.
    - rewrite IH. reflexivity.
    - rewrite IH. reflexivity.
    - apply IH. }
  unfold spinEffect.
  destruct (JS.Object_is _ _); cbn [setRotationSpeed sceneState]; apply F.
Qed.

(** X4.  After the callbacks of a pass have run, the scene mode is CHAOS
    when the first classification is an open palm scored above 0.4, FORMED
    when it is a closed fist scored above 0.4, and what it was in every
    other case, whatever the mode was before and whether or not the frame
    has landmarks. *)
Theorem pass_sets_mode :
  forall (debugMode : bool) (st : Tracking) (c : Category) (cs : list Category)
         (gs : list (list Category)) (lms : list (list NormalizedLandmark))
         (now : float) (s : State),
    sceneState
      (runCalls s (calls_of (predictWebcam debugMode st
                               (mkResult ((c :: cs) :: gs) lms) now)))
    = if isOpenPalm (categoryName c) (score c) then CHAOS
      else if isClosedFist (categoryName c) (score c) then FORMED
      else sceneState s.
Proof.
  intros debugMode st c cs gs lms now s. rewrite runCalls_mode.
  assert (P : lastMode
                (if JS.gt (score c) 0.4
                 then commandCalls debugMode (categoryName c)
                        (isClosedFist (categoryName c) (score c))
                 else []) (sceneState s)
              = if isOpenPalm (categoryName c) (score c) then CHAOS
                else if isClosedFist (categoryName c) (score c) then FORMED
                else sceneState s).
  { unfold isOpenPalm, isClosedFist.
    destruct (JS.gt (score c) 0.4).
    - rewrite lastMode_commandCalls, !andb_true_r.
      destruct (String.eqb_spec (categoryName c) "Open_Palm") as [E | E].
      + rewrite E. reflexivity.
      + destruct (String.eqb (categoryName c) "Closed_Fist"); reflexivity.
    - rewrite !andb_false_r. reflexivity. }
  unfold predictWebcam. cbn [gestures landmarks].
  destruct lms as [| [| p ps] lms]; cbn [calls_of]; try exact P.
  rewrite lastMode_app, P.
  destruct (_ || _), (lastX st), (lastTimestamp st); reflexivity.
Qed.

End PassToApp.

(** ** Session cookie *)

Section SessionProperties.

Import Login Session.
Open Scope string_scope.

Lemma split_free (c : ascii) (s : string) : free c s = true -> split c s = [s].
Proof.
  induction s as [| c' s IH]; cbn; intro H.
  - reflexivity.
  - apply andb_true_iff in H. destruct H as [Hc Hs].
    apply negb_true_iff in Hc. rewrite Hc, (IH Hs). reflexivity.
Qed.

Lemma split_app (c : ascii) (a b : string) :
  free c a = true -> split c (a ++ String c b) = a :: split c b.
Proof.
  induction a as [| c' a IH]; cbn; intro H.
  - rewrite Ascii.eqb_refl. reflexivity.
  - apply andb_true_iff in H. destruct H as [Hc Ha].
    apply negb_true_iff in Hc. rewrite Hc, (IH Ha). reflexivity.
Qed.

Lemma split_nonempty (c : ascii) (s : string) : split c s <> [].
Proof.
  destruct s as [| c' s]; cbn; [discriminate |].
  destruct (Ascii.eqb c' c); [discriminate |].
  destruct (split c s); discriminate.
Qed.

(** Joining what was split gives the string back. *)
Lemma join_split (c : ascii) (s : string) :
  join (String c EmptyString) (split c s) = s.
Proof.
  unfold join. induction s as [| c' s IH]; cbn.
  - reflexivity.
  - destruct (Ascii.eqb_spec c' c) as [E | E].
    + subst c'. pose proof (split_nonempty c s) as N.
      destruct (split c s) as [| h t] eqn:S; [contradiction |].
      cbn in *. rewrite IH. reflexivity.
    + pose proof (split_nonempty c s) as N.
      destruct (split c s) as [| h t] eqn:S; [contradiction |].
      destruct t as [| h' t']; cbn in *; rewrite <- IH; reflexivity.
Qed.

Lemma append_assoc (a b c : string) : (a ++ b) ++ c = a ++ b ++ c.
Proof. induction a as [| x a IH]; cbn; [reflexivity | rewrite IH; reflexivity]. Qed.

Lemma free_app (c : ascii) (a b : string) :
  free c (a ++ b) = free c a && free c b.
Proof.
  induction a as [| c' a IH]; cbn; [reflexivity |].
  rewrite IH, andb_assoc. reflexivity.
Qed.

Lemma isHexDigit_facts (c : ascii) :
  isHexDigit c = true ->
  isWhiteSpace c = false /\ Ascii.eqb c "." = false /\ Ascii.eqb c ";" = false /\
  (nat_of_ascii c <? 128)%nat = true.
Proof.
  unfold isHexDigit, isWhiteSpace. intro H.
  assert (N : (48 <= nat_of_ascii c <= 57 \/ 97 <= nat_of_ascii c <= 102)%nat).
  { apply orb_true_iff in H. destruct H as [H | H];
      apply andb_true_iff in H; destruct H as [H1 H2];
      apply Nat.leb_le in H1; apply Nat.leb_le in H2; lia. }
  repeat split.
  - apply orb_false_iff. split; [apply orb_false_iff; split |].
    + apply andb_false_iff. right. apply Nat.leb_gt. lia.
    + apply Nat.eqb_neq. lia.
    + apply Nat.eqb_neq. lia.
  - destruct (Ascii.eqb_spec c ".") as [E | E]; [| reflexivity].
    subst c. cbn in N. lia.
  - destruct (Ascii.eqb_spec c ";") as [E | E]; [| reflexivity].
    subst c. cbn in N. lia.
  - apply Nat.ltb_lt. lia.
Qed.

Lemma allHex_free (s : string) :
  allHex s = true -> free "." s = true /\ free ";" s = true.
Proof.
  induction s as [| c s IH]; cbn; intro H; [split; reflexivity |].
  apply andb_true_iff in H. destruct H as [Hc Hs].
  destruct (isHexDigit_facts c Hc) as [_ [Hd [Hsc _]]].
  destruct (IH Hs) as [F1 F2]. rewrite Hd, Hsc, F1, F2. split; reflexivity.
Qed.

Lemma trimEnd_hex (s : string) : allHex s = true -> trimEnd s = s.
Proof.
  induction s as [| c s IH]; cbn; intro H; [reflexivity |].
  apply andb_true_iff in H. destruct H as [Hc Hs].
  destruct (isHexDigit_facts c Hc) as [Hw _].
  rewrite (IH Hs), Hw. destruct s; reflexivity.
Qed.

Lemma trimEnd_app (a b : string) :
  b <> "" -> trimEnd b = b -> trimEnd (a ++ b) = a ++ b.
Proof.
  intros Hb Hk. induction a as [| c a IH]; cbn; [exact Hk |].
  rewrite IH. destruct (a ++ b) eqn:E; [| reflexivity].
  destruct a; cbn in E; [contradiction | discriminate].
Qed.

Lemma headerFor_entry (k : Crypto) (username : string) :
  hexDigest (sign k username) = true ->
  free ";" username = true ->
  split ";" (headerFor k username) = [headerFor k username] /\
  trim (headerFor k username) = headerFor k username /\
  split "=" (headerFor k username)
  = SESSION_COOKIE :: split "=" (sessionValue k username).
Proof.
  intros Hh Hu. unfold hexDigest in Hh. apply andb_true_iff in Hh.
  destruct Hh as [Hne Hx]. apply negb_true_iff in Hne.
  destruct (allHex_free _ Hx) as [Fd Fs].
  split; [| split].
  - apply split_free. unfold headerFor, sessionValue.
    rewrite !free_app, Hu, Fs. reflexivity.
  - unfold trim, headerFor. cbn [trimStart append SESSION_COOKIE isWhiteSpace].
    change (trimEnd ("tree_session=" ++ sessionValue k username)
            = "tree_session=" ++ sessionValue k username).
    unfold sessionValue.
    replace ("tree_session=" ++ username ++ "." ++ sign k username)
      with (("tree_session=" ++ username ++ ".") ++ sign k username).
    + apply trimEnd_app; [| apply trimEnd_hex; exact Hx].
      intro E. rewrite E in Hne. discriminate.
    + rewrite !append_assoc. reflexivity.
  - unfold headerFor. apply (split_app "=" SESSION_COOKIE). reflexivity.
Qed.

Lemma readSession_own_cookie :
  forall (k : Crypto) (username : string),
    hexDigest (sign k username) = true ->
    username <> "" ->
    free "." username = true ->
    free ";" username = true ->
    decodeURIComponent k SESSION_COOKIE = Some SESSION_COOKIE ->
    decodeURIComponent k (sessionValue k username) = Some (sessionValue k username) ->
    readSession k (Some (SESSION_COOKIE ++ "=" ++ username ++ "." ++ sign k username))
    = Found username.
Proof.
  intros k username Hh Hne Hd Hs Dk Dv.
  destruct (headerFor_entry k username Hh Hs) as [E1 [E2 E3]].
  pose proof Hh as Hh'. unfold hexDigest in Hh'. apply andb_true_iff in Hh'.
  destruct Hh' as [Hsne Hx]. apply negb_true_iff in Hsne.
  destruct (allHex_free _ Hx) as [Fd _].
  change (SESSION_COOKIE ++ "=" ++ username ++ "." ++ sign k username)
    with (headerFor k username).
  unfold readSession.
  remember (headerFor k username) as header eqn:EH.
  destruct header as [| c0 h0]; [discriminate EH |].
  rewrite E1. cbn [parseEntries]. unfold parseEntry.
  rewrite E2, E3, Dk, join_split, Dv. cbn [property].
  rewrite String.eqb_refl.
  assert (EV : exists c1 v1, sessionValue k username = String c1 v1).
  { unfold sessionValue. destruct username as [| c1 u1]; [contradiction |].
    exists c1, (u1 ++ "." ++ sign k (String c1 u1)). reflexivity. }
  destruct EV as [c1 [v1 EV]]. rewrite EV. cbv iota. rewrite <- EV.
  change (sessionValue k username)
    with (username ++ String "." (sign k username)).
  rewrite (split_app "." username (sign k username) Hd), (split_free _ _ Fd).
  assert (Une : String.eqb username "" = false).
  { destruct username; [contradiction | reflexivity]. }
  rewrite Une, Hsne. cbn [orb]. rewrite Nat.eqb_refl. cbn [negb].
  unfold timingSafeEqual. rewrite Nat.eqb_refl, String.eqb_refl. reflexivity.
Qed.

Lemma setSessionCookie_pair (env : Env) (username : string) :
  hexDigest (Login.sign env username) = true ->
  free ";" username = true ->
  exists setCookie,
    setSessionCookie env username = [("Set-Cookie", setCookie)] /\
    cookiePair setCookie
    = SESSION_COOKIE ++ "=" ++ username ++ "." ++ Login.sign env username.
Proof.
  intros Hh Hu. unfold setSessionCookie. eexists. split; [reflexivity |].
  unfold hexDigest in Hh. apply andb_true_iff in Hh. destruct Hh as [_ Hx].
  destruct (allHex_free _ Hx) as [_ Fs].
  unfold cookiePair.
  replace (SESSION_COOKIE ++ "=" ++
           (username ++ "." ++ Login.sign env username) ++
           "; Path=/; HttpOnly; SameSite=Lax; Max-Age=" ++
           SESSION_MAX_AGE_SECONDS ++ "; Secure")
    with ((SESSION_COOKIE ++ "=" ++ username ++ "." ++ Login.sign env username)
          ++ String ";" (" Path=/; HttpOnly; SameSite=Lax; Max-Age=" ++
                         SESSION_MAX_AGE_SECONDS ++ "; Secure")).
  - rewrite split_app; [reflexivity |].
    rewrite !free_app, Hu, Fs. reflexivity.
  - rewrite !append_assoc. reflexivity.
Qed.

(** X5.  The cookie [setSessionCookie] writes is read back: when [sign]
    returns a hexadecimal digest, the user name is not empty and holds no
    [.] and no [;], and [decodeURIComponent] leaves the cookie's name and
    value as they are, [setSessionCookie] sets one [Set-Cookie] header, and
    [readSession] on the name and value of that cookie, as a browser sends
    them back, returns the user name. *)
Theorem session_round_trip :
  forall (k : Crypto) (env : Env) (username : string),
    (forall name, Login.sign env name = sign k name) ->
    hexDigest (sign k username) = true ->
    username <> "" ->
    free "." username = true ->
    free ";" username = true ->
    decodeURIComponent k SESSION_COOKIE = Some SESSION_COOKIE ->
    decodeURIComponent k (sessionValue k username) = Some (sessionValue k username) ->
    exists setCookie,
      setSessionCookie env username = [("Set-Cookie", setCookie)] /\
      readSession k (Some (cookiePair setCookie)) = Found username.
Proof.
  intros k env username As Hh Hne Hd Hs Dk Dv.
  assert (Hh' : hexDigest (Login.sign env username) = true)
    by (rewrite As; exact Hh).
  destruct (setSessionCookie_pair env username Hh' Hs) as [setCookie [Hset Hpair]].
  exists setCookie. split; [exact Hset |].
  rewrite Hpair, As.
  apply readSession_own_cookie; assumption.
Qed.

Lemma session_round_trip_witness :
  exists setCookie,
    setSessionCookie workingEnv "Guandacol" = [("Set-Cookie", setCookie)] /\
    readSession sampleCrypto (Some (cookiePair setCookie)) = Found "Guandacol".
Proof.
  apply (session_round_trip sampleCrypto workingEnv "Guandacol");
    try reflexivity; discriminate.
Defined.

(** X6.  [readSession] returns a user name only for a cookie that carries
    that user's signature: when it returns [username], the header holds a
    [tree_session] cookie whose value starts with [username], a dot and
    exactly [sign(username)], and [username] is not empty. *)
Theorem session_needs_signature :
  forall (k : Crypto) (cookieHeader : option string) (username : string),
    readSession k cookieHeader = Found username ->
    username <> "" /\
    exists header cookies raw rest,
      cookieHeader = Some header /\
      parseEntries k (split ";" header) = Some cookies /\
      property SESSION_COOKIE cookies = Some raw /\
      split "." raw = username :: sign k username :: rest.
Proof.
  intros k cookieHeader username H. unfold readSession in H.
  destruct cookieHeader as [header |]; [| discriminate H].
  destruct header as [| c0 h0]; [discriminate H |].
  destruct (parseEntries k (split ";" (String c0 h0))) as [cookies |] eqn:P;
    [| discriminate H].
  destruct (property SESSION_COOKIE cookies) as [raw |] eqn:R; [| discriminate H].
  destruct raw as [| c1 r1]; [discriminate H |].
  destruct (split "." (String c1 r1)) as [| u [| sig rest]] eqn:S;
    try discriminate H.
  destruct (String.eqb_spec u "") as [Eu | Eu]; [discriminate H |].
  cbn [orb] in H.
  destruct (String.eqb sig ""); [discriminate H |].
  destruct (negb _); [discriminate H |].
  unfold timingSafeEqual in H.
  destruct (_ =? _)%nat; [| discriminate H].
  destruct (String.eqb_spec sig (sign k u)) as [Es | Es]; [| discriminate H].
  inversion H; subst username. split; [exact Eu |].
  exists (String c0 h0), cookies, (String c1 r1), rest.
  repeat split; try assumption. rewrite <- Es. exact S.
Qed.

Lemma session_needs_signature_witness :
  readSession sampleCrypto (Some "theme=dark; tree_session=Guandacol.00112233aabbccdd")
  = Found "Guandacol" /\
  "Guandacol" <> "" /\
  exists header cookies raw rest,
    Some "theme=dark; tree_session=Guandacol.00112233aabbccdd" = Some header /\
    parseEntries sampleCrypto (split ";" header) = Some cookies /\
    property SESSION_COOKIE cookies = Some raw /\
    split "." raw = "Guandacol" :: sign sampleCrypto "Guandacol" :: rest.
Proof.
  split; [reflexivity |].
  exact (session_needs_signature sampleCrypto
           (Some "theme=dark; tree_session=Guandacol.00112233aabbccdd")
           "Guandacol" eq_refl).
Defined.

(** Cookies that are not accepted: a wrong signature, no dot, another
    cookie's name, an empty header; and a malformed escape in any cookie
    makes the reading raise. *)
Example rejected_cookies :
  readSession sampleCrypto (Some "tree_session=Guandacol.00112233aabbccde") = Absent /\
  readSession sampleCrypto (Some "tree_session=Guandacol") = Absent /\
  readSession sampleCrypto (Some "session=Guandacol.00112233aabbccdd") = Absent /\
  readSession sampleCrypto (Some "") = Absent /\
  readSession sampleCrypto None = Absent /\
  readSession {| sign := sign sampleCrypto; decodeURIComponent := fun _ => None |}
              (Some "theme=%E0") = Raised.
Proof. repeat split; reflexivity. Qed.

End SessionProperties.

(** ** The handler as a whole *)

Section HandlerProperties.

Import Login Session.
Open Scope string_scope.

Lemma isAllowed_true (username : JsValue) :
  isAllowed username = true -> username = JString ALLOWED_USERNAME.
Proof.
  destruct username as [| | b | n | s | items | fields]; cbn; try discriminate.
  intro H. apply String.eqb_eq in H. subst s. reflexivity.
Qed.

Lemma truthy_fields (b : JsValue) (key : string) :
  truthy (getProp (if truthy b then b else JObject []) key) = true ->
  (if truthy b then b else JObject []) = b.
Proof.
  destruct (truthy b); [reflexivity |]. cbn. discriminate.
Qed.

(** What the part of the handler inside [try] answers, branch by branch. *)
Lemma login_cases (env : Env) (b : JsValue) :
  let r := login env b in
  (status (response r) = 400%nat /\ headers (response r) = [] /\ queries r = []) \/
  (status (response r) = 401%nat /\ headers (response r) = [] /\
   (queries r = [] \/ queries r = [ALLOWED_USERNAME])) \/
  (status (response r) = 500%nat /\ headers (response r) = [] /\
   queries r = [ALLOWED_USERNAME]) \/
  (response r = {| status := 200; json := authenticatedJson ALLOWED_USERNAME;
                   headers := setSessionCookie env ALLOWED_USERNAME |} /\
   queries r = [ALLOWED_USERNAME] /\
   getProp b "username" = JString ALLOWED_USERNAME /\
   exists hash rows,
     selectPasswordHash env ALLOWED_USERNAME = Some (Some hash :: rows) /\
     hash <> "" /\
     bcrypt_compare env (getProp b "password") hash = Some true).
Proof.
  cbv zeta. unfold login.
  set (fields := if truthy b then b else JObject []).
  destruct (truthy (getProp fields "username")) eqn:Tu; cbn [negb orb];
    [| left; repeat split].
  destruct (truthy (getProp fields "password")) eqn:Tp; cbn [negb];
    [| left; repeat split].
  destruct (isAllowed (getProp fields "username")) eqn:A; cbn [negb];
    [| right; left; repeat split; left; reflexivity].
  assert (F : fields = b) by (apply (truthy_fields b "username"); exact Tu).
  rewrite F in *.
  destruct (selectPasswordHash env ALLOWED_USERNAME) as [[| [hash |] rows] |] eqn:Q.
  - right; left. repeat split. right. reflexivity.
  - destruct (Nat.ltb 0 (String.length hash)) eqn:L.
    + destruct (bcrypt_compare env (getProp b "password") hash) as [[|] |] eqn:B.
      * right; right; right. repeat split.
        -- apply isAllowed_true. exact A.
        -- exists hash, rows. repeat split; try assumption.
           intro E. subst hash. discriminate L.
      * right; left. repeat split. right. reflexivity.
      * right; right; left. repeat split.
    + right; left. repeat split. right. reflexivity.
  - right; left. repeat split. right. reflexivity.
  - right; right; left. repeat split.
Qed.

(** X7.  A session cookie is only ever set after the password has been
    checked: when the answer of the handler carries a [Set-Cookie] header,
    the request was a POST whose body names the allowed user, the users
    table returned a non-empty hash for that user, [bcrypt.compare]
    accepted the password against it, and the status is 200. *)
Theorem cookie_only_after_password_check :
  forall (env : Env) (req : Request) (value : string),
    In ("Set-Cookie", value) (headers (response (handler env req))) ->
    method req = "POST" /\
    status (response (handler env req)) = 200%nat /\
    exists b hash rows,
      readBody env req = Some b /\
      getProp b "username" = JString ALLOWED_USERNAME /\
      selectPasswordHash env ALLOWED_USERNAME = Some (Some hash :: rows) /\
      hash <> "" /\
      bcrypt_compare env (getProp b "password") hash = Some true.
Proof.
  intros env req value H. unfold handler in *.
  destruct (String.eqb (method req) "GET").
  { destruct (Login.readSession env req); cbn in H; contradiction. }
  destruct (String.eqb_spec (method req) "POST") as [Em | Em]; cbn [negb] in *.
  2: { cbn in H. destruct H as [H | H]; [discriminate H | contradiction]. }
  destruct (readBody env req) as [b |] eqn:B; [| cbn in H; contradiction].
  destruct (login_cases env b) as [[S [Hh _]] | [[S [Hh _]] | [[S [Hh _]] | [R [_ [U [hash [rows [Q [Hn C]]]]]]]]]];
    try (rewrite Hh in H; contradiction).
  split; [exact Em |]. rewrite R. split; [reflexivity |].
  exists b, hash, rows. repeat split; assumption.
Qed.

Lemma cookie_only_after_password_check_witness :
  In ("Set-Cookie",
      "tree_session=Guandacol.00112233aabbccdd; Path=/; HttpOnly; SameSite=Lax; Max-Age=604800; Secure")
     (headers (response (handler workingEnv ownerRequest))) /\
  method ownerRequest = "POST" /\
  status (response (handler workingEnv ownerRequest)) = 200%nat.
Proof.
  assert (H : In ("Set-Cookie",
                  "tree_session=Guandacol.00112233aabbccdd; Path=/; HttpOnly; SameSite=Lax; Max-Age=604800; Secure")
                 (headers (response (handler workingEnv ownerRequest)))).
  { left. reflexivity. }
  split; [exact H |].
  destruct (cookie_only_after_password_check workingEnv ownerRequest _ H)
    as [Hm [Hs _]].
  split; [exact Hm | exact Hs].
Defined.

(** What the handler answers to a request that is not a GET. *)
Lemma handler_other_methods (env : Env) (req : Request) :
  method req <> "GET" ->
  let r := handler env req in
  In (status (response r)) [200; 400; 401; 405; 500]%nat /\
  (status (response r) = 405%nat <-> method req <> "POST") /\
  (queries r = [] \/ queries r = ["Guandacol"]) /\
  (queries r <> [] -> method req = "POST").
Proof.
  intros Eg r. subst r. unfold handler.
  destruct (String.eqb_spec (method req) "GET") as [Eg' | _]; [contradiction |].
  destruct (String.eqb_spec (method req) "POST") as [Ep | Ep]; cbn [negb].
  2: { cbn. split; [tauto |]. split; [tauto |].
       split; [left; reflexivity | congruence]. }
  assert (N405 : forall P : Prop, (P <-> method req <> "POST") <-> ~ P)
    by (intro P; tauto).
  destruct (readBody env req) as [b |].
  2: { cbn. split; [tauto |]. split; [| split; [left; reflexivity | congruence]].
       apply N405. discriminate. }
  destruct (login_cases env b) as [[S [_ Q]] | [[S [_ Q]] | [[S [_ Q]] | [R [Q _]]]]].
  - rewrite S, Q. split; [cbn; tauto |]. split; [apply N405; discriminate |].
    split; [left; reflexivity | congruence].
  - rewrite S. split; [cbn; tauto |]. split; [apply N405; discriminate |].
    split; [exact Q | intros _; exact Ep].
  - rewrite S, Q. split; [cbn; tauto |]. split; [apply N405; discriminate |].
    split; [right; reflexivity | intros _; exact Ep].
  - rewrite R, Q. split; [cbn; tauto |]. split; [apply N405; discriminate |].
    split; [right; reflexivity | intros _; exact Ep].
Qed.

(** X8.  Whatever the request and the collaborators, the handler either
    answers or throws.  It throws, with nothing written to the response,
    exactly on a GET whose cookie header makes [readSession] raise: the
    call is outside [try].  When it answers, the status is 200, 400, 401,
    405 or 500; it is 405 exactly when the method is neither GET nor POST;
    a GET is answered 200 exactly when [readSession] finds a user and 401
    exactly when it finds none; and the users table is queried at most
    once, only by a POST, and only for the user "Guandacol". *)
Theorem handler_answers :
  forall (k : Crypto) (env : Env) (req : Request),
    (handlerOutcome k env req = Threw <->
     method req = "GET" /\ readSession k (cookie req) = Raised) /\
    (method req <> "GET" \/ readSession k (cookie req) <> Raised ->
     exists r, handlerOutcome k env req = Replied r) /\
    (forall r : Result,
        handlerOutcome k env req = Replied r ->
        In (status (response r)) [200; 400; 401; 405; 500]%nat /\
        (status (response r) = 405%nat <->
         method req <> "GET" /\ method req <> "POST") /\
        (method req = "GET" ->
         (status (response r) = 200%nat <->
          exists username, readSession k (cookie req) = Found username) /\
         (status (response r) = 401%nat <-> readSession k (cookie req) = Absent)) /\
        (queries r = [] \/ queries r = ["Guandacol"]) /\
        (queries r <> [] -> method req = "POST")).
Proof.
  intros k env req. unfold handlerOutcome.
  destruct (String.eqb_spec (method req) "GET") as [Eg | Eg].
  - destruct (readSession k (cookie req)) as [username | |] eqn:R.
    + split; [split; [discriminate | intros [_ C]; discriminate C] |].
      split; [intros _; eexists; reflexivity |].
      intros r E. injection E as E. subst r. cbn.
      split; [tauto |]. split; [split; [discriminate | tauto] |].
      split; [| split; [left; reflexivity | congruence]].
      intros _. split; split; try discriminate.
      * intros _. exists username. reflexivity.
      * reflexivity.
    + split; [split; [discriminate | intros [_ C]; discriminate C] |].
      split; [intros _; eexists; reflexivity |].
      intros r E. injection E as E. subst r. cbn.
      split; [tauto |]. split; [split; [discriminate | tauto] |].
      split; [| split; [left; reflexivity | congruence]].
      intros _. split; split; try discriminate; try reflexivity.
      intros [u C]. discriminate C.
    + split; [split; [intros _; split; [exact Eg | reflexivity] | reflexivity] |].
      split; [intros [C | C]; contradiction |].
      intros r E. discriminate E.
  - split; [split; [discriminate | intros [C _]; contradiction] |].
    split; [intros _; eexists; reflexivity |].
    intros r E. injection E as E. subst r.
    destruct (handler_other_methods (envOf k env) req Eg) as [H1 [H2 [H3 H4]]].
    split; [exact H1 |]. split; [tauto |].
    split; [intro C; contradiction |]. split; assumption.
Qed.

(** Two requests the handler throws on: a cookie with a malformed escape,
    and a session cookie whose signature has the length of the expected
    one in code units and another length in bytes. *)
Example handler_throws :
  handlerOutcome {| sign := sign sampleCrypto; decodeURIComponent := fun _ => None |}
                 failingEnv
                 {| method := "GET"; cookie := Some "theme=%E0";
                    body := JUndefined; data := "" |}
  = Threw /\
  String.length "00112233aabbccdd" = 16%nat /\
  readSession sampleCrypto (Some longSignatureCookie) = Raised /\
  handlerOutcome sampleCrypto failingEnv
                 {| method := "GET"; cookie := Some longSignatureCookie;
                    body := JUndefined; data := "" |}
  = Threw.
Proof. repeat split; reflexivity. Qed.

Lemma setCookie_pair (env : Env) :
  hexDigest (Login.sign env ALLOWED_USERNAME) = true ->
  exists setCookie,
    setSessionCookie env ALLOWED_USERNAME = [("Set-Cookie", setCookie)] /\
    cookiePair setCookie
    = SESSION_COOKIE ++ "=" ++ ALLOWED_USERNAME ++ "." ++ Login.sign env ALLOWED_USERNAME.
Proof.
  intro Hh. apply setSessionCookie_pair; [exact Hh | reflexivity].
Qed.

(** X9.  Logging in opens a session: when [sign] returns a hexadecimal
    digest, [decodeURIComponent] leaves the cookie's name and value as
    they are, and a POST is answered with status 200, the answer carries
    one [Set-Cookie] header, and a GET that sends back the name and value
    of that cookie is answered with status 200 and the user "Guandacol". *)
Theorem login_opens_session :
  forall (k : Crypto) (env : Env) (req : Request),
    agrees k env ->
    hexDigest (sign k ALLOWED_USERNAME) = true ->
    decodeURIComponent k SESSION_COOKIE = Some SESSION_COOKIE ->
    decodeURIComponent k (sessionValue k ALLOWED_USERNAME)
    = Some (sessionValue k ALLOWED_USERNAME) ->
    method req = "POST" ->
    status (response (handler env req)) = 200%nat ->
    exists setCookie,
      headers (response (handler env req)) = [("Set-Cookie", setCookie)] /\
      forall req' : Request,
        method req' = "GET" ->
        cookie req' = Some (cookiePair setCookie) ->
        handler env req' = reply 200 (authenticatedJson "Guandacol").
Proof.
  intros k env req [As Ar] Hh Dk Dv Em S.
  assert (Hh' : hexDigest (Login.sign env ALLOWED_USERNAME) = true)
    by (rewrite As; exact Hh).
  destruct (setCookie_pair env Hh') as [setCookie [Hset Hpair]].
  exists setCookie. split.
  - destruct (readBody env req) as [b |] eqn:B.
    + rewrite (handler_post env req b Em B) in *.
      destruct (login_cases env b)
        as [[S' _] | [[S' _] | [[S' _] | [R _]]]];
        try (rewrite S' in S; discriminate S).
      rewrite R. exact Hset.
    + unfold handler in S. rewrite Em, B in S. discriminate S.
  - intros req' Eg Ec. unfold handler. rewrite Eg.
    change (String.eqb "GET" "GET") with true. cbv iota.
    rewrite (Ar req' ALLOWED_USERNAME); [reflexivity |].
    rewrite Ec, Hpair, As.
    apply readSession_own_cookie; try assumption; try reflexivity.
    discriminate.
Qed.

Lemma workingEnv_agrees : agrees sampleCrypto workingEnv.
Proof.
  split; [reflexivity |].
  intros req username H. unfold workingEnv, envOf. cbn [Login.readSession].
  rewrite H. reflexivity.
Qed.

Lemma login_opens_session_witness :
  exists setCookie,
    headers (response (handler workingEnv ownerRequest)) = [("Set-Cookie", setCookie)] /\
    forall req' : Request,
      method req' = "GET" ->
      cookie req' = Some (cookiePair setCookie) ->
      handler workingEnv req' = reply 200 (authenticatedJson "Guandacol").
Proof.
  apply (login_opens_session sampleCrypto workingEnv ownerRequest);
    try reflexivity.
  exact workingEnv_agrees.
Defined.

End HandlerProperties.

(** ** Building the pools *)

Section ConstructorProperties.

Import Scene SceneMore.
Open Scope R_scope.

(** An index [Math.floor(a)] taken for [0 <= a < n] is below [n]. *)
Lemma floorIndex_lt (a : R) (n : nat) : 0 <= a < INR n -> (floorIndex a < n)%nat.
Proof.
  intros [H0 Hn]. unfold floorIndex.
  destruct (base_Int_part a) as [Hle Hgt].
  assert (Z0 : (0 <= Int_part a)%Z).
  { assert (L : (-1 < Int_part a)%Z) by (apply lt_IZR; lra). lia. }
  assert (Zn : (Int_part a < Z.of_nat n)%Z).
  { apply lt_IZR. rewrite <- INR_IZR_INZ. lra. }
  lia.
Qed.

Lemma floor_choice (u : R) (l : list string) :
  0 <= u < 1 -> l <> [] -> In (nth (floorIndex (u * INR (length l))) l EmptyString) l.
Proof.
  intros Hu Hl. apply nth_In. apply floorIndex_lt.
  assert (P : 0 < INR (length l)).
  { apply lt_0_INR. destruct l; [contradiction | cbn; lia]. }
  split; [apply Rmult_le_pos; lra | nra].
Qed.

(** [Math.pow(t, 1.8)] for a draw [t]: in [[0, 1)] and not above [t]. *)
Lemma Math_pow_draw (t : R) :
  0 <= t < 1 -> 0 <= Math_pow t 1.8 < 1 /\ Math_pow t 1.8 <= t.
Proof.
  intros [H0 H1]. unfold Math_pow.
  destruct (Rlt_dec 0 t) as [P | N]; [| lra].
  assert (L : ln t < 0) by (rewrite <- ln_1; apply ln_increasing; lra).
  unfold Rpower.
  assert (E1 : exp (1.8 * ln t) < 1).
  { rewrite <- exp_0. apply exp_increasing. nra. }
  assert (E2 : exp (1.8 * ln t) <= t).
  { rewrite <- (exp_ln t P) at 2. left. apply exp_increasing. nra. }
  pose proof (exp_pos (1.8 * ln t)). lra.
Qed.

Ltac draws Hu :=
  repeat match goal with
         | |- context [?rnd ?n] =>
             lazymatch type of Hu with
             | unitDraws rnd =>
                 lazymatch goal with
                 | _ : 0 <= rnd n < 1 |- _ => fail
                 | _ => pose proof (Hu n)
                 end
             end
         end.

(** The height fraction of a point placed at [u * h - h / 2]. *)
Lemma height_fraction (u : R) :
  (u * CONFIG.tree_height - CONFIG.tree_height / 2 + CONFIG.tree_height / 2)
  / CONFIG.tree_height = u.
Proof. unfold CONFIG.tree_height. field. Qed.

Ltac layout Hu :=
  unfold normalizedHeightOf, localRadius;
  rewrite ?height_fraction;
  unfold CONFIG.tree_height, CONFIG.tree_radius;
  draws Hu.

(** X10.  A photo built from draws in [[0, 1)] has its scatter position in
    the cube of half-side 35 and its formed position half a unit outside the
    cone: at height [y] in [[-16, 16)] and at
    distance [14 * (1 - t) + 0.5] from the axis, [t] the normalized
    height.  Its weight is in [[0.8, 2)], its scale is 2.2 or in
    [[0.8, 1.4)], its texture index is below 31 and its border colour is one
    of the table. *)
Theorem photo_layout :
  forall (i : nat) (rnd : nat -> R) (k : nat),
    unitDraws rnd ->
    let d := fst (makePhoto i rnd k) in
    let t := normalizedHeightOf (Vector3.y (photo_targetPos d)) in
    (-35 <= Vector3.x (photo_chaosPos d) < 35 /\
     -35 <= Vector3.y (photo_chaosPos d) < 35 /\
     -35 <= Vector3.z (photo_chaosPos d) < 35) /\
    (-16 <= Vector3.y (photo_targetPos d) < 16 /\ 0 <= t < 1 /\
     axisDistance (photo_targetPos d) = localRadius t + 0.5) /\
    0.8 <= photo_weight d < 2 /\
    (photo_scale d = 2.2 \/ 0.8 <= photo_scale d < 1.4) /\
    (photo_textureIndex d < CONFIG.TOTAL_NUMBERED_PHOTOS)%nat /\
    In (photo_borderColor d) CONFIG.colors_borders.
Proof.
  intros i rnd k Hu d t. subst t d.
  unfold makePhoto, bind, Math_random, ret.
  destruct (Rltb (rnd (S (S (S (S (S k)))))) 0.2);
    cbn [fst snd photo_chaosPos photo_currentPos photo_targetPos photo_weight
         photo_scale photo_textureIndex photo_borderColor Vector3.clone
         Vector3.x Vector3.y Vector3.z];
    layout Hu.
  all: split; [lra |].
  all: split; [split; [lra |]; split; [lra |];
               apply axisDistance_polar; nra |].
  all: split; [lra |].
  all: split; [first [left; reflexivity | right; lra] |].
  all: split; [apply Nat.mod_upper_bound; discriminate |].
  all: apply floor_choice; [assumption | discriminate].
Qed.


(** X12.  A light built from draws in [[0, 1)]: its height draw [t] is
    bent to [Math.pow(t, 1.8)], which is in [[0, 1)] and not above [t], so
    the light is formed no higher than an unbent draw would put it; its
    formed position is at that normalized height, 0.3 outside the cone; its
    scatter position is within 2.5 of the formed height and within 30 of
    the axis planes; its colour is one of the table and its time offset is
    in [[0, 100)]. *)
Theorem light_layout :
  forall (i : nat) (rnd : nat -> R) (k : nat),
    unitDraws rnd ->
    let d := fst (makeLight i rnd k) in
    let t := light_normalizedHeight d in
    t = Math_pow (rnd k) 1.8 /\ 0 <= t < 1 /\ t <= rnd k /\
    Vector3.y (light_targetPos d) = t * 32 - 16 /\
    axisDistance (light_targetPos d) = localRadius t + 0.3 /\
    (-30 <= Vector3.x (light_chaosPos d) < 30 /\
     -2.5 <= Vector3.y (light_chaosPos d) - Vector3.y (light_targetPos d) < 2.5 /\
     -30 <= Vector3.z (light_chaosPos d) < 30) /\
    In (light_color d) CONFIG.colors_lights /\
    0 <= light_timeOffset d < 100.
Proof.
  intros i rnd k Hu d t. subst t d.
  unfold makeLight, bind, Math_random, ret.
  cbn [fst snd light_chaosPos light_targetPos light_normalizedHeight light_color
       light_timeOffset Vector3.x Vector3.y Vector3.z].
  rewrite !height_fraction.
  destruct (Math_pow_draw (rnd k) (Hu k)) as [B L].
  layout Hu.
  split; [reflexivity |]. split; [exact B |]. split; [exact L |].
  split; [lra |].
  split; [apply axisDistance_polar; lra |].
  split; [lra |].
  split; [apply floor_choice; [assumption | discriminate] | lra].
Qed.

End ConstructorProperties.

(** ** The pools over a whole run *)

Section WorldInvariants.

Import Scene SceneMore.
Open Scope R_scope.

Variable lookAt : Object3D -> Vector3.t -> Euler.t.

Lemma useFrame_Forall {D : Type} (P : D * Object3D -> Prop)
  (body : D * Object3D -> D * Object3D) (p : Pool D) :
  (forall e, P e -> P (body e)) ->
  Forall P (entries p) -> Forall P (entries (useFrame body p)).
Proof.
  intros Hb H. unfold useFrame. destruct (groupRef p); [| exact H].
  cbn [entries]. apply Forall_map. revert H. apply Forall_impl. exact Hb.
Qed.

(** What every step of a history keeps, it keeps over the history. *)
Lemma run_everyEntry (ok : Event -> Prop)
  (Pp : PhotoData * Object3D -> Prop) (Pe : ElementData * Object3D -> Prop)
  (Pl : LightData * Object3D -> Prop) :
  (forall st t d e, ok (Frame t d) -> Pp e -> Pp (photoStep lookAt st t d e)) ->
  (forall m e, Pp e -> Pp (applyPhotoProps m e)) ->
  (forall st t d e, ok (Frame t d) -> Pe e -> Pe (elementStep st d e)) ->
  (forall st t d e, ok (Frame t d) -> Pl e -> Pl (lightStep st t d e)) ->
  forall (es : list Event) (w : World),
    Forall ok es -> everyEntry Pp Pe Pl w -> everyEntry Pp Pe Pl (run lookAt es w).
Proof.
  intros Hp Ha He Hl es. induction es as [| e es IH]; intros w Hok H.
  - exact H.
  - inversion Hok as [| ? ? Hok1 Hok2]; subst.
    cbn [run fold_left]. apply IH; [exact Hok2 |].
    destruct H as [H1 [H2 H3]].
    destruct e as [t d | m]; cbn [step].
    + unfold frame, everyEntry. cbn [photos elements lights].
      split; [| split]; apply useFrame_Forall; eauto.
    + unfold setSceneState. destruct (SceneMode_eqb m (state w)).
      * split; [| split]; assumption.
      * unfold everyEntry. cbn [photos elements lights entries].
        split; [| split]; try assumption.
        apply Forall_map. revert H1. apply Forall_impl. intro e. apply Ha.
Qed.

Lemma makeData_Forall_at {A : Type} (P : A -> Prop) (make : nat -> Rand A)
  (rnd : nat -> R) :
  (forall i k, P (fst (make i rnd k))) ->
  forall count i k, Forall P (fst (makeData make count i rnd k)).
Proof.
  intros H count. induction count as [| n IH]; intros i k; cbn [makeData].
  - constructor.
  - unfold bind, ret.
    specialize (H i k). destruct (make i rnd k) as [a k1].
    specialize (IH (S i) k1). destruct (makeData make n (S i) rnd k1) as [rest k2].
    cbn [fst] in *. constructor; assumption.
Qed.

(** What the constructors give every object, every entry of the new world
    has. *)
Lemma makeWorld_everyEntry (rnd : nat -> R)
  (Pp : PhotoData -> Prop) (Pe : ElementData -> Prop) (Pl : LightData -> Prop) :
  (forall i k, Pp (fst (makePhoto i rnd k))) ->
  (forall i k, Pe (fst (makeElement i rnd k))) ->
  (forall i k, Pl (fst (makeLight i rnd k))) ->
  everyEntry (fun e => Pp (fst e)) (fun e => Pe (fst e)) (fun e => Pl (fst e))
             (runRand makeWorld rnd).
Proof.
  intros Hp He Hl. unfold runRand, makeWorld, bind, ret.
  pose proof (makeData_Forall_at Pp makePhoto rnd Hp
                CONFIG.counts_ornaments 0%nat 0%nat) as Fp.
  destruct (makeData makePhoto CONFIG.counts_ornaments 0 rnd 0%nat) as [ps k1].
  pose proof (makeData_Forall_at Pe makeElement rnd He
                CONFIG.counts_elements 0%nat k1) as Fe.
  destruct (makeData makeElement CONFIG.counts_elements 0 rnd k1) as [els k2].
  pose proof (makeData_Forall_at Pl makeLight rnd Hl
                CONFIG.counts_lights 0%nat k2) as Fl.
  destruct (makeData makeLight CONFIG.counts_lights 0 rnd k2) as [ls k3].
  cbn [fst] in *. unfold everyEntry. cbn [photos elements lights entries].
  split; [| split]; apply Forall_mount; try assumption; reflexivity.
Qed.

(** Blending a point of the line towards either end gives a point of the
    line. *)
Lemma lerp_towards_target (a b : Vector3.t) (s alpha : R) :
  Vector3.lerp (Vector3.lerp a b s) b alpha
  = Vector3.lerp a b (s + (1 - s) * alpha).
Proof.
  unfold Vector3.lerp. cbn [Vector3.x Vector3.y Vector3.z]. f_equal; ring.
Qed.

Lemma lerp_towards_start (a b : Vector3.t) (s alpha : R) :
  Vector3.lerp (Vector3.lerp a b s) a alpha
  = Vector3.lerp a b (s * (1 - alpha)).
Proof.
  unfold Vector3.lerp. cbn [Vector3.x Vector3.y Vector3.z]. f_equal; ring.
Qed.


Lemma between_lerp (a b p : Vector3.t) (formed : bool) (alpha : R) :
  0 <= alpha <= 1 ->
  between a b p -> between a b (Vector3.lerp p (if formed then b else a) alpha).
Proof.
  intros Ha [s [Hs E]]. subst p. destruct formed.
  - exists (s + (1 - s) * alpha). split; [nra | apply lerp_towards_target].
  - exists (s * (1 - alpha)). split; [nra | apply lerp_towards_start].
Qed.

(** X13.  Once the three groups are mounted, from the first frame on and
    through every later frame and mode command, the position of every
    rendered object is the current position kept in its data entry. *)
Theorem positions_follow_data :
  forall (w : World) (time delta : R) (es : list Event),
    mounted w ->
    everyEntry (fun e => position (snd e) = photo_currentPos (fst e))
               (fun e => position (snd e) = element_currentPos (fst e))
               (fun e => position (snd e) = light_currentPos (fst e))
               (run lookAt es (frame lookAt time delta w)).
Proof.
  intros w time delta es [Mp [Me Ml]].
  apply (run_everyEntry (fun _ => True)).
  - intros st t d [o g] _ _. unfold photoStep.
    destruct (isFormedOf st); reflexivity.
  - intros m e H. exact H.
  - intros st t d [o g] _ _. reflexivity.
  - intros st t d [o g] _ _. unfold lightStep.
    cbn [fst snd light_setCurrentPos light_currentPos].
    unfold setEmissiveIntensity, setPosition. cbn [material position].
    destruct (material g); reflexivity.
  - apply Forall_forall. intros; exact I.
  - unfold frame, everyEntry, useFrame. cbn [photos elements lights].
    rewrite Mp, Me, Ml. cbn [entries].
    split; [| split]; apply Forall_map, Forall_forall.
    + intros [o g] _. unfold photoStep.
      destruct (isFormedOf (state w)); reflexivity.
    + intros [o g] _. reflexivity.
    + intros [o g] _. unfold lightStep.
      cbn [fst snd light_setCurrentPos light_currentPos].
      unfold setEmissiveIntensity, setPosition. cbn [material position].
      destruct (material g); reflexivity.
Qed.


(** In exact arithmetic: when the draws are in [[0, 1)] and every frame
    lasts between 0 and half a second, every object stays between its
    scatter position and its formed position. *)
Lemma stay_between_exact :
  forall (rnd : nat -> R) (es : list Event),
    unitDraws rnd ->
    Forall shortFrame es ->
    everyEntry
      (fun e => between (photo_chaosPos (fst e)) (photo_targetPos (fst e))
                        (photo_currentPos (fst e)))
      (fun e => between (element_chaosPos (fst e)) (element_targetPos (fst e))
                        (element_currentPos (fst e)))
      (fun e => between (light_chaosPos (fst e)) (light_targetPos (fst e))
                        (light_currentPos (fst e)))
      (run lookAt es (runRand makeWorld rnd)).
Proof.
  intros rnd es Hu Hs.
  assert (W : everyEntry
      (fun e => 0.8 <= photo_weight (fst e) < 2 /\
                between (photo_chaosPos (fst e)) (photo_targetPos (fst e))
                        (photo_currentPos (fst e)))
      (fun e => between (element_chaosPos (fst e)) (element_targetPos (fst e))
                        (element_currentPos (fst e)))
      (fun e => between (light_chaosPos (fst e)) (light_targetPos (fst e))
                        (light_currentPos (fst e)))
      (run lookAt es (runRand makeWorld rnd))).
  { apply (run_everyEntry shortFrame).
    - intros st t d [o g] Hd [Hw H]. rewrite photoStep_data.
      cbn [fst photo_setCurrentPos photo_chaosPos photo_targetPos
           photo_currentPos photo_weight] in *.
      split; [exact Hw |].
      unfold photoTarget. apply between_lerp; [| exact H].
      unfold photoRate. cbn [shortFrame] in Hd.
      destruct (isFormedOf st); nra.
    - intros m e H. exact H.
    - intros st t d [o g] Hd H. rewrite elementStep_data.
      cbn [fst element_setCurrentPos element_chaosPos element_targetPos
           element_currentPos] in *.
      unfold elementTarget. apply between_lerp; [| exact H].
      unfold elementRate. cbn [shortFrame] in Hd. lra.
    - intros st t d [o g] Hd H. rewrite lightStep_data.
      cbn [fst light_setCurrentPos light_chaosPos light_targetPos
           light_currentPos] in *.
      unfold lightTarget. apply between_lerp; [| exact H].
      unfold lightRate. cbn [shortFrame] in Hd. lra.
    - exact Hs.
    - apply (makeWorld_everyEntry rnd
               (fun d => 0.8 <= photo_weight d < 2 /\
                         between (photo_chaosPos d) (photo_targetPos d)
                                 (photo_currentPos d))
               (fun d => between (element_chaosPos d) (element_targetPos d)
                                 (element_currentPos d))
               (fun d => between (light_chaosPos d) (light_targetPos d)
                                 (light_currentPos d))).
      + intros i k. split.
        * unfold makePhoto, bind, Math_random, ret.
          destruct (Rltb (rnd (S (S (S (S (S k)))))) 0.2);
            cbn [fst photo_weight];
            match goal with |- context [rnd ?n] => pose proof (Hu n) end; lra.
        * rewrite makePhoto_at_rest. exists 0.
          split; [lra | symmetry; apply lerp_zero].
      + intros i k. rewrite makeElement_at_rest. exists 0.
        split; [lra | symmetry; apply lerp_zero].
      + intros i k. rewrite makeLight_at_rest. exists 0.
        split; [lra | symmetry; apply lerp_zero]. }
  destruct W as [Wp [We Wl]]. split; [| split]; try assumption.
  revert Wp. apply Forall_impl. intros e [_ H]. exact H.
Qed.

End WorldInvariants.

(** X15.  In exact arithmetic, when the draws are in [[0, 1)] and every
    frame lasts between 0 and half a second, every object stays between
    its scatter position and its formed position: no blend passes its
    target.  On the binary64 numbers of the program this holds up to
    rounding only: a light at [x = -12.7] whose formed position is at
    [x = 7.3] is taken by a frame of half a second to
    [x = 7.3000000000000007], a unit in the last place past its target. *)
Theorem objects_stay_between :
  (forall (lookAt : Scene.Object3D -> Scene.Vector3.t -> Scene.Euler.t)
          (rnd : nat -> R) (es : list Scene.Event),
      Scene.unitDraws rnd ->
      Forall SceneMore.shortFrame es ->
      SceneMore.everyEntry
        (fun e => SceneMore.between (Scene.photo_chaosPos (fst e))
                    (Scene.photo_targetPos (fst e)) (Scene.photo_currentPos (fst e)))
        (fun e => SceneMore.between (Scene.element_chaosPos (fst e))
                    (Scene.element_targetPos (fst e))
                    (Scene.element_currentPos (fst e)))
        (fun e => SceneMore.between (Scene.light_chaosPos (fst e))
                    (Scene.light_targetPos (fst e)) (Scene.light_currentPos (fst e)))
        (Scene.run lookAt es (Scene.runRand Scene.makeWorld rnd))) /\
  (Scene64.lightBlend 0.5 Scene64.lightTarget Scene64.lightStart
   = Scene64.Vector3.mk 7.3000000000000007 0 0 /\
   (Scene64.Vector3.x Scene64.lightTarget
    <? Scene64.Vector3.x
         (Scene64.lightBlend 0.5 Scene64.lightTarget Scene64.lightStart))%float
   = true).
Proof.
  split.
  - exact stay_between_exact.
  - split; vm_compute; reflexivity.
Qed.

Section WorldWitnesses.

Import Scene SceneMore.
Open Scope R_scope.

Lemma halves_unitDraws : unitDraws halves.
Proof. intro n. unfold halves. lra. Qed.

Lemma photo_layout_witness :
  unitDraws halves /\
  0.8 <= photo_weight (fst (makePhoto 0%nat halves 0%nat)) < 2 /\
  (photo_textureIndex (fst (makePhoto 0%nat halves 0%nat)) < CONFIG.TOTAL_NUMBERED_PHOTOS)%nat.
Proof.
  split; [exact halves_unitDraws |].
  destruct (photo_layout 0%nat halves 0%nat halves_unitDraws) as [_ [_ [W [_ [T _]]]]].
  split; [exact W | exact T].
Defined.


Lemma light_layout_witness :
  unitDraws halves /\
  0 <= light_normalizedHeight (fst (makeLight 0%nat halves 0%nat)) < 1 /\
  light_normalizedHeight (fst (makeLight 0%nat halves 0%nat)) <= 1 / 2.
Proof.
  split; [exact halves_unitDraws |].
  destruct (light_layout 0%nat halves 0%nat halves_unitDraws) as [_ [B [L _]]].
  split; [exact B | exact L].
Defined.

Lemma positions_follow_data_witness :
  mounted sampleWorld /\
  everyEntry (fun e => position (snd e) = photo_currentPos (fst e))
             (fun e => position (snd e) = element_currentPos (fst e))
             (fun e => position (snd e) = light_currentPos (fst e))
             (run (fun _ _ => Euler.mk 0 0 0) [ModeCommand FORMED; Frame 1 (1 / 60)]
                  (frame (fun _ _ => Euler.mk 0 0 0) 0 (1 / 60) sampleWorld)).
Proof.
  assert (M : mounted sampleWorld) by (repeat split; reflexivity).
  split; [exact M |].
  exact (positions_follow_data (fun _ _ => Euler.mk 0 0 0) sampleWorld 0 (1 / 60)
           [ModeCommand FORMED; Frame 1 (1 / 60)] M).
Defined.

Lemma objects_stay_between_witness :
  unitDraws halves /\
  Forall shortFrame
         [Frame 0 (1 / 60); ModeCommand FORMED; Frame 1 (1 / 2)] /\
  everyEntry
    (fun e => between (photo_chaosPos (fst e))
                (photo_targetPos (fst e)) (photo_currentPos (fst e)))
    (fun e => between (element_chaosPos (fst e))
                (element_targetPos (fst e)) (element_currentPos (fst e)))
    (fun e => between (light_chaosPos (fst e))
                (light_targetPos (fst e)) (light_currentPos (fst e)))
    (run (fun _ _ => Euler.mk 0 0 0)
       [Frame 0 (1 / 60); ModeCommand FORMED; Frame 1 (1 / 2)]
       (runRand makeWorld halves)).
Proof.
  assert (U : unitDraws halves).
  { intro n. unfold halves. lra. }
  assert (S : Forall shortFrame
                [Frame 0 (1 / 60); ModeCommand FORMED;
                 Frame 1 (1 / 2)]).
  { repeat constructor; cbn; lra. }
  split; [exact U |]. split; [exact S |].
  exact (proj1 objects_stay_between (fun _ _ => Euler.mk 0 0 0)
           halves _ U S).
Defined.

End WorldWitnesses.

(** ** Lights over several frames, the foliage and the star *)

Section OtherAnimators.

Import Scene SceneMore.
Open Scope R_scope.

Lemma lightAfter_step (state : SceneMode) (f : R * R) (frames : list (R * R))
  (e : LightData * Object3D) :
  lightAfter state (f :: frames) e
  = lightAfter state frames (lightStep state (fst f) (snd f) e).
Proof. reflexivity. Qed.

Lemma lightStep_distance (state : SceneMode) (time delta : R)
  (e : LightData * Object3D) :
  lightDistance state (fst (lightStep state time delta e))
  = Rabs (1 - delta * lightRate) * lightDistance state (fst e).
Proof.
  destruct e as [d o]. rewrite lightStep_data. unfold lightDistance, lightTarget.
  cbn [fst light_setCurrentPos light_currentPos light_targetPos light_chaosPos].
  apply lerp_distance.
Qed.

Lemma lightDecay_nonneg (frames : list (R * R)) : 0 <= lightDecay frames.
Proof.
  induction frames as [| f frames IH]; cbn [lightDecay]; [lra |].
  apply Rmult_le_pos; [apply Rabs_pos | exact IH].
Qed.

(** X16.  In exact arithmetic, over any number of frames in one mode, a
    light's distance to the target of that mode is its first distance times
    the product of the factors [|1 - delta * 2|] of the frames.  The
    product is 0 exactly when some frame lasts half a second, is at most 1
    when every frame lasts between 0 and 1 second, and is
    [(1 - delta * 2) ^ n] for [n] frames of one length [delta] of at most
    half a second.  On the binary64 numbers of the program the law holds up
    to rounding only: a light blending from the origin towards [x = 7.3] at
    60 frames a second is, after 1000 frames, at a distance of
    1.3322676295501878e-14 from its target and stays there through every
    further frame, and a frame of half a second takes a light from
    [x = -12.7] to a distance of 8.8817841970012523e-16 from it, not to
    it. *)
Theorem light_distance_over_frames :
  (forall (state : SceneMode) (frames : list (R * R)) (e : LightData * Object3D),
      lightDistance state (fst (lightAfter state frames e))
      = lightDecay frames * lightDistance state (fst e)) /\
  (forall frames : list (R * R),
      lightDecay frames = 0 <-> Exists (fun f => snd f = 1 / 2) frames) /\
  (forall frames : list (R * R),
      Forall (fun f => 0 <= snd f <= 1) frames -> 0 <= lightDecay frames <= 1) /\
  (forall (n : nat) (time delta : R),
      0 <= delta <= 1 / 2 ->
      lightDecay (repeat (time, delta) n) = (1 - delta * 2) ^ n) /\
  (Scene64.Vector3.distanceTo Scene64.stalledLight Scene64.lightTarget
   = 1.3322676295501878e-14%float /\
   (forall n : nat,
       Scene64.frames (Scene64.lightBlend Scene64.sixtieth Scene64.lightTarget)
                      n Scene64.stalledLight
       = Scene64.stalledLight) /\
   Scene64.Vector3.distanceTo
     (Scene64.lightBlend 0.5 Scene64.lightTarget Scene64.lightStart)
     Scene64.lightTarget
   = 8.8817841970012523e-16%float).
Proof.
  split; [| split; [| split; [| split]]].
  5: { split; [vm_compute; reflexivity |].
       split; [apply frames64_fixed; vm_compute; reflexivity |].
       vm_compute. reflexivity. }
  - intros state frames. induction frames as [| f frames IH]; intro e.
    + unfold lightAfter. cbn [fold_left lightDecay]. ring.
    + rewrite lightAfter_step, IH, lightStep_distance. cbn [lightDecay].
      unfold lightRate. replace (snd f * 2.0) with (snd f * 2) by lra. ring.
  - intro frames. induction frames as [| f frames IH]; cbn [lightDecay].
    + split; [lra | intro H; inversion H].
    + split.
      * intro H. apply Rmult_integral in H. destruct H as [H | H].
        -- left.
           destruct (Rcase_abs (1 - snd f * 2)) as [N | N];
             [rewrite (Rabs_left _ N) in H | rewrite (Rabs_right _ N) in H]; lra.
        -- right. apply IH. exact H.
      * intro H. inversion H as [? ? H1 | ? ? H1]; subst.
        -- rewrite H1.
           replace (1 - 1 / 2 * 2) with 0 by lra. rewrite Rabs_R0. ring.
        -- apply IH in H1. rewrite H1. ring.
  - intros frames H. induction H as [| f frames Hf _ IH]; cbn [lightDecay]; [lra |].
    assert (A : Rabs (1 - snd f * 2) <= 1) by (apply Rabs_le; lra).
    pose proof (Rabs_pos (1 - snd f * 2)). nra.
  - intros n time delta Hd. induction n as [| n IH]; cbn [repeat lightDecay pow].
    + reflexivity.
    + rewrite IH. cbn [snd]. rewrite Rabs_pos_eq by lra. reflexivity.
Qed.

Lemma exp_nonpos (x : R) : x <= 0 -> 0 < exp x <= 1.
Proof.
  intro H. split; [apply exp_pos |].
  destruct H as [H | H].
  - left. rewrite <- exp_0. apply exp_increasing. exact H.
  - rewrite H, exp_0. lra.
Qed.

Lemma MathUtils_damp_offset (x y lambda dt : R) :
  MathUtils_damp x y lambda dt = y + (x - y) * exp (- lambda * dt).
Proof. unfold MathUtils_damp, MathUtils_lerp. ring. Qed.

(** X17.  The foliage's progress is damped, not blended: a frame sets it
    to [target + (progress - target) * exp (- (1.5 * delta))], so two frames in
    one mode leave the material as one frame of their joint length does, and
    a frame of length 0 changes only [uTime]; with no material mounted a
    frame does nothing. *)
Theorem foliage_frame_rate_independent :
  (forall (state : SceneMode) (time delta : R) (m : FoliageMaterial),
      foliageFrame state time delta (Some m)
      = Some {| uTime := time;
                uProgress :=
                  (if isFormedOf state then 1 else 0)
                  + (uProgress m - (if isFormedOf state then 1 else 0))
                    * exp (- (1.5 * delta)) |}) /\
  (forall (state : SceneMode) (t1 d1 t2 d2 : R) (r : option FoliageMaterial),
      foliageFrame state t2 d2 (foliageFrame state t1 d1 r)
      = foliageFrame state t2 (d1 + d2) r) /\
  (forall (state : SceneMode) (time : R) (m : FoliageMaterial),
      foliageFrame state time 0 (Some m)
      = Some {| uTime := time; uProgress := uProgress m |}) /\
  (forall (frames : list (SceneMode * R * R)), foliageRun frames None = None).
Proof.
  split; [| split; [| split]].
  - intros state time delta m. unfold foliageFrame.
    rewrite MathUtils_damp_offset.
    replace (- (1.5) * delta) with (- (1.5 * delta)) by ring. reflexivity.
  - intros state t1 d1 t2 d2 [m |]; [| reflexivity].
    unfold foliageFrame. cbn [uProgress]. f_equal. f_equal.
    rewrite !MathUtils_damp_offset.
    replace (- (1.5) * (d1 + d2)) with (- (1.5) * d1 + - (1.5) * d2) by ring.
    rewrite exp_plus. ring.
  - intros state time m. unfold foliageFrame. f_equal. f_equal.
    rewrite MathUtils_damp_offset.
    replace (- (1.5) * 0) with 0 by ring. rewrite exp_0. ring.
  - intro frames. induction frames as [| f frames IH]; [reflexivity |].
    exact IH.
Qed.

Lemma foliageFrame_bounds (state : SceneMode) (time delta : R)
  (m : FoliageMaterial) :
  0 <= delta -> 0 <= uProgress m <= 1 ->
  exists m', foliageFrame state time delta (Some m) = Some m' /\
             0 <= uProgress m' <= 1 /\
             (isFormedOf state = true -> uProgress m <= uProgress m') /\
             (isFormedOf state = false -> uProgress m' <= uProgress m).
Proof.
  intros Hd Hp. eexists. split; [reflexivity |].
  cbn [uProgress]. rewrite MathUtils_damp_offset.
  assert (E : 0 < exp (- (1.5) * delta) <= 1) by (apply exp_nonpos; lra).
  destruct (isFormedOf state).
  - split; [nra |]. split; [intros _; nra | discriminate].
  - split; [nra |]. split; [discriminate | intros _; nra].
Qed.

(** X18.  From the new material's progress 0, through frames of any modes
    whose lengths are not negative, the progress stays in [[0, 1]]; a frame
    in mode FORMED does not lower it and a frame in mode CHAOS does not
    raise it. *)
Theorem foliage_progress_bounded :
  forall frames : list (SceneMode * R * R),
    Forall (fun f => 0 <= snd f) frames ->
    exists m : FoliageMaterial,
      foliageRun frames (Some newFoliageMaterial) = Some m /\
      0 <= uProgress m <= 1 /\
      forall (state : SceneMode) (time delta : R),
        0 <= delta ->
        exists m' : FoliageMaterial,
          foliageRun (frames ++ [(state, time, delta)]) (Some newFoliageMaterial)
          = Some m' /\
          (state = FORMED -> uProgress m <= uProgress m') /\
          (state = CHAOS -> uProgress m' <= uProgress m).
Proof.
  intros frames H.
  assert (G : forall m0, 0 <= uProgress m0 <= 1 ->
              exists m, foliageRun frames (Some m0) = Some m /\ 0 <= uProgress m <= 1).
  { induction H as [| f frames Hf _ IH]; intros m0 H0.
    - exists m0. split; [reflexivity | exact H0].
    - destruct (foliageFrame_bounds (fst (fst f)) (snd (fst f)) (snd f) m0 Hf H0)
        as [m1 [E1 [B1 _]]].
      destruct (IH m1 B1) as [m [E B]].
      exists m. split; [| exact B].
      unfold foliageRun. cbn [fold_left]. rewrite E1. exact E. }
  destruct (G newFoliageMaterial) as [m [E B]]; [cbn; lra |].
  exists m. split; [exact E |]. split; [exact B |].
  intros state time delta Hd.
  destruct (foliageFrame_bounds state time delta m Hd B) as [m' [E' [_ [Up Down]]]].
  exists m'. split.
  - unfold foliageRun in *. rewrite fold_left_app, E. exact E'.
  - split; intro S; subst state; [apply Up | apply Down]; reflexivity.
Qed.

Lemma foliage_progress_bounded_witness :
  Forall (fun f : SceneMode * R * R => 0 <= snd f)
         [(CHAOS, 0, 1 / 60); (FORMED, 1, 1 / 30)] /\
  exists m : FoliageMaterial,
    foliageRun [(CHAOS, 0, 1 / 60); (FORMED, 1, 1 / 30)] (Some newFoliageMaterial)
    = Some m /\
    0 <= uProgress m <= 1.
Proof.
  assert (F : Forall (fun f : SceneMode * R * R => 0 <= snd f)
                     [(CHAOS, 0, 1 / 60); (FORMED, 1, 1 / 30)]).
  { repeat constructor; cbn [snd]; lra. }
  split; [exact F |].
  destruct (foliage_progress_bounded _ F) as [m [E [B _]]].
  exists m. split; [exact E | exact B].
Defined.

Lemma starFrame_uniform (state : SceneMode) (delta : R) (g : StarGroup) :
  Vector3.x (star_scale g) = Vector3.y (star_scale g) ->
  Vector3.y (star_scale g) = Vector3.z (star_scale g) ->
  exists g', starFrame state delta (Some g) = Some g' /\
             Vector3.x (star_scale g') = Vector3.y (star_scale g') /\
             Vector3.y (star_scale g') = Vector3.z (star_scale g') /\
             star_rotation_y g' = star_rotation_y g + delta * 0.5 /\
             (0 <= delta * 3 <= 1 -> 0 <= Vector3.x (star_scale g) <= 1 ->
              0 <= Vector3.x (star_scale g') <= 1).
Proof.
  intros Hxy Hyz. eexists. split; [reflexivity |].
  cbn [star_scale star_rotation_y]. unfold Vector3.lerp.
  cbn [Vector3.x Vector3.y Vector3.z]. rewrite <- Hyz, <- Hxy.
  split; [reflexivity |]. split; [reflexivity |]. split; [reflexivity |].
  intros Hd Hs. destruct (isFormedOf state); nra.
Qed.

(** X19.  The star, from a new group and through frames of any modes: its
    three scale components stay equal to each other, it has turned by half
    the elapsed time about the vertical axis whatever the modes were, and
    when no frame is negative or longer than a third of a second the scale
    stays in [[0, 1]]. *)
Theorem star_scale_and_spin :
  forall frames : list (SceneMode * R * R),
    exists g : StarGroup,
      starRun frames (Some newStarGroup) = Some g /\
      Vector3.x (star_scale g) = Vector3.y (star_scale g) /\
      Vector3.y (star_scale g) = Vector3.z (star_scale g) /\
      star_rotation_y g = elapsed frames * 0.5 /\
      (Forall (fun f => 0 <= snd f <= 1 / 3) frames ->
       0 <= Vector3.x (star_scale g) <= 1).
Proof.
  intro frames.
  assert (G : forall g0,
             Vector3.x (star_scale g0) = Vector3.y (star_scale g0) ->
             Vector3.y (star_scale g0) = Vector3.z (star_scale g0) ->
             exists g, starRun frames (Some g0) = Some g /\
                       Vector3.x (star_scale g) = Vector3.y (star_scale g) /\
                       Vector3.y (star_scale g) = Vector3.z (star_scale g) /\
                       star_rotation_y g = star_rotation_y g0 + elapsed frames * 0.5 /\
                       (Forall (fun f => 0 <= snd f <= 1 / 3) frames ->
                        0 <= Vector3.x (star_scale g0) <= 1 ->
                        0 <= Vector3.x (star_scale g) <= 1)).
  { induction frames as [| f frames IH]; intros g0 Hxy Hyz.
    - exists g0. split; [reflexivity |]. split; [exact Hxy |]. split; [exact Hyz |].
      split; [cbn [elapsed fold_right]; ring | intros _ H; exact H].
    - destruct (starFrame_uniform (fst (fst f)) (snd f) g0 Hxy Hyz)
        as [g1 [E1 [Hxy1 [Hyz1 [R1 B1]]]]].
      destruct (IH g1 Hxy1 Hyz1) as [g [E [Hxy2 [Hyz2 [R2 B2]]]]].
      exists g. split; [unfold starRun; cbn [fold_left]; rewrite E1; exact E |].
      split; [exact Hxy2 |]. split; [exact Hyz2 |].
      split.
      + rewrite R2, R1. cbn [elapsed fold_right]. fold (elapsed frames). ring.
      + intros HF H0. inversion HF as [| ? ? Hf HF']; subst.
        apply B2; [exact HF' |]. apply B1; [lra | exact H0]. }
  destruct (G newStarGroup) as [g [E [Hxy [Hyz [Rt B]]]]]; try reflexivity.
  exists g. split; [exact E |]. split; [exact Hxy |]. split; [exact Hyz |].
  split; [rewrite Rt; cbn [newStarGroup star_rotation_y]; ring |].
  intro HF. apply B; [exact HF |]. cbn. lra.
Qed.

End OtherAnimators.

(** ** The page *)

Section ClientProperties.

Import Login Session Client.
Open Scope string_scope.

Lemma handleLogin_ok (status : nat) (v : JsValue) (a : Auth) :
  ok status = true ->
  handleLogin (Answered status (Some v)) a
  = {| authState := authed; authError := JNull; submitting := false |}.
Proof. intro H. unfold handleLogin. rewrite H. reflexivity. Qed.

Lemma handleLogin_error (status : nat) (message : string) (a : Auth) :
  ok status = false -> message <> "" ->
  handleLogin (Answered status (Some (errorJson message))) a
  = {| authState := unauthenticated; authError := JString message;
       submitting := false |}.
Proof.
  intros H N. unfold handleLogin. rewrite H. cbn.
  destruct (String.eqb_spec message ""); [contradiction | reflexivity].
Qed.

Lemma login_messages (env : Env) (b : JsValue) :
  let r := login env b in
  (status (response r) = 400%nat /\
   json (response r) = errorJson "username and password are required" /\
   (truthy (getProp b "username") = false \/ truthy (getProp b "password") = false)) \/
  (status (response r) = 401%nat /\ json (response r) = errorJson "Invalid credentials") \/
  (status (response r) = 500%nat /\ json (response r) = errorJson "Unexpected error") \/
  (status (response r) = 200%nat /\
   json (response r) = authenticatedJson ALLOWED_USERNAME).
Proof.
  cbv zeta. unfold login.
  destruct (truthy b) eqn:Tb.
  - destruct (truthy (getProp b "username")) eqn:Tu; cbn [negb orb];
      [| left; repeat split; left; reflexivity].
    destruct (truthy (getProp b "password")) eqn:Tp; cbn [negb];
      [| left; repeat split; right; reflexivity].
    destruct (isAllowed (getProp b "username")); cbn [negb];
      [| right; left; split; reflexivity].
    destruct (selectPasswordHash env ALLOWED_USERNAME) as [[| [hash |] rows] |];
      try (right; left; split; reflexivity);
      try (right; right; left; split; reflexivity).
    destruct (Nat.ltb 0 (String.length hash));
      [| right; left; split; reflexivity].
    destruct (bcrypt_compare env (getProp b "password") hash) as [[|] |].
    + right; right; right. split; reflexivity.
    + right; left. split; reflexivity.
    + right; right; left. split; reflexivity.
  - cbn. left. repeat split.
    destruct b as [| | [|] | n | s | items | fields]; cbn in Tb |- *;
      try discriminate; left; reflexivity.
Qed.

(** X20.  The login form against the handler.  Whatever the user name and
    the password, [handleLogin] ends with [submitting] false and the page
    either authenticated or not; it is authenticated exactly when the
    handler answered 200, with no error shown, and then the user is
    "Guandacol" and [bcrypt.compare] accepted the password against a
    non-empty stored hash.  Otherwise the error shown is the handler's own
    message: "username and password are required" when either is empty,
    "Invalid credentials" for another user, and never the network
    message. *)
Theorem login_form_outcome :
  forall (env : Env) (cookie : option string) (username password : string)
         (a : Auth),
    let r := handler env (loginRequest cookie username password) in
    let a' := handleLogin (served r) a in
    submitting a' = false /\
    (authState a' = authed <-> status (response r) = 200%nat) /\
    (authState a' <> authed -> authState a' = unauthenticated) /\
    (authState a' = authed ->
     authError a' = JNull /\ username = ALLOWED_USERNAME /\ password <> "" /\
     exists hash rows,
       selectPasswordHash env ALLOWED_USERNAME = Some (Some hash :: rows) /\
       hash <> "" /\
       bcrypt_compare env (JString password) hash = Some true) /\
    (authState a' = unauthenticated ->
     In (authError a')
        [JString "username and password are required";
         JString "Invalid credentials"; JString "Unexpected error"]) /\
    (username = "" \/ password = "" ->
     authError a' = JString "username and password are required") /\
    (username <> "" -> password <> "" -> username <> ALLOWED_USERNAME ->
     authError a' = JString "Invalid credentials").
Proof.
  intros env cookie username password a r a'.
  set (b := JObject [("username", JString username); ("password", JString password)]).
  assert (R : r = login env b) by (subst r; reflexivity).
  assert (Gu : getProp b "username" = JString username) by reflexivity.
  assert (Gp : getProp b "password" = JString password) by reflexivity.
  assert (Tu : truthy (JString username) = false <-> username = "").
  { cbn. destruct (String.eqb_spec username ""); cbn; split; intro; congruence. }
  assert (Tp : truthy (JString password) = false <-> password = "").
  { cbn. destruct (String.eqb_spec password ""); cbn; split; intro; congruence. }
  pose proof (login_cases env b) as C. pose proof (login_messages env b) as M.
  cbv zeta in C, M. rewrite <- R in C, M. rewrite Gu, Gp in *.
  assert (U : username = "" \/ password = "" ->
              status (response r) = 400%nat /\
              json (response r) = errorJson "username and password are required").
  { intro E. rewrite R. unfold login. cbn [truthy b]. rewrite Gu, Gp.
    destruct E as [E | E]; subst; cbn.
    - split; reflexivity.
    - destruct (String.eqb username ""); split; reflexivity. }
  assert (V : username <> "" -> password <> "" -> username <> ALLOWED_USERNAME ->
              status (response r) = 401%nat /\
              json (response r) = errorJson "Invalid credentials").
  { intros Nu Np Na. rewrite R. unfold login. cbn [truthy b]. rewrite Gu, Gp.
    cbn [truthy isAllowed].
    destruct (String.eqb_spec username ""); [contradiction |].
    destruct (String.eqb_spec password ""); [contradiction |].
    destruct (String.eqb_spec username ALLOWED_USERNAME); [contradiction |].
    split; reflexivity. }
  subst a'. unfold served.
  destruct M as [[S [J _]] | [[S J] | [[S J] | [S J]]]]; rewrite S, J in *.
  1-3: rewrite handleLogin_error by (reflexivity || discriminate);
    cbn [submitting authState authError];
    (split; [reflexivity |]);
    (split; [split; discriminate |]);
    (split; [intros _; reflexivity |]);
    (split; [discriminate |]);
    (split; [intros _; cbn; tauto |]);
    (split;
     [ intro E; first [reflexivity | destruct (U E) as [X _]; discriminate X]
     | intros Nu Np Na;
       first [reflexivity | destruct (V Nu Np Na) as [X _]; discriminate X] ]).
  rewrite handleLogin_ok by reflexivity.
  cbn [submitting authState authError].
  destruct C as [[X _] | [[X _] | [[X _] | [_ [_ [Eu [hash [rows [Q [Hn B]]]]]]]]]];
    try discriminate X.
  injection Eu as Eu.
  split; [reflexivity |].
  split; [split; reflexivity |].
  split; [intro N; contradiction |].
  split.
  { intros _. split; [reflexivity |]. split; [exact Eu |].
    split; [intro E; destruct (U (or_intror E)) as [X _]; discriminate X |].
    exists hash, rows. repeat split; assumption. }
  split; [discriminate |].
  split; [intro E; destruct (U E) as [X _]; discriminate X |].
  intros Nu Np Na. contradiction.
Qed.

(** X21.  The session check of a mounting page against the handler, for
    a cookie header that [readSession] reads without an exception: the page
    ends authenticated exactly when [readSession] finds a user, and
    unauthenticated otherwise, in particular when no cookie is sent; the
    error shown and [submitting] are left as they were. *)
Theorem session_check_outcome :
  forall (k : Crypto) (env : Env) (cookie : option string) (a : Auth),
    readSession k cookie <> Raised ->
    let a' := checkAuth (served (handler (envOf k env) (checkRequest cookie))) a in
    (authState a' = authed <-> exists username, readSession k cookie = Found username) /\
    (authState a' <> authed -> authState a' = unauthenticated) /\
    (cookie = None -> authState a' = unauthenticated) /\
    authError a' = authError a /\ submitting a' = submitting a.
Proof.
  intros k env cookie a N a'. subst a'.
  unfold handler, checkRequest, envOf.
  cbn [method Login.cookie Login.readSession].
  change (String.eqb "GET" "GET") with true. cbv iota.
  assert (E : readSession k None = Absent) by reflexivity.
  destruct (readSession k cookie) as [username | |] eqn:R.
  - cbn. split; [split; [intros _; exists username; reflexivity | reflexivity] |].
    split; [intro C; contradiction |].
    split; [intro C; subst cookie; rewrite E in R; discriminate R |].
    split; reflexivity.
  - cbn. split; [split; [discriminate | intros [u C]; discriminate C] |].
    split; [reflexivity |]. split; [reflexivity |]. split; reflexivity.
  - contradiction.
Qed.

Lemma session_check_outcome_witness :
  readSession sampleCrypto None <> Raised /\
  authState (checkAuth (served (handler (envOf sampleCrypto failingEnv)
                                        (checkRequest None))) initialAuth)
  = unauthenticated.
Proof.
  assert (N : readSession sampleCrypto None <> Raised) by discriminate.
  split; [exact N |].
  exact (proj1 (proj2 (proj2
           (session_check_outcome sampleCrypto failingEnv None initialAuth N)))
         eq_refl).
Defined.

Lemma audioStep_facts (s : AudioState) (e : AuthState * AudioEvent) :
  (audioRef s = None \/ audioRef s = Some backgroundAudio) ->
  (audioStatus s <> idle -> audioRef s = Some backgroundAudio) ->
  let s' := audioStep s e in
  (audioRef s' = None \/ audioRef s' = Some backgroundAudio) /\
  (audioStatus s' <> idle -> audioRef s' = Some backgroundAudio) /\
  (audioStatus s <> idle -> audioStatus s' <> idle) /\
  (audioRef s = Some backgroundAudio -> audioRef s' = Some backgroundAudio) /\
  (fst e <> authed -> s' = s) /\
  (playedIn e = false -> audioStatus s <> playing -> audioStatus s' <> playing) /\
  (audioStatus s = playing -> audioStatus s' = playing \/ audioStatus s' = paused).
Proof.
  intros Href Hst. destruct s as [st ref]. destruct e as [auth ev].
  cbn [audioStatus audioRef] in *.
  unfold audioStep, toggleAudio, ensureAudio, playedIn.
  cbn [fst snd audioStatus audioRef].
  destruct Href as [Href | Href]; subst ref;
    destruct st; try (exfalso; assert (X : @None HTMLAudioElement = Some backgroundAudio)
                        by (apply Hst; discriminate); discriminate X);
    destruct auth; destruct ev as [[|] | [|] | [|]];
    cbn [isAuthed isIdle andb audioStatus audioRef];
    repeat split; intros; try congruence; try tauto;
    try (left; reflexivity); try (right; reflexivity).
Qed.

(** X22.  The background music, over any history of clicks, autoplay
    attempts and first gestures.  The page holds at most one audio element,
    the looping "/background.mp3", and holds it whenever the status is not
    idle; once the status has left idle it never returns to it; nothing
    happens while the page is not authenticated; and the status shows
    playing only if [play()] resolved in some event. *)
Theorem audio_status_machine :
  forall es : list (AuthState * AudioEvent),
    let s := audioRun es initialAudio in
    (audioRef s = None \/ audioRef s = Some backgroundAudio) /\
    (audioStatus s <> idle -> audioRef s = Some backgroundAudio) /\
    (forall es' : list (AuthState * AudioEvent),
        audioStatus s <> idle ->
        audioStatus (audioRun (es ++ es') initialAudio) <> idle) /\
    (Forall (fun e => fst e <> authed) es -> s = initialAudio) /\
    (audioStatus s = playing -> Exists (fun e => playedIn e = true) es).
Proof.
  intro es.
  assert (G : forall (es : list (AuthState * AudioEvent)) (s0 : AudioState),
             (audioRef s0 = None \/ audioRef s0 = Some backgroundAudio) ->
             (audioStatus s0 <> idle -> audioRef s0 = Some backgroundAudio) ->
             let s := audioRun es s0 in
             (audioRef s = None \/ audioRef s = Some backgroundAudio) /\
             (audioStatus s <> idle -> audioRef s = Some backgroundAudio) /\
             (audioStatus s0 <> idle -> audioStatus s <> idle) /\
             (Forall (fun e => fst e <> authed) es -> s = s0) /\
             (audioStatus s = playing ->
              audioStatus s0 = playing \/ Exists (fun e => playedIn e = true) es)).
  { clear es. intro es. induction es as [| e es IH]; intros s0 A B.
    - cbn. repeat split; try assumption; try tauto.
    - destruct (audioStep_facts s0 e A B) as [A1 [B1 [C1 [_ [D1 [E1 _]]]]]].
      destruct (IH (audioStep s0 e) A1 B1) as [A2 [B2 [C2 [D2 E2]]]].
      unfold audioRun in *. cbn [fold_left].
      split; [exact A2 |]. split; [exact B2 |].
      split; [intro N; apply C2, C1, N |].
      split.
      + intro F. inversion F as [| ? ? F1 F2]; subst.
        rewrite (D2 F2). apply D1. exact F1.
      + intro P. destruct (E2 P) as [P1 | P1].
        * destruct (playedIn e) eqn:Pe.
          -- right. left. exact Pe.
          -- destruct s0 as [st ref]. destruct st;
               try (exfalso; apply (E1 eq_refl); [discriminate | exact P1]).
             left. reflexivity.
        * right. right. exact P1. }
  intro s. subst s.
  destruct (G es initialAudio) as [A [B [_ [D E]]]];
    [left; reflexivity | intro N; exfalso; apply N; reflexivity |].
  split; [exact A |]. split; [exact B |].
  split.
  - intros es' N. unfold audioRun. rewrite fold_left_app.
    destruct (G es' (audioRun es initialAudio) A B) as [_ [_ [C _]]].
    apply C. exact N.
  - split; [exact D |].
    intro P. destruct (E P) as [P1 | P1]; [discriminate P1 | exact P1].
Qed.

End ClientProperties.
